(** * Reconciliation of a PowerStore host: embedding of plugins/modules/host.py

    The module reconciles a requested host (an initiator group) against
    the host observed on the array.  The embedding below follows the
    Python source function by function:

    - module parameters and the observed host are records;
    - [fail_json] ends the process, so every operation runs in a small
      error monad that also threads the array and the log of the
      mutating calls made on [conn.provisioning];
    - Python [set] values are [gset string], and [list(set(..))] is
      [elements]. *)

From Stdlib Require Import String Ascii.
From stdpp Require Import base option list gmap sets strings.

Local Open Scope string_scope.
Local Open Scope list_scope.

Set Warnings "-clear-no-such-hyp".

(** ** Python values *)

(** [str.startswith]. *)
Definition startswith (s p : string) : bool := String.prefix p s.

(** Truth value of an optional string: [None] and [''] are false. *)
Definition truthy_str (o : option string) : bool :=
  match o with
  | Some s => negb (String.eqb s "")
  | None => false
  end.

(** Truth value of an optional list: [None] and [[]] are false. *)
Definition truthy_list {A : Type} (o : option (list A)) : bool :=
  match o with
  | Some (_ :: _) => true
  | _ => false
  end.

(** [o is not None]; also the truth value of an optional choice, whose
    values are non-empty strings. *)
Definition is_not_none {A : Type} (o : option A) : bool :=
  match o with Some _ => true | None => false end.

(** [x in l] for a list of strings. *)
Definition py_in (x : string) (l : list string) : bool :=
  existsb (String.eqb x) l.

(** [set(l)]. *)
Definition py_set (l : list string) : gset string := list_to_set l.

(** [a.issubset(b)]. *)
Definition issubset (a b : gset string) : bool := bool_decide (a ⊆ b).

(** ** Constants *)

(** [PORT_TYPES = ["iSCSI", "FC", "NVMe"]], read by index in the script. *)
Definition PORT_TYPES : list string := ["iSCSI"; "FC"; "NVMe"].

Definition PORT_TYPES_at (i : nat) : string := nth i PORT_TYPES "".

(** ** Module parameters *)

(** [state], a required choice. *)
Inductive state_choice := present | absent.

(** [initiator_state], an optional choice. *)
Inductive initiator_state_choice := present_in_host | absent_in_host.

(** One element of [detailed_initiators]; every optional key that the
    caller leaves out is [None]. *)
Record detailed_initiator := {
  port_name : string;
  port_type : option string;
  chap_single_username : option string;
  chap_single_password : option string;
  chap_mutual_username : option string;
  chap_mutual_password : option string
}.

Record module_params := {
  host_name : option string;
  host_id : option string;
  os_type : option string;
  initiators : option (list string);
  detailed_initiators : option (list detailed_initiator);
  state : state_choice;
  initiator_state : option initiator_state_choice;
  new_name : option string;
  host_connectivity : option string
}.

(** ** The observed host *)

Record host_initiator := {
  hi_port_name : string;
  hi_port_type : string;
  hi_chap_single_username : option string;
  hi_chap_mutual_username : option string
}.

(** The host dictionary returned by the array.  [h_host_initiators] is
    [None] when the key is missing; a null value behaves as the empty
    list in every branch that reads it. *)
Record host := {
  h_id : string;
  h_name : string;
  h_os_type : string;
  h_host_initiators : option (list host_initiator);
  h_host_connectivity : string
}.

(** ** What is sent to the array *)

(** The four CHAP keys of an initiator dictionary. *)
Record chap_keys := {
  k_chap_single_username : option string;
  k_chap_single_password : option string;
  k_chap_mutual_username : option string;
  k_chap_mutual_password : option string
}.

(** An initiator dictionary as sent; [i_chap = None] when the
    dictionary has the keys [port_name] and [port_type] only. *)
Record initiator_dict := {
  i_port_name : string;
  i_port_type : string;
  i_chap : option chap_keys
}.

(** The mutating calls on [conn.provisioning]. *)
Inductive request :=
| CreateHost (name os_type : string) (inits : list initiator_dict)
             (connectivity : option string)
| ModifyHostAdd (id : string) (add_initiators : list initiator_dict)
| ModifyHostRemove (id : string) (remove_initiators : list string)
| ModifyHost (id : string) (name connectivity : option string)
| DeleteHost (id : string).

(** ** Initiator set differ *)

Definition _get_add_initiators (existing requested : list string)
  : list string :=
  let all_inits := existing ++ requested in
  elements (py_set all_inits ∖ py_set existing).

Definition _get_remove_initiators (existing requested : list string)
  : list string :=
  elements (py_set existing ∩ py_set requested).

(** ** Initiator classifier

    The source has no classifier function: the same three-way branch is
    written out at each place that needs a port type.  The four places
    are embedded separately below ([create_simple_entry],
    [create_detailed_entry], [add_detailed_entry], [add_simple_entry]);
    [classify] states the rule once, in the words of the
    specification, for comparison. *)

Definition classify (raw_identifier : string) : string :=
  if String.eqb (substring 0 3 raw_identifier) "iqn" then "iSCSI"
  else if String.eqb (substring 0 3 raw_identifier) "nqn" then "NVMe"
  else "FC".

(** ** Failures

    Every [fail_json] call of the module is one constructor case; the
    constructors are named after the error classes of the
    specification. *)

(** Exceptions that reach an [except Exception] handler: an error of
    the SDK ([err_code == HTTP_ERR] or not, with its status code), any
    other exception of the transport, or a Python error of the module
    itself. *)
Inductive py_exception :=
| PowerStoreException (http_err : bool) (status_code : string)
| OtherException
| TypeError
| KeyError.

Inductive operation :=
| OpGetHost | OpGetHostByName | OpCreate | OpAddInitiators
| OpRemoveInitiators | OpUpdate | OpDelete.

Inductive config_problem :=
| OsTypeNotSpecified        (* "Create host .. failed as os_type is not specified" *)
| InitiatorsMandatory       (* "initiators or detailed_initiators are mandatory .." *)
| InitiatorStateMandatory   (* "initiator_state is mandatory along with .." *)
| NewNameForAbsentHost      (* "new_name is given for a host that doesnt exist" *)
| IncorrectInitiatorState.  (* "Incorrect initiator_state specified for Create .." *)

Inductive failure :=
| ConfigurationError (why : config_problem)
| ValidationError (unsupported_port_type : string)
| ProtocolMixError
| AmbiguousNameError
| ImmutableFieldError
| RemoteOperationError (op : operation) (e : py_exception)
| Uncaught (e : py_exception).

(** ** The array and the monad of the module *)

Inductive sdk_result (A : Type) :=
| Returns (a : A)
| Raises (e : py_exception).
Arguments Returns {A} a.
Arguments Raises {A} e.

(** [conn.provisioning], the collaborator the module talks to: two
    lookups, and the mutating calls, each of which leaves the array in
    a new state and may raise. *)
Class Provisioning (R : Type) := {
  get_host_details : R -> option string -> sdk_result (option host);
  get_host_by_name : R -> string -> sdk_result (list host);
  perform : R -> request -> R * option py_exception
}.

Record world (R : Type) := World {
  array : R;
  sent : list request
}.
Arguments World {R} array sent.
Arguments array {R} w.
Arguments sent {R} w.

Inductive outcome (A : Type) :=
| Done (a : A)
| Failed (f : failure).
Arguments Done {A} a.
Arguments Failed {A} f.

Definition M (R A : Type) : Type := world R -> outcome A * world R.

Definition ret {R A : Type} (a : A) : M R A := fun w => (Done a, w).

Definition bind {R A B : Type} (c : M R A) (k : A -> M R B) : M R B :=
  fun w =>
    match c w with
    | (Done a, w') => k a w'
    | (Failed f, w') => (Failed f, w')
    end.

(** [self.module.fail_json(msg=..)]: the process exits. *)
Definition fail_json {R A : Type} (f : failure) : M R A :=
  fun w => (Failed f, w).

Notation "'do' x <- c ; k" := (bind c (fun x => k))
  (at level 10, x name, c at level 100, k at level 200).
Notation "'run' c ; k" := (bind c (fun _ => k))
  (at level 10, c at level 100, k at level 200).

(** Result of the module: [self.result]. *)
Inductive host_details :=
| EmptyDict
| Fetched (h : option host).

Record result := {
  changed : bool;
  details : host_details
}.

Section Operations.

Context {R : Type} `{Provisioning R}.

(** A lookup on the array. *)
Definition query {A : Type} (f : R -> sdk_result A) : M R (sdk_result A) :=
  fun w => (Done (f (array w)), w).

(** A mutating call: it is logged, the array moves on, and the
    exception, if any, is handed to the [except] clause. *)
Definition call (req : request) : M R (option py_exception) :=
  fun w =>
    let '(a', e) := perform (array w) req in
    (Done e, World a' (sent w ++ [req])).

(** [try: call; return True  except Exception as e: fail_json(..)]. *)
Definition call_or_fail (op : operation) (req : request) : M R bool :=
  do e <- call req;
  match e with
  | None => ret true
  | Some e => fail_json (RemoteOperationError op e)
  end.

Definition get_host (host_id : option string) : M R (option host) :=
  do r <- query (fun a => get_host_details a host_id);
  match r with
  | Returns (Some host_from_get) => ret (Some host_from_get)
  | Returns None => ret None
  | Raises e => fail_json (RemoteOperationError OpGetHost e)
  end.

Definition is_http_404 (e : py_exception) : bool :=
  match e with
  | PowerStoreException http_err status_code =>
      http_err && String.eqb status_code "404"
  | _ => false
  end.

Definition get_host_id_by_name (host_name : string) : M R (option string) :=
  do r <- query (fun a => get_host_by_name a host_name);
  match r with
  | Returns host_info =>
      match host_info with
      | [] => ret None
      | first :: _ =>
          if (1 <? length host_info)%nat then fail_json AmbiguousNameError
          else ret (Some (h_id first))
      end
  | Raises e =>
      if is_http_404 e then ret None
      else fail_json (RemoteOperationError OpGetHostByName e)
  end.

(** *** create_host *)

(** Body of the loop over [initiators]: the dictionary appended to
    [list_of_initiators] and the element appended to
    [initiator_type]. *)
Definition create_simple_entry (initiator : string)
  : initiator_dict * string :=
  if startswith initiator "iqn" then
    ({| i_port_name := initiator; i_port_type := PORT_TYPES_at 0;
        i_chap := None |}, PORT_TYPES_at 0)
  else if startswith initiator "nqn" then
    ({| i_port_name := initiator; i_port_type := PORT_TYPES_at 2;
        i_chap := None |}, PORT_TYPES_at 2)
  else
    ({| i_port_name := initiator; i_port_type := PORT_TYPES_at 1;
        i_chap := None |}, PORT_TYPES_at 1).

Definition chap_of (d : detailed_initiator) : chap_keys :=
  {| k_chap_single_username := chap_single_username d;
     k_chap_single_password := chap_single_password d;
     k_chap_mutual_username := chap_mutual_username d;
     k_chap_mutual_password := chap_mutual_password d |}.

(** Body of the loop over [detailed_initiators]: a missing
    [port_type] is filled in, in place, and the dictionary is later
    sent whole, with its four CHAP keys. *)
Definition create_detailed_entry (initiator : detailed_initiator)
  : initiator_dict :=
  let filled :=
    match port_type initiator with
    | None =>
        if startswith (port_name initiator) "iqn" then PORT_TYPES_at 0
        else if startswith (port_name initiator) "nqn" then PORT_TYPES_at 2
        else PORT_TYPES_at 1
    | Some given => given
    end in
  {| i_port_name := port_name initiator; i_port_type := filled;
     i_chap := Some (chap_of initiator) |}.

Definition create_host (p : module_params) (host_name : string) : M R bool :=
  match os_type p with
  | None => fail_json (ConfigurationError OsTypeNotSpecified)
  | Some os =>
      match initiators p with
      | Some (first :: others) =>
          let entries := map create_simple_entry (first :: others) in
          let list_of_initiators := map fst entries in
          let initiator_type := map snd entries in
          if py_in "iSCSI" initiator_type && py_in "FC" initiator_type
             && py_in "NVMe" initiator_type
          then fail_json ProtocolMixError
          else call_or_fail OpCreate
                 (CreateHost host_name os list_of_initiators
                    (host_connectivity p))
      | _ =>
          match detailed_initiators p with
          | None => fail_json (RemoteOperationError OpCreate TypeError)
          | Some ds =>
              call_or_fail OpCreate
                (CreateHost host_name os (map create_detailed_entry ds)
                   (host_connectivity p))
          end
      end
  end.

(** *** add_host_initiators *)

(** Body of the inner loop when [detailed_initiators] is used. *)
Definition add_detailed_entry (init : string)
    (detailed_init : detailed_initiator) : initiator_dict :=
  if startswith init "iqn" then
    {| i_port_name := init; i_port_type := PORT_TYPES_at 0;
       i_chap := Some (chap_of detailed_init) |}
  else if startswith init "nqn" then
    {| i_port_name := init; i_port_type := PORT_TYPES_at 2; i_chap := None |}
  else
    {| i_port_name := init; i_port_type := PORT_TYPES_at 1; i_chap := None |}.

(** Body of the loop when [initiators] is used. *)
Definition add_simple_entry (init : string) : initiator_dict :=
  if startswith init "iqn" then
    {| i_port_name := init; i_port_type := PORT_TYPES_at 0; i_chap := None |}
  else if startswith init "nqn" then
    {| i_port_name := init; i_port_type := PORT_TYPES_at 2; i_chap := None |}
  else
    {| i_port_name := init; i_port_type := PORT_TYPES_at 1; i_chap := None |}.

(** [existing_inits] as the add path builds it. *)
Definition existing_inits_of (current_initiators : option (list host_initiator))
  : list string :=
  match current_initiators with
  | Some l => map hi_port_name l
  | None => []
  end.

(** The port names of [detailed_initiators]. *)
Definition detailed_port_names (ds : list detailed_initiator) : list string :=
  map port_name ds.

(** The nested loop that builds [add_list_with_type]. *)
Definition build_add_list_with_type
    (detailed : option (list detailed_initiator)) (add_list : list string)
  : list initiator_dict :=
  flat_map
    (fun init =>
       match detailed with
       | Some (d :: ds) =>
           flat_map
             (fun detailed_init =>
                if String.eqb init (port_name detailed_init)
                then [add_detailed_entry init detailed_init]
                else [])
             (d :: ds)
       | _ => [add_simple_entry init]
       end)
    add_list.

Definition add_host_initiators (p : module_params) (host : host) : M R bool :=
  let existing_inits := existing_inits_of (h_host_initiators host) in
  if truthy_list (initiators p)
     && issubset (py_set (default [] (initiators p))) (py_set existing_inits)
  then ret false
  else
    let initiator_list :=
      match detailed_initiators p with
      | Some ds => detailed_port_names ds
      | None => []
      end in
    if truthy_list (detailed_initiators p)
       && issubset (py_set initiator_list) (py_set existing_inits)
    then ret false
    else
      let requested :=
        if truthy_list (detailed_initiators p)
        then Some initiator_list
        else initiators p in
      match requested with
      | None => fail_json (RemoteOperationError OpAddInitiators TypeError)
      | Some requested =>
          let add_list := _get_add_initiators existing_inits requested in
          let add_list_with_type :=
            build_add_list_with_type (detailed_initiators p) add_list in
          if (0 <? length add_list_with_type)%nat
          then call_or_fail OpAddInitiators
                 (ModifyHostAdd (h_id host) add_list_with_type)
          else ret false
      end.

(** *** remove_host_initiators *)

Definition remove_host_initiators (p : module_params) (host : host)
  : M R bool :=
  match h_host_initiators host with
  | None => fail_json (RemoteOperationError OpRemoveInitiators KeyError)
  | Some current_initiators =>
      let existing_inits := map hi_port_name current_initiators in
      if (length existing_inits =? 0)%nat then ret false
      else
        let requested :=
          match detailed_initiators p with
          | Some (d :: ds) => Some (detailed_port_names (d :: ds))
          | _ => initiators p
          end in
        match requested with
        | None => fail_json (RemoteOperationError OpRemoveInitiators TypeError)
        | Some requested =>
            let remove_list :=
              _get_remove_initiators existing_inits requested in
            if (0 <? length remove_list)%nat
            then call_or_fail OpRemoveInitiators
                   (ModifyHostRemove (h_id host) remove_list)
            else ret false
        end
  end.

(** *** update_host, delete_host *)

Definition update_host (host : host) (new_name host_connectivity : option string)
  : M R bool :=
  call_or_fail OpUpdate (ModifyHost (h_id host) new_name host_connectivity).

Definition delete_host (host : host) : M R bool :=
  call_or_fail OpDelete (DeleteHost (h_id host)).

(** *** validate_initiators *)

(** [a == b] for an optional string [a] and a string [b]. *)
Definition py_eq (a : option string) (b : string) : bool :=
  match a with
  | Some s => String.eqb s b
  | None => false
  end.

Fixpoint validate_initiators (detailed_initiators : list detailed_initiator)
  : M R unit :=
  match detailed_initiators with
  | [] => ret tt
  | initiator :: rest =>
      if truthy_str (chap_single_username initiator)
         || truthy_str (chap_mutual_username initiator)
      then
        if py_eq (port_type initiator) (PORT_TYPES_at 1)
        then fail_json (ValidationError (PORT_TYPES_at 1))
        else if py_eq (port_type initiator) (PORT_TYPES_at 2)
        then fail_json (ValidationError (PORT_TYPES_at 2))
        else validate_initiators rest
      else validate_initiators rest
  end.

(** *** _create_result_dict *)

Definition _create_result_dict (p : module_params) (changed : bool)
    (host_id : option string) : M R result :=
  match state p with
  | absent => ret {| changed := changed; details := EmptyDict |}
  | present =>
      do h <- get_host host_id;
      ret {| changed := changed; details := Fetched h |}
  end.

(** *** is_modify_required *)

Definition is_modify_required (host : host)
    (new_name host_connectivity : option string) : bool :=
  let modify_flag := false in
  let modify_flag :=
    if is_not_none new_name
       && negb (py_eq new_name (h_name host))
    then true else modify_flag in
  let modify_flag :=
    if is_not_none host_connectivity
       && negb (py_eq host_connectivity (h_host_connectivity host))
    then true else modify_flag in
  modify_flag.

(** *** perform_module_operation *)

Definition is_present (s : state_choice) : bool :=
  match s with present => true | absent => false end.

Definition is_absent (s : state_choice) : bool :=
  match s with absent => true | present => false end.

Definition is_present_in_host (s : option initiator_state_choice) : bool :=
  match s with Some present_in_host => true | _ => false end.

Definition is_absent_in_host (s : option initiator_state_choice) : bool :=
  match s with Some absent_in_host => true | _ => false end.

(** [if cond: fail_json(..)]. *)
Definition fail_if (cond : bool) (f : failure) : M R unit :=
  if cond then fail_json f else ret tt.

(** Lines 736-742: the host is looked up by name or by id. *)
Definition resolve_identity (p : module_params)
  : M R (option string * option host) :=
  do host_id <-
    (if truthy_str (host_name p)
     then get_host_id_by_name (default "" (host_name p))
     else ret (host_id p));
  do host <-
    (if truthy_str host_id
     then do host <- get_host host_id;
          match host with
          | Some h => ret (Some h)
          | None => fail_json (Uncaught TypeError)   (* host['name'] *)
          end
     else ret None);
  ret (host_id, host).

(** Lines 745-762: the checks on [initiator_state] and the initiator
    parameters, then [validate_initiators]. *)
Definition check_parameters (p : module_params) : M R unit :=
  run fail_if (is_not_none (initiator_state p)
               && (negb (truthy_list (initiators p))
                   && negb (truthy_list (detailed_initiators p))))
        (ConfigurationError InitiatorsMandatory);
  run fail_if ((truthy_list (initiators p)
                || truthy_list (detailed_initiators p))
               && negb (is_not_none (initiator_state p)))
        (ConfigurationError InitiatorStateMandatory);
  if truthy_list (detailed_initiators p)
     && is_not_none (initiator_state p)
  then validate_initiators (default [] (detailed_initiators p))
  else ret tt.

(** Lines 764-779: the host is created when it is absent. *)
Definition create_step (p : module_params) (host : option host)
    (host_name host_id : option string) (changed : bool)
  : M R (bool * option string) :=
  if is_present (state p) && negb (is_not_none host) && truthy_str host_name
  then
    run fail_if (truthy_str (new_name p))
          (ConfigurationError NewNameForAbsentHost);
    run fail_if (negb (is_present_in_host (initiator_state p)))
          (ConfigurationError IncorrectInitiatorState);
    do changed <- create_host p (default "" host_name);
    do host_id <-
      (if changed then get_host_id_by_name (default "" host_name)
       else ret host_id);
    ret (changed, host_id)
  else ret (changed, host_id).

(** Lines 781-785: [os_type] cannot be modified. *)
Definition os_type_check (p : module_params) (host : option host) : M R unit :=
  fail_if (match host with
           | Some h => truthy_str (os_type p)
                       && negb (py_eq (os_type p) (h_os_type h))
           | None => false
           end)
    ImmutableFieldError.

(** Lines 787-791. *)
Definition add_step (p : module_params) (host : option host) (changed : bool)
  : M R bool :=
  match host with
  | Some h =>
      if is_present (state p) && is_present_in_host (initiator_state p)
         && (truthy_list (initiators p)
             || truthy_list (detailed_initiators p))
      then do added <- add_host_initiators p h; ret (added || changed)
      else ret changed
  | None => ret changed
  end.

(** Lines 793-797. *)
Definition remove_step (p : module_params) (host : option host)
    (changed : bool) : M R bool :=
  match host with
  | Some h =>
      if is_present (state p) && is_absent_in_host (initiator_state p)
         && (truthy_list (initiators p)
             || truthy_list (detailed_initiators p))
      then do removed <- remove_host_initiators p h; ret (removed || changed)
      else ret changed
  | None => ret changed
  end.

(** Lines 799-803. *)
Definition modify_step (p : module_params) (host : option host)
    (changed : bool) : M R bool :=
  match host with
  | Some h =>
      if is_present (state p)
         && (truthy_str (new_name p) || truthy_str (host_connectivity p))
      then
        let modify_flag :=
          is_modify_required h (new_name p) (host_connectivity p) in
        if modify_flag
        then update_host h (new_name p) (host_connectivity p)
        else ret changed
      else ret changed
  | None => ret changed
  end.

(** Lines 805-807. *)
Definition delete_step (p : module_params) (host : option host)
    (changed : bool) : M R bool :=
  match host with
  | Some h =>
      if is_absent (state p)
      then do deleted <- delete_host h; ret (deleted || changed)
      else ret changed
  | None => ret changed
  end.

(** The pass: the blocks above, in the order of the source. *)
Definition perform_module_operation (p : module_params) : M R result :=
  do resolved <- resolve_identity p;
  let '(host_id, host) := resolved in
  let host_name :=
    match host with
    | Some h => Some (h_name h)
    | None => host_name p
    end in
  let changed := false in
  run check_parameters p;
  do created <- create_step p host host_name host_id changed;
  let '(changed, host_id) := created in
  run os_type_check p host;
  do changed <- add_step p host changed;
  do changed <- remove_step p host changed;
  do changed <- modify_step p host changed;
  do changed <- delete_step p host changed;
  _create_result_dict p changed host_id.

End Operations.

(** ** An array kept in memory

    A small stand-in for the storage array, used to run the module on
    concrete requests: hosts are kept in a list, every mutating call
    succeeds, and a lookup by an unknown id raises the HTTP 404 error
    of the SDK. *)

Module MemoryArray.

Definition initiator_of_dict (d : initiator_dict) : host_initiator :=
  {| hi_port_name := i_port_name d;
     hi_port_type := i_port_type d;
     hi_chap_single_username :=
       match i_chap d with Some k => k_chap_single_username k | None => None end;
     hi_chap_mutual_username :=
       match i_chap d with Some k => k_chap_mutual_username k | None => None end |}.

Definition update_where (id : string) (f : host -> host) (hosts : list host)
  : list host :=
  map (fun h => if String.eqb (h_id h) id then f h else h) hosts.

Definition apply_request (hosts : list host) (req : request) : list host :=
  match req with
  | CreateHost name os inits connectivity =>
      hosts ++ [ {| h_id := String.append "id-" name; h_name := name;
                    h_os_type := os;
                    h_host_initiators := Some (map initiator_of_dict inits);
                    h_host_connectivity := default "Local_Only" connectivity |} ]
  | ModifyHostAdd id adds =>
      update_where id
        (fun h => {| h_id := h_id h; h_name := h_name h;
                     h_os_type := h_os_type h;
                     h_host_initiators :=
                       Some (default [] (h_host_initiators h)
                             ++ map initiator_of_dict adds);
                     h_host_connectivity := h_host_connectivity h |})
        hosts
  | ModifyHostRemove id names =>
      update_where id
        (fun h => {| h_id := h_id h; h_name := h_name h;
                     h_os_type := h_os_type h;
                     h_host_initiators :=
                       Some (List.filter
                               (fun i => negb (py_in (hi_port_name i) names))
                               (default [] (h_host_initiators h)));
                     h_host_connectivity := h_host_connectivity h |})
        hosts
  | ModifyHost id name connectivity =>
      update_where id
        (fun h => {| h_id := h_id h; h_name := default (h_name h) name;
                     h_os_type := h_os_type h;
                     h_host_initiators := h_host_initiators h;
                     h_host_connectivity :=
                       default (h_host_connectivity h) connectivity |})
        hosts
  | DeleteHost id =>
      List.filter (fun h => negb (String.eqb (h_id h) id)) hosts
  end.

Definition lookup_by_id (hosts : list host) (id : option string)
  : sdk_result (option host) :=
  match id with
  | Some id =>
      match List.find (fun h => String.eqb (h_id h) id) hosts with
      | Some h => Returns (Some h)
      | None => Raises (PowerStoreException true "404")
      end
  | None => Raises (PowerStoreException true "404")
  end.

Definition lookup_by_name (hosts : list host) (name : string)
  : sdk_result (list host) :=
  Returns (List.filter (fun h => String.eqb (h_name h) name) hosts).

#[global] Instance provisioning : Provisioning (list host) := {
  get_host_details := lookup_by_id;
  get_host_by_name := lookup_by_name;
  perform hosts req := (apply_request hosts req, None)
}.

(** The host "h1" of the scenarios: a Windows host with the two FC
    initiators A and B. *)
Definition wwn_A : string := "21:00:00:24:ff:31:e9:fa".
Definition wwn_B : string := "21:00:00:24:ff:31:e9:fb".
Definition wwn_C : string := "21:00:00:24:ff:31:e9:fc".

Definition fc_initiator (wwn : string) : host_initiator :=
  {| hi_port_name := wwn; hi_port_type := "FC";
     hi_chap_single_username := None; hi_chap_mutual_username := None |}.

Definition h1 : host :=
  {| h_id := "id-h1"; h_name := "h1"; h_os_type := "Windows";
     h_host_initiators := Some [fc_initiator wwn_A; fc_initiator wwn_B];
     h_host_connectivity := "Local_Only" |}.

(** A request that names a host and asks for nothing else. *)
Definition request_for (name : string) (s : state_choice) : module_params :=
  {| host_name := Some name; host_id := None; os_type := None;
     initiators := None; detailed_initiators := None; state := s;
     initiator_state := None; new_name := None; host_connectivity := None |}.

Definition with_initiators (p : module_params) (l : list string)
    (s : initiator_state_choice) : module_params :=
  {| host_name := host_name p; host_id := host_id p; os_type := os_type p;
     initiators := Some l; detailed_initiators := None; state := state p;
     initiator_state := Some s; new_name := new_name p;
     host_connectivity := host_connectivity p |}.

Definition with_detailed (p : module_params) (l : list detailed_initiator)
    (s : initiator_state_choice) : module_params :=
  {| host_name := host_name p; host_id := host_id p; os_type := os_type p;
     initiators := None; detailed_initiators := Some l; state := state p;
     initiator_state := Some s; new_name := new_name p;
     host_connectivity := host_connectivity p |}.

Definition with_initiator_state (p : module_params)
    (s : initiator_state_choice) : module_params :=
  {| host_name := host_name p; host_id := host_id p; os_type := os_type p;
     initiators := initiators p; detailed_initiators := detailed_initiators p;
     state := state p; initiator_state := Some s; new_name := new_name p;
     host_connectivity := host_connectivity p |}.

Definition with_os_type (p : module_params) (os : string) : module_params :=
  {| host_name := host_name p; host_id := host_id p; os_type := Some os;
     initiators := initiators p; detailed_initiators := detailed_initiators p;
     state := state p; initiator_state := initiator_state p;
     new_name := new_name p; host_connectivity := host_connectivity p |}.

Definition with_modify (p : module_params) (name connectivity : option string)
  : module_params :=
  {| host_name := host_name p; host_id := host_id p; os_type := os_type p;
     initiators := initiators p; detailed_initiators := detailed_initiators p;
     state := state p; initiator_state := initiator_state p;
     new_name := name; host_connectivity := connectivity |}.

(** A detailed initiator with no CHAP password. *)
Definition detailed (name : string) (type user : option string)
  : detailed_initiator :=
  {| port_name := name; port_type := type;
     chap_single_username := user; chap_single_password := None;
     chap_mutual_username := None; chap_mutual_password := None |}.

(** One pass of the module, started on the given hosts with an empty
    log. *)
Definition pass (p : module_params) (hosts : list host)
  : outcome result * world (list host) :=
  perform_module_operation p (World hosts []).

End MemoryArray.

(** ** Vocabulary of the statements *)

(** The five mutating steps of a pass, and the step a request belongs
    to. *)
Inductive step := StepCreate | StepAdd | StepRemove | StepModify | StepDelete.

Definition step_of (req : request) : step :=
  match req with
  | CreateHost _ _ _ _ => StepCreate
  | ModifyHostAdd _ _ => StepAdd
  | ModifyHostRemove _ _ => StepRemove
  | ModifyHost _ _ _ => StepModify
  | DeleteHost _ => StepDelete
  end.

Definition step_eqb (a b : step) : bool :=
  match a, b with
  | StepCreate, StepCreate | StepAdd, StepAdd | StepRemove, StepRemove
  | StepModify, StepModify | StepDelete, StepDelete => true
  | _, _ => false
  end.

(** Whether a log of requests holds a request of step [k]. *)
Definition issued (k : step) (log : list request) : bool :=
  existsb (fun req => step_eqb (step_of req) k) log.

(** The port names a request asks for, in either form: what both
    [add_host_initiators] and [remove_host_initiators] leave in their
    local [initiators]. *)
Definition requested_port_names (p : module_params) : list string :=
  match detailed_initiators p with
  | Some (d :: ds) => map port_name (d :: ds)
  | _ => default [] (initiators p)
  end.

(** The argument checks of [AnsibleModule] on the initiator
    parameters: [initiators] and [detailed_initiators] are mutually
    exclusive. *)
Definition mutually_exclusive (p : module_params) : Prop :=
  initiators p = None \/ detailed_initiators p = None.

(** The initiator parameters are supplied: the condition
    [initiators or detailed_initiators] of the pass. *)
Definition initiators_supplied (p : module_params) : bool :=
  truthy_list (initiators p) || truthy_list (detailed_initiators p).

(** A detailed initiator names a CHAP user. *)
Definition names_chap_user (d : detailed_initiator) : bool :=
  truthy_str (chap_single_username d) || truthy_str (chap_mutual_username d).

(** An initiator dictionary, as sent, names a CHAP user. *)
Definition carries_chap_user (i : initiator_dict) : bool :=
  match i_chap i with
  | Some k => truthy_str (k_chap_single_username k)
              || truthy_str (k_chap_mutual_username k)
  | None => false
  end.

(** The protocol families among the port types of a list of initiator
    dictionaries. *)
Definition spans_all_three (inits : list initiator_dict) : bool :=
  py_in "iSCSI" (map i_port_type inits)
  && py_in "FC" (map i_port_type inits)
  && py_in "NVMe" (map i_port_type inits).

(** What a step leaves in the log: its one request when its flag is
    true, nothing when its flag is false. *)
Definition step_outcome (k : step) (flag : bool) (log : list request) : Prop :=
  if flag then exists req, step_of req = k /\ log = [req] else log = [].

(** A computation is silent when it never touches the world. *)
Definition silent {R A : Type} (c : M R A) : Prop :=
  forall w, snd (c w) = w.

(** The condition of the rename block on the parameters: the source's
    [new_name or host_connectivity]. *)
Definition modify_requested (p : module_params) : bool :=
  truthy_str (new_name p) || truthy_str (host_connectivity p).

(** A given field differs from the observed host: [new_name] is not
    [None] and is not the observed name, or [host_connectivity] is not
    [None] and is not the observed connectivity. *)
Definition given_field_differs (p : module_params) (h : host) : Prop :=
  (exists n, new_name p = Some n /\ n <> h_name h)
  \/ (exists k, host_connectivity p = Some k /\ k <> h_host_connectivity h).

(** The sentence on rename and connectivity as the specification has
    it, for a pass started on the array [a] with an empty log, and for
    a reading [supplied] of "is supplied": when the host exists and
    [new_name] or [host_connectivity] is supplied, a modify request is
    issued if and only if a supplied field differs from the observed
    one. *)
Definition modify_iff_supplied_field_differs {R : Type} `{Provisioning R}
    (supplied : option string -> bool) (p : module_params) (a : R) : Prop :=
  forall host_id h,
    resolve_identity p (World a []) = (Done (host_id, Some h), World a []) ->
    supplied (new_name p) || supplied (host_connectivity p) = true ->
    (issued StepModify (sent (snd (perform_module_operation p (World a []))))
       = true
     <-> (supplied (new_name p) = true /\ new_name p <> Some (h_name h))
         \/ (supplied (host_connectivity p) = true
             /\ host_connectivity p <> Some (h_host_connectivity h))).

(** The sentence on [os_type] as the specification has it, for a pass
    started on the array [a] with an empty log: when the host exists
    and the [os_type] supplied differs from the observed one, the pass
    fails with the immutable-field error and nothing is requested. *)
Definition os_type_mismatch_fails_immutable {R : Type} `{Provisioning R}
    (p : module_params) (a : R) : Prop :=
  forall host_id h,
    resolve_identity p (World a []) = (Done (host_id, Some h), World a []) ->
    truthy_str (os_type p) = true ->
    py_eq (os_type p) (h_os_type h) = false ->
    perform_module_operation p (World a [])
    = (Failed ImmutableFieldError, World a []).

(** The sentence on adding initiators as the specification has it, for
    a pass started on the array [a] with an empty log: when the host
    exists, [initiator_state] is present-in-host and initiators are
    supplied, the pass requests nothing and a pass that returns has
    [changed = false] whenever the requested names are among the
    existing ones; otherwise the log of the pass is one batch add
    request whose dictionaries name exactly the requested names that
    are not existing ones, and a pass that returns has
    [changed = true]. *)
Definition add_pass_as_specified {R : Type} `{Provisioning R}
    (p : module_params) (a : R) : Prop :=
  forall host_id h,
    resolve_identity p (World a []) = (Done (host_id, Some h), World a []) ->
    initiator_state p = Some present_in_host ->
    initiators_supplied p = true ->
    let existing := existing_inits_of (h_host_initiators h) in
    let requested := requested_port_names p in
    let outcome := perform_module_operation p (World a []) in
    (py_set requested ⊆ py_set existing ->
     sent (snd outcome) = []
     /\ forall res w', outcome = (Done res, w') -> changed res = false)
    /\ (~ py_set requested ⊆ py_set existing ->
        (exists adds,
           sent (snd outcome) = [ModifyHostAdd (h_id h) adds]
           /\ py_set (map i_port_name adds)
              = py_set requested ∖ py_set existing)
        /\ forall res w', outcome = (Done res, w') -> changed res = true).

(** The sentence on removing initiators as the specification has it,
    for a pass started on the array [a] with an empty log: when the
    host exists and [initiator_state] is absent-in-host, the pass
    requests nothing and a pass that returns has [changed = false] if
    the host has no initiator or no existing name is requested;
    otherwise the log of the pass is one batch remove request that
    names exactly the existing names that are requested, and a pass
    that returns has [changed = true]. *)
Definition remove_pass_as_specified {R : Type} `{Provisioning R}
    (p : module_params) (a : R) : Prop :=
  forall host_id h,
    resolve_identity p (World a []) = (Done (host_id, Some h), World a []) ->
    initiator_state p = Some absent_in_host ->
    let existing := existing_inits_of (h_host_initiators h) in
    let requested := requested_port_names p in
    let outcome := perform_module_operation p (World a []) in
    (existing = [] \/ py_set existing ∩ py_set requested = ∅ ->
     sent (snd outcome) = []
     /\ forall res w', outcome = (Done res, w') -> changed res = false)
    /\ (existing <> [] /\ py_set existing ∩ py_set requested <> ∅ ->
        (exists names,
           sent (snd outcome) = [ModifyHostRemove (h_id h) names]
           /\ py_set names = py_set existing ∩ py_set requested)
        /\ forall res w', outcome = (Done res, w') -> changed res = true).

(** ** An array that refuses every request

    The same lookups as the array kept in memory, but every mutating
    call raises. *)

Module RejectingArray.

Record t := Array { hosts : list host }.

#[global] Instance provisioning : Provisioning t := {
  get_host_details a := MemoryArray.lookup_by_id (hosts a);
  get_host_by_name a := MemoryArray.lookup_by_name (hosts a);
  perform a req := (a, Some OtherException)
}.

End RejectingArray.

(** ** Vocabulary of the further properties *)

(** The computation [c], started in [w], either leaves the world as it
    is, or sends exactly one request, of the given shape, and fails
    with the error of the array when the array raises on it. *)
Definition sends_at_most_one {R : Type} `{Provisioning R} {A : Type}
    (c : M R A) (w : world R) (shape : request -> Prop) : Prop :=
  snd (c w) = w
  \/ exists req,
       shape req
       /\ snd (c w) = World (fst (perform (array w) req)) (sent w ++ [req])
       /\ forall e, snd (perform (array w) req) = Some e ->
                    exists op, fst (c w) = Failed (RemoteOperationError op e).

(** The requests each block of a pass may send, for the parameters [p]
    and the host [host] found at the start of the pass. *)
Definition create_request (p : module_params) (host : option host)
    (req : request) : Prop :=
  host = None /\ state p = present
  /\ exists n os inits,
       host_name p = Some n /\ os_type p = Some os /\ inits <> []
       /\ req = CreateHost n os inits (host_connectivity p).

Definition add_request (p : module_params) (host : option host)
    (req : request) : Prop :=
  state p = present /\ initiator_state p = Some present_in_host
  /\ exists h adds,
       host = Some h /\ adds <> [] /\ req = ModifyHostAdd (h_id h) adds.

Definition remove_request (p : module_params) (host : option host)
    (req : request) : Prop :=
  state p = present /\ initiator_state p = Some absent_in_host
  /\ exists h names,
       host = Some h /\ names <> []
       /\ req = ModifyHostRemove (h_id h) names.

Definition modify_request (p : module_params) (host : option host)
    (req : request) : Prop :=
  state p = present
  /\ exists h,
       host = Some h
       /\ req = ModifyHost (h_id h) (new_name p) (host_connectivity p).

Definition delete_request (p : module_params) (host : option host)
    (req : request) : Prop :=
  state p = absent /\ exists h, host = Some h /\ req = DeleteHost (h_id h).

(** A log holds nothing, or one request of the given shape. *)
Definition at_most_one (shape : request -> Prop) (log : list request) : Prop :=
  log = [] \/ exists req, shape req /\ log = [req].

(** The id of the host a request is addressed to; a create request
    names no id. *)
Definition target (req : request) : option string :=
  match req with
  | CreateHost _ _ _ _ => None
  | ModifyHostAdd id _ | ModifyHostRemove id _
  | ModifyHost id _ _ | DeleteHost id => Some id
  end.

(** The list of initiators a request carries, if it carries one, is not
    empty. *)
Definition carries_no_empty_list (req : request) : Prop :=
  match req with
  | CreateHost _ _ inits _ => inits <> []
  | ModifyHostAdd _ adds => adds <> []
  | ModifyHostRemove _ names => names <> []
  | ModifyHost _ _ _ | DeleteHost _ => True
  end.

(** The computation [c], started in [w], either leaves the world as it
    is, or sends exactly one request and fails with the error the array
    raised on it. *)
Definition stops_at_refusal {R : Type} `{Provisioning R} {A : Type}
    (c : M R A) (w : world R) : Prop :=
  snd (c w) = w
  \/ exists req op e,
       snd (perform (array w) req) = Some e
       /\ snd (c w) = World (fst (perform (array w) req)) (sent w ++ [req])
       /\ fst (c w) = Failed (RemoteOperationError op e).

(** A log that starts with at most one request of the given shape and
    goes on with a log that satisfies [rest]. *)
Definition then_log (shape : request -> Prop) (rest : list request -> Prop)
    (log : list request) : Prop :=
  exists l1 l2, log = l1 ++ l2 /\ at_most_one shape l1 /\ rest l2.

(** The log of a pass on the host [host]: at most one request of each
    block, in the order of the blocks. *)
Definition pass_log (p : module_params) (host : option host)
    (log : list request) : Prop :=
  then_log (create_request p host)
    (then_log (add_request p host)
       (then_log (remove_request p host)
          (then_log (modify_request p host)
             (then_log (delete_request p host) (fun l => l = [])))))
    log.

(** ** More requests and hosts for the examples *)

Module Examples.

(** A second host named "h1". *)
Definition twin : host :=
  {| h_id := "id-h1b"; h_name := "h1"; h_os_type := "Linux";
     h_host_initiators := Some []; h_host_connectivity := "Local_Only" |}.

(** A host whose dictionary has no key for its initiators. *)
Definition bare : host :=
  {| h_id := "id-h0"; h_name := "h0"; h_os_type := "Linux";
     h_host_initiators := None; h_host_connectivity := "Local_Only" |}.

(** "h1" after it was renamed to "h2". *)
Definition renamed : host :=
  {| h_id := "id-h1"; h_name := "h2"; h_os_type := "Windows";
     h_host_initiators :=
       Some [MemoryArray.fc_initiator MemoryArray.wwn_A;
             MemoryArray.fc_initiator MemoryArray.wwn_B];
     h_host_connectivity := "Local_Only" |}.

(** A request that gives the id of a host and asks for nothing else. *)
Definition request_by_id (id : string) (s : state_choice) : module_params :=
  {| host_name := None; host_id := Some id; os_type := None;
     initiators := None; detailed_initiators := None; state := s;
     initiator_state := None; new_name := None; host_connectivity := None |}.

(** The creation of "h2", a Windows host, with the FC initiator C. *)
Definition create_h2 : module_params :=
  MemoryArray.with_os_type
    (MemoryArray.with_initiators (MemoryArray.request_for "h2" present)
       [MemoryArray.wwn_C] present_in_host)
    "Windows".

(** The creation of "h2" with a detailed initiator that gives iSCSI as
    the type of an FC port name, and a CHAP user. *)
Definition create_h2_detailed : module_params :=
  MemoryArray.with_os_type
    (MemoryArray.with_detailed (MemoryArray.request_for "h2" present)
       [MemoryArray.detailed MemoryArray.wwn_C (Some "iSCSI") (Some "user")]
       present_in_host)
    "Windows".

(** The addition of C to "h1" together with its renaming to "h2". *)
Definition add_and_rename : module_params :=
  MemoryArray.with_modify
    (MemoryArray.with_initiators (MemoryArray.request_for "h1" present)
       [MemoryArray.wwn_C] present_in_host)
    (Some "h2") None.

(** A is asked to be present on "h1", and "h1" to be renamed to "h2". *)
Definition keep_and_rename : module_params :=
  MemoryArray.with_modify
    (MemoryArray.with_initiators (MemoryArray.request_for "h1" present)
       [MemoryArray.wwn_A] present_in_host)
    (Some "h2") None.

(** C is asked to be present on "h1", and "h1" to be absent. *)
Definition add_and_delete : module_params :=
  MemoryArray.with_initiators (MemoryArray.request_for "h1" absent)
    [MemoryArray.wwn_C] present_in_host.

(** C is asked to be present on the Windows host "h1", with Linux as
    its [os_type]. *)
Definition add_and_linux : module_params :=
  MemoryArray.with_os_type
    (MemoryArray.with_initiators (MemoryArray.request_for "h1" present)
       [MemoryArray.wwn_C] present_in_host)
    "Linux".

(** C is asked to be present on "h1", in the detailed form, announced
    as FC with a CHAP user. *)
Definition add_chap_on_fc : module_params :=
  MemoryArray.with_detailed (MemoryArray.request_for "h1" present)
    [MemoryArray.detailed MemoryArray.wwn_C (Some "FC") (Some "user")]
    present_in_host.

(** A is asked to be absent from "h1", and "h1" to be renamed to
    "h2". *)
Definition drop_and_rename : module_params :=
  MemoryArray.with_modify
    (MemoryArray.with_initiators (MemoryArray.request_for "h1" present)
       [MemoryArray.wwn_A] absent_in_host)
    (Some "h2") None.

(** B is asked to be absent from "h1", and "h1" to be absent. *)
Definition drop_and_delete : module_params :=
  MemoryArray.with_initiators (MemoryArray.request_for "h1" absent)
    [MemoryArray.wwn_B] absent_in_host.

(** B is asked to be absent from the Windows host "h1", with Linux as
    its [os_type]. *)
Definition drop_and_linux : module_params :=
  MemoryArray.with_os_type
    (MemoryArray.with_initiators (MemoryArray.request_for "h1" present)
       [MemoryArray.wwn_B] absent_in_host)
    "Linux".

(** B is asked to be absent from "h1", in the detailed form, announced
    as FC with a CHAP user. *)
Definition drop_chap_on_fc : module_params :=
  MemoryArray.with_detailed (MemoryArray.request_for "h1" present)
    [MemoryArray.detailed MemoryArray.wwn_B (Some "FC") (Some "user")]
    absent_in_host.

(** "h1", a Windows host, is asked to be renamed to "h2", with Linux as
    its [os_type]. *)
Definition rename_and_linux : module_params :=
  MemoryArray.with_os_type
    (MemoryArray.with_modify (MemoryArray.request_for "h1" present)
       (Some "h2") None)
    "Linux".

(** "h1" is asked to be renamed to "h2", and to be absent. *)
Definition rename_and_delete : module_params :=
  MemoryArray.with_modify (MemoryArray.request_for "h1" absent)
    (Some "h2") None.

(** "h1" is asked to be renamed to "h2", with [initiator_state] and no
    initiators. *)
Definition rename_and_bare_state : module_params :=
  MemoryArray.with_initiator_state
    (MemoryArray.with_modify (MemoryArray.request_for "h1" present)
       (Some "h2") None)
    present_in_host.

End Examples.

(** * Properties *)

(** ** Prefixes *)


Lemma startswith_substring (p s : string) :
  startswith s p = String.eqb (substring 0 (String.length p) s) p.
Proof.
  unfold startswith.
  destruct (String.prefix p s) eqn:Hp; symmetry.
  - apply String.eqb_eq. now apply prefix_correct.
  - apply String.eqb_neq. intros Hs. apply prefix_correct in Hs. congruence.
Qed.

Lemma classify_branches (s : string) :
  classify s =
    if startswith s "iqn" then "iSCSI"
    else if startswith s "nqn" then "NVMe" else "FC".
Proof.
  unfold classify.
  now rewrite (startswith_substring "iqn"), (startswith_substring "nqn").
Qed.

(** ** Sets of port names *)

Lemma py_set_elements (X : gset string) : py_set (elements X) = X.
Proof. apply list_to_set_elements_L. Qed.

Lemma issubset_true (a b : gset string) : issubset a b = true <-> a ⊆ b.
Proof. unfold issubset. apply bool_decide_eq_true. Qed.

Lemma issubset_false (a b : gset string) : issubset a b = false <-> ~ a ⊆ b.
Proof. unfold issubset. apply bool_decide_eq_false. Qed.

Lemma get_add_initiators_set (existing requested : list string) :
  py_set (_get_add_initiators existing requested)
  = py_set requested ∖ py_set existing.
Proof.
  unfold _get_add_initiators. rewrite py_set_elements.
  unfold py_set. rewrite list_to_set_app_L. set_solver.
Qed.

Lemma get_remove_initiators_set (existing requested : list string) :
  py_set (_get_remove_initiators existing requested)
  = py_set existing ∩ py_set requested.
Proof. unfold _get_remove_initiators. apply py_set_elements. Qed.

Lemma get_add_initiators_nil (existing requested : list string) :
  _get_add_initiators existing requested = []
  <-> py_set requested ⊆ py_set existing.
Proof.
  unfold _get_add_initiators. rewrite elements_empty_iff.
  unfold py_set. rewrite list_to_set_app_L. split.
  - intros Hempty x Hx.
    destruct (decide (x ∈ (list_to_set existing : gset string))) as [|Hn];
      [assumption|].
    exfalso. apply (not_elem_of_empty (C:=gset string) x).
    rewrite <- Hempty. set_solver.
  - set_solver.
Qed.

Lemma get_remove_initiators_nil (existing requested : list string) :
  _get_remove_initiators existing requested = []
  <-> py_set existing ∩ py_set requested = ∅.
Proof.
  unfold _get_remove_initiators. rewrite elements_empty_iff.
  split; intros Hs; [now apply leibniz_equiv | now rewrite Hs].
Qed.

(** C7. The differ computes set difference and set intersection:
    for all lists [existing] and [requested], read as sets, the
    additions are [requested - existing] and the removals are
    [existing ∩ requested]; hence the additions are disjoint from
    [existing], the removals are contained in both inputs,
    additions of a set against itself are empty, and empty inputs
    give empty outputs.  Neither list repeats an element. *)
Theorem differ_computes_difference_and_intersection
    (existing requested : list string) :
  py_set (_get_add_initiators existing requested)
    = py_set requested ∖ py_set existing
  /\ py_set (_get_remove_initiators existing requested)
    = py_set existing ∩ py_set requested
  /\ py_set (_get_add_initiators existing requested) ## py_set existing
  /\ py_set (_get_remove_initiators existing requested) ⊆ py_set existing
  /\ py_set (_get_remove_initiators existing requested) ⊆ py_set requested
  /\ _get_add_initiators existing existing = []
  /\ _get_add_initiators [] [] = []
  /\ _get_remove_initiators existing [] = []
  /\ _get_remove_initiators [] requested = []
  /\ NoDup (_get_add_initiators existing requested)
  /\ NoDup (_get_remove_initiators existing requested).
Proof.
  rewrite get_add_initiators_set, get_remove_initiators_set.
  repeat apply conj.
  - reflexivity.
  - reflexivity.
  - set_solver.
  - set_solver.
  - set_solver.
  - now apply get_add_initiators_nil.
  - now apply get_add_initiators_nil.
  - apply get_remove_initiators_nil. unfold py_set. set_solver.
  - apply get_remove_initiators_nil. unfold py_set. set_solver.
  - apply NoDup_elements.
  - apply NoDup_elements.
Qed.

(** ** The classifier at its four sites *)

Section Sites.

Context {R : Type} `{Provisioning R}.

Lemma create_simple_entry_spec (s : string) :
  create_simple_entry s
  = ({| i_port_name := s; i_port_type := classify s; i_chap := None |},
     classify s).
Proof.
  rewrite classify_branches. unfold create_simple_entry.
  destruct (startswith s "iqn"); [reflexivity|].
  destruct (startswith s "nqn"); reflexivity.
Qed.

Lemma create_detailed_entry_spec (d : detailed_initiator) :
  create_detailed_entry d
  = {| i_port_name := port_name d;
       i_port_type := match port_type d with
                      | Some given => given
                      | None => classify (port_name d)
                      end;
       i_chap := Some (chap_of d) |}.
Proof.
  rewrite classify_branches. unfold create_detailed_entry.
  destruct (port_type d); [reflexivity|].
  destruct (startswith (port_name d) "iqn"); [reflexivity|].
  destruct (startswith (port_name d) "nqn"); reflexivity.
Qed.

Lemma add_simple_entry_spec (s : string) :
  add_simple_entry s
  = {| i_port_name := s; i_port_type := classify s; i_chap := None |}.
Proof.
  rewrite classify_branches. unfold add_simple_entry.
  destruct (startswith s "iqn"); [reflexivity|].
  destruct (startswith s "nqn"); reflexivity.
Qed.

Lemma add_detailed_entry_spec (s : string) (d : detailed_initiator) :
  add_detailed_entry s d
  = {| i_port_name := s; i_port_type := classify s;
       i_chap := if startswith s "iqn" then Some (chap_of d) else None |}.
Proof.
  rewrite classify_branches. unfold add_detailed_entry.
  destruct (startswith s "iqn"); [reflexivity|].
  destruct (startswith s "nqn"); reflexivity.
Qed.

End Sites.


(** ** The monad: lookups and checks leave the world alone *)

Section Facts.

Context {R : Type} `{Provisioning R}.

Implicit Types (p : module_params) (w : world R) (h : host).

Lemma bind_Done {A B : Type} (c : M R A) (k : A -> M R B) w b w' :
  bind c k w = (Done b, w') ->
  exists a w1, c w = (Done a, w1) /\ k a w1 = (Done b, w').
Proof.
  unfold bind. destruct (c w) as [[a|f] w1]; intros Hk.
  - now exists a, w1.
  - discriminate.
Qed.

Lemma bind_of_Done {A B : Type} (c : M R A) (k : A -> M R B) w a w1 :
  c w = (Done a, w1) -> bind c k w = k a w1.
Proof. unfold bind. now intros ->. Qed.

Lemma bind_ret {A B : Type} (a : A) (k : A -> M R B) w :
  bind (ret a) k w = k a w.
Proof. reflexivity. Qed.

Lemma bind_of_Failed {A B : Type} (c : M R A) (k : A -> M R B) w f w1 :
  c w = (Failed f, w1) -> bind c k w = (Failed f, w1).
Proof. unfold bind. now intros ->. Qed.

Lemma silent_ret {A : Type} (a : A) : silent (@ret R A a).
Proof. now intros w. Qed.

Lemma silent_fail_json {A : Type} (f : failure) : silent (@fail_json R A f).
Proof. now intros w. Qed.

Lemma silent_bind {A B : Type} (c : M R A) (k : A -> M R B) :
  silent c -> (forall a, silent (k a)) -> silent (bind c k).
Proof.
  intros Hc Hk w. unfold bind. specialize (Hc w).
  destruct (c w) as [[a|f] w1]; simpl in Hc; subst w1.
  - apply Hk.
  - reflexivity.
Qed.

Lemma silent_query {A : Type} (f : R -> sdk_result A) : silent (query f).
Proof. now intros w. Qed.

Lemma silent_fail_if (cond : bool) (f : failure) :
  silent (fail_if cond f : M R unit).
Proof. unfold fail_if. destruct cond; [apply silent_fail_json | apply silent_ret]. Qed.

Lemma silent_Done {A : Type} (c : M R A) w a w' :
  silent c -> c w = (Done a, w') -> w' = w.
Proof. intros Hc Hw. specialize (Hc w). now rewrite Hw in Hc. Qed.

Lemma silent_cases {A : Type} (c : M R A) w :
  silent c -> (exists a, c w = (Done a, w)) \/ (exists f, c w = (Failed f, w)).
Proof.
  intros Hc. specialize (Hc w). destruct (c w) as [[a|f] w1]; simpl in Hc;
    subst w1; eauto.
Qed.

Lemma silent_get_host (host_id : option string) : silent (get_host host_id).
Proof.
  unfold get_host. apply silent_bind; [apply silent_query|].
  intros [[h|]|e]; (apply silent_ret || apply silent_fail_json).
Qed.

Lemma silent_get_host_id_by_name (name : string) :
  silent (get_host_id_by_name name).
Proof.
  unfold get_host_id_by_name. apply silent_bind; [apply silent_query|].
  intros [[|first rest]|e].
  - apply silent_ret.
  - destruct (1 <? length (first :: rest))%nat;
      [apply silent_fail_json | apply silent_ret].
  - destruct (is_http_404 e); [apply silent_ret | apply silent_fail_json].
Qed.

Lemma silent_resolve_identity p : silent (resolve_identity p).
Proof.
  unfold resolve_identity. apply silent_bind.
  - destruct (truthy_str (host_name p));
      [apply silent_get_host_id_by_name | apply silent_ret].
  - intros host_id. apply silent_bind; [|intros; apply silent_ret].
    destruct (truthy_str host_id); [|apply silent_ret].
    apply silent_bind; [apply silent_get_host|].
    intros [h|]; [apply silent_ret | apply silent_fail_json].
Qed.

Lemma silent_validate_initiators (ds : list detailed_initiator) :
  silent (validate_initiators ds : M R unit).
Proof.
  induction ds as [|d ds IH]; simpl; [apply silent_ret|].
  destruct (truthy_str (chap_single_username d)
            || truthy_str (chap_mutual_username d)); [|exact IH].
  destruct (py_eq (port_type d) (PORT_TYPES_at 1)); [apply silent_fail_json|].
  destruct (py_eq (port_type d) (PORT_TYPES_at 2)); [apply silent_fail_json|].
  exact IH.
Qed.

Lemma silent_check_parameters p : silent (check_parameters p : M R unit).
Proof.
  unfold check_parameters.
  apply silent_bind; [apply silent_fail_if|]. intros _.
  apply silent_bind; [apply silent_fail_if|]. intros _.
  destruct (truthy_list (detailed_initiators p)
            && is_not_none (initiator_state p));
    [apply silent_validate_initiators | apply silent_ret].
Qed.

Lemma silent_os_type_check p (host : option host) :
  silent (os_type_check p host : M R unit).
Proof. apply silent_fail_if. Qed.

Lemma silent_create_result_dict p (c : bool) (host_id : option string) :
  silent (_create_result_dict p c host_id).
Proof.
  unfold _create_result_dict. destruct (state p); [|apply silent_ret].
  apply silent_bind; [apply silent_get_host | intros; apply silent_ret].
Qed.

Lemma create_result_dict_Done p (c : bool) (host_id : option string) w res w' :
  _create_result_dict p c host_id w = (Done res, w') ->
  w' = w /\ changed res = c
  /\ details res = match state p with
                   | absent => EmptyDict
                   | present => details res
                   end.
Proof.
  intros Hres. split; [eapply silent_Done, Hres; apply silent_create_result_dict|].
  unfold _create_result_dict in Hres. destruct (state p).
  - apply bind_Done in Hres as (a & w1 & _ & Hret).
    injection Hret as <- _. now split.
  - injection Hres as <- _. now split.
Qed.

(** ** The mutating calls *)

Lemma call_or_fail_run (op : operation) (req : request) w :
  call_or_fail op req w
  = (match snd (perform (array w) req) with
     | None => Done true
     | Some e => Failed (RemoteOperationError op e)
     end,
     World (fst (perform (array w) req)) (sent w ++ [req])).
Proof.
  unfold call_or_fail, call, bind, ret, fail_json.
  destruct (perform (array w) req) as [a' [e|]]; reflexivity.
Qed.

Lemma call_or_fail_Done (op : operation) (req : request) w b w' :
  call_or_fail op req w = (Done b, w') ->
  b = true /\ sent w' = sent w ++ [req].
Proof.
  rewrite call_or_fail_run.
  destruct (snd (perform (array w) req)); [discriminate|].
  intros Heq. injection Heq as <- <-. now split.
Qed.

End Facts.

(** ** Each step returns true exactly when it issued its request *)

Section Steps.

Context {R : Type} `{Provisioning R}.

Implicit Types (p : module_params) (w : world R) (h : host).

Lemma step_outcome_false (k : step) : step_outcome k false [].
Proof. reflexivity. Qed.

Lemma step_outcome_issued (k : step) (b : bool) (log : list request) :
  step_outcome k b log ->
  forall k', issued k' log = b && step_eqb k k'.
Proof.
  unfold step_outcome. destruct b.
  - intros (req & <- & ->) k'. simpl. now rewrite orb_false_r.
  - now intros -> k'.
Qed.

Lemma call_or_fail_step (op : operation) (req : request) w b w' :
  call_or_fail op req w = (Done b, w') ->
  exists log, sent w' = sent w ++ log
    /\ step_outcome (step_of req) b log /\ b = true.
Proof.
  intros (-> & Hsent)%call_or_fail_Done.
  exists [req]. repeat split; [assumption|]. now exists req.
Qed.

Lemma create_host_Done p (name : string) w b w' :
  create_host p name w = (Done b, w') ->
  exists log, sent w' = sent w ++ log
    /\ step_outcome StepCreate b log /\ b = true.
Proof.
  unfold create_host.
  destruct (os_type p) as [os|]; [|discriminate].
  destruct (initiators p) as [[|first others]|].
  - destruct (detailed_initiators p); [apply call_or_fail_step | discriminate].
  - match goal with |- context [if ?c then _ else _] => destruct c end;
      [discriminate | apply call_or_fail_step].
  - destruct (detailed_initiators p); [apply call_or_fail_step | discriminate].
Qed.

Lemma add_host_initiators_Done p h w b w' :
  add_host_initiators p h w = (Done b, w') ->
  exists log, sent w' = sent w ++ log /\ step_outcome StepAdd b log.
Proof.
  assert (Hfalse : forall b w', @ret R bool false w = (Done b, w') ->
            exists log, sent w' = sent w ++ log /\ step_outcome StepAdd b log).
  { intros b0 w0 Hret. injection Hret as <- <-. exists [].
    now rewrite app_nil_r. }
  unfold add_host_initiators.
  repeat match goal with
         | |- context [if ?c then _ else _] => destruct c
         | |- context [match ?o with Some _ => _ | None => _ end] =>
             destruct o
         end;
    try (apply Hfalse); try discriminate;
    intros Hcall; apply call_or_fail_step in Hcall as (log & ? & ? & _);
    eauto.
Qed.

Lemma remove_host_initiators_Done p h w b w' :
  remove_host_initiators p h w = (Done b, w') ->
  exists log, sent w' = sent w ++ log /\ step_outcome StepRemove b log.
Proof.
  assert (Hfalse : forall b w', @ret R bool false w = (Done b, w') ->
            exists log, sent w' = sent w ++ log
                        /\ step_outcome StepRemove b log).
  { intros b0 w0 Hret. injection Hret as <- <-. exists [].
    now rewrite app_nil_r. }
  unfold remove_host_initiators.
  destruct (h_host_initiators h) as [current|]; [|discriminate].
  destruct (length (map hi_port_name current) =? 0)%nat; [apply Hfalse|].
  match goal with
  | |- context [match ?o with Some _ => _ | None => _ end] =>
      destruct o as [requested|]
  end; [|discriminate].
  destruct (0 <? length _)%nat; [|apply Hfalse].
  intros Hcall; apply call_or_fail_step in Hcall as (log & ? & ? & _); eauto.
Qed.

Lemma update_host_Done h (name connectivity : option string) w b w' :
  update_host h name connectivity w = (Done b, w') ->
  exists log, sent w' = sent w ++ log
    /\ step_outcome StepModify b log /\ b = true.
Proof. apply call_or_fail_step. Qed.

Lemma delete_host_Done h w b w' :
  delete_host h w = (Done b, w') ->
  exists log, sent w' = sent w ++ log
    /\ step_outcome StepDelete b log /\ b = true.
Proof. apply call_or_fail_step. Qed.

(** The blocks of the pass: the flag that comes out is the flag that
    went in, or-ed with the flag of the step. *)

Lemma create_step_Done p (host : option host) (name host_id : option string)
    (c : bool) w c' host_id' w' :
  create_step p host name host_id c w = (Done (c', host_id'), w') ->
  exists b log, sent w' = sent w ++ log /\ step_outcome StepCreate b log
    /\ c' = b || c.
Proof.
  unfold create_step.
  destruct (is_present (state p) && negb (is_not_none host)
            && truthy_str name).
  - intros Hrun.
    apply bind_Done in Hrun as ([] & w1 & Hnew & Hrun).
    apply silent_Done in Hnew as ->; [|apply silent_fail_if].
    apply bind_Done in Hrun as ([] & w1 & Hstate & Hrun).
    apply silent_Done in Hstate as ->; [|apply silent_fail_if].
    apply bind_Done in Hrun as (b & w1 & Hcreate & Hrun).
    apply create_host_Done in Hcreate as (log & Hlog & Hstep & ->).
    apply bind_Done in Hrun as (id & w2 & Hid & Hret).
    apply silent_Done in Hid as ->; [|apply silent_get_host_id_by_name].
    injection Hret as <- _ <-. now exists true, log.
  - intros Hret. injection Hret as <- _ <-. exists false, [].
    now rewrite app_nil_r.
Qed.

Lemma add_step_Done p (host : option host) (c : bool) w c' w' :
  add_step p host c w = (Done c', w') ->
  exists b log, sent w' = sent w ++ log /\ step_outcome StepAdd b log
    /\ c' = b || c.
Proof.
  assert (Hskip : @ret R bool c w = (Done c', w') ->
            exists b log, sent w' = sent w ++ log
              /\ step_outcome StepAdd b log /\ c' = b || c).
  { intros Hret. injection Hret as <- <-. exists false, [].
    now rewrite app_nil_r. }
  unfold add_step. destruct host as [h|]; [|exact Hskip].
  destruct (_ && _); [|exact Hskip].
  intros Hrun. apply bind_Done in Hrun as (b & w1 & Hadd & Hret).
  apply add_host_initiators_Done in Hadd as (log & Hlog & Hstep).
  injection Hret as <- <-. now exists b, log.
Qed.

Lemma remove_step_Done p (host : option host) (c : bool) w c' w' :
  remove_step p host c w = (Done c', w') ->
  exists b log, sent w' = sent w ++ log /\ step_outcome StepRemove b log
    /\ c' = b || c.
Proof.
  assert (Hskip : @ret R bool c w = (Done c', w') ->
            exists b log, sent w' = sent w ++ log
              /\ step_outcome StepRemove b log /\ c' = b || c).
  { intros Hret. injection Hret as <- <-. exists false, [].
    now rewrite app_nil_r. }
  unfold remove_step. destruct host as [h|]; [|exact Hskip].
  destruct (_ && _); [|exact Hskip].
  intros Hrun. apply bind_Done in Hrun as (b & w1 & Hrem & Hret).
  apply remove_host_initiators_Done in Hrem as (log & Hlog & Hstep).
  injection Hret as <- <-. now exists b, log.
Qed.


Lemma delete_step_Done p (host : option host) (c : bool) w c' w' :
  delete_step p host c w = (Done c', w') ->
  exists b log, sent w' = sent w ++ log /\ step_outcome StepDelete b log
    /\ c' = b || c.
Proof.
  assert (Hskip : @ret R bool c w = (Done c', w') ->
            exists b log, sent w' = sent w ++ log
              /\ step_outcome StepDelete b log /\ c' = b || c).
  { intros Hret. injection Hret as <- <-. exists false, [].
    now rewrite app_nil_r. }
  unfold delete_step. destruct host as [h|]; [|exact Hskip].
  destruct (is_absent (state p)); [|exact Hskip].
  intros Hrun. apply bind_Done in Hrun as (b & w1 & Hdel & Hret).
  apply delete_host_Done in Hdel as (log & Hlog & Hstep & ->).
  injection Hret as <- <-. now exists true, log.
Qed.

End Steps.

(** ** The pass *)

Section Pass.

Context {R : Type} `{Provisioning R}.

Implicit Types (p : module_params) (w : world R) (h : host).

(** A pass that completes went through every block. *)
Lemma pass_inv p w res w' :
  perform_module_operation p w = (Done res, w') ->
  exists host_id host c1 host_id' w1 c2 w2 c3 w3 c4 w4 c5,
    resolve_identity p w = (Done (host_id, host), w)
    /\ check_parameters p w = (Done tt, w)
    /\ create_step p host
         (match host with Some h => Some (h_name h) | None => host_name p end)
         host_id false w = (Done (c1, host_id'), w1)
    /\ os_type_check p host w1 = (Done tt, w1)
    /\ add_step p host c1 w1 = (Done c2, w2)
    /\ remove_step p host c2 w2 = (Done c3, w3)
    /\ modify_step p host c3 w3 = (Done c4, w4)
    /\ delete_step p host c4 w4 = (Done c5, w')
    /\ _create_result_dict p c5 host_id' w' = (Done res, w').
Proof.
  unfold perform_module_operation. intros Hrun.
  apply bind_Done in Hrun as ([host_id host] & w0 & Hres & Hrun).
  pose proof (silent_Done _ _ _ _ (silent_resolve_identity p) Hres) as ->.
  apply bind_Done in Hrun as ([] & w0 & Hchk & Hrun).
  pose proof (silent_Done _ _ _ _ (silent_check_parameters p) Hchk) as ->.
  apply bind_Done in Hrun as ([c1 host_id'] & w1 & Hcreate & Hrun).
  apply bind_Done in Hrun as ([] & w1' & Hos & Hrun).
  pose proof (silent_Done _ _ _ _ (silent_os_type_check p host) Hos) as ->.
  apply bind_Done in Hrun as (c2 & w2 & Hadd & Hrun).
  apply bind_Done in Hrun as (c3 & w3 & Hrem & Hrun).
  apply bind_Done in Hrun as (c4 & w4 & Hmod & Hrun).
  apply bind_Done in Hrun as (c5 & w5 & Hdel & Hrun).
  pose proof (silent_Done _ _ _ _ (silent_create_result_dict p c5 host_id')
                Hrun) as ->.
  exists host_id, host, c1, host_id', w1, c2, w2, c3, w3, c4, w4, c5.
  repeat apply conj; assumption.
Qed.


(** A pass that asks for the absence of a host that does not exist. *)
Lemma pass_absent_nonexistent p w (host_id : option string) :
  state p = absent ->
  resolve_identity p w = (Done (host_id, None), w) ->
  check_parameters p w = (Done tt, w) ->
  perform_module_operation p w
  = (Done {| changed := false; details := EmptyDict |}, w).
Proof.
  intros Habsent Hres Hchk. unfold perform_module_operation.
  rewrite (bind_of_Done _ _ _ _ _ Hres).
  rewrite (bind_of_Done _ _ _ _ _ Hchk).
  unfold create_step, os_type_check, add_step, remove_step, modify_step,
    delete_step, _create_result_dict.
  rewrite Habsent. reflexivity.
Qed.


End Pass.

(** ** Adding initiators *)

Section Add.

Context {R : Type} `{Provisioning R}.

Implicit Types (p : module_params) (w : world R) (h : host).

Lemma flat_map_singleton {A B : Type} (f : A -> B) (l : list A) :
  flat_map (fun x => [f x]) l = map f l.
Proof. induction l as [|x l IH]; simpl; congruence. Qed.

(** With the simple form every addition yields one dictionary. *)
Lemma build_add_list_simple (detailed : option (list detailed_initiator))
    (add_list : list string) :
  truthy_list detailed = false ->
  build_add_list_with_type detailed add_list = map add_simple_entry add_list.
Proof.
  intros Hfalsy. unfold build_add_list_with_type.
  destruct detailed as [[|d ds]|]; try discriminate;
    apply flat_map_singleton.
Qed.

(** With the detailed form every addition yields one dictionary for
    each detailed initiator of that name. *)
Lemma build_add_list_detailed_In (d : detailed_initiator)
    (ds : list detailed_initiator) (add_list : list string)
    (e : initiator_dict) :
  In e (build_add_list_with_type (Some (d :: ds)) add_list)
  <-> exists init detailed_init,
        In init add_list /\ In detailed_init (d :: ds)
        /\ port_name detailed_init = init
        /\ e = add_detailed_entry init detailed_init.
Proof.
  unfold build_add_list_with_type. rewrite in_flat_map. split.
  - intros (init & Hinit & He). apply in_flat_map in He as (di & Hdi & He).
    destruct (String.eqb_spec init (port_name di)) as [Heq|Hne];
      [|contradiction].
    destruct He as [<-|[]]. exists init, di. auto.
  - intros (init & di & Hinit & Hdi & Hname & ->).
    exists init. split; [assumption|]. apply in_flat_map.
    exists di. split; [assumption|].
    rewrite <- Hname, String.eqb_refl. now left.
Qed.

Lemma add_entry_port_name (init : string) (d : detailed_initiator) :
  i_port_name (add_detailed_entry init d) = init.
Proof. now rewrite add_detailed_entry_spec. Qed.

Lemma add_simple_entry_port_name (init : string) :
  i_port_name (add_simple_entry init) = init.
Proof. now rewrite add_simple_entry_spec. Qed.

(** In either form the dictionaries built name exactly the additions,
    as long as the additions are among the requested names. *)
Lemma build_add_list_names (detailed : option (list detailed_initiator))
    (add_list : list string) :
  (forall d ds, detailed = Some (d :: ds) ->
     forall init, In init add_list -> In init (map port_name (d :: ds))) ->
  py_set (map i_port_name (build_add_list_with_type detailed add_list))
  = py_set add_list.
Proof.
  intros Hamong.
  destruct (truthy_list detailed) eqn:Htruthy.
  - destruct detailed as [[|d ds]|]; try discriminate.
    specialize (Hamong d ds eq_refl).
    apply set_eq. intros x. unfold py_set.
    rewrite !elem_of_list_to_set, !list_elem_of_In, in_map_iff. split.
    + intros (e & <- & He).
      apply build_add_list_detailed_In in He as (init & di & Hi & _ & _ & ->).
      now rewrite add_entry_port_name.
    + intros Hx. pose proof (Hamong x Hx) as Hdi.
      apply in_map_iff in Hdi as (di & Hname & Hdi).
      exists (add_detailed_entry x di). split; [apply add_entry_port_name|].
      apply build_add_list_detailed_In. exists x, di. auto.
  - rewrite build_add_list_simple by assumption.
    rewrite map_map. f_equal.
    rewrite <- (map_id add_list) at 2. apply map_ext.
    apply add_simple_entry_port_name.
Qed.

Lemma get_add_initiators_In (existing requested : list string) (x : string) :
  In x (_get_add_initiators existing requested) ->
  In x requested /\ ~ In x existing.
Proof.
  intros Hx. apply list_elem_of_In in Hx.
  assert (Hset : x ∈ py_set (_get_add_initiators existing requested))
    by now apply elem_of_list_to_set.
  rewrite get_add_initiators_set in Hset.
  apply elem_of_difference in Hset as [Hr He].
  unfold py_set in *. rewrite elem_of_list_to_set in Hr, He.
  now rewrite <- !list_elem_of_In.
Qed.

Lemma get_add_initiators_In_iff (existing requested : list string)
    (x : string) :
  In x (_get_add_initiators existing requested)
  <-> In x requested /\ ~ In x existing.
Proof.
  split; [apply get_add_initiators_In|]. intros [Hr He].
  apply list_elem_of_In.
  assert (Hset : x ∈ py_set (_get_add_initiators existing requested)).
  { rewrite get_add_initiators_set. apply elem_of_difference.
    unfold py_set. rewrite !elem_of_list_to_set, !list_elem_of_In.
    now split. }
  unfold py_set in Hset. now apply elem_of_list_to_set in Hset.
Qed.

Lemma py_set_subseteq_In (l existing : list string) :
  py_set l ⊆ py_set existing <-> forall x, In x l -> In x existing.
Proof.
  unfold py_set. split.
  - intros Hsub x Hx. apply list_elem_of_In.
    apply (elem_of_list_to_set (C := gset string)). apply Hsub.
    apply elem_of_list_to_set. now apply list_elem_of_In.
  - intros Hall x Hx. apply elem_of_list_to_set.
    apply elem_of_list_to_set in Hx. apply list_elem_of_In.
    apply Hall. now apply list_elem_of_In.
Qed.

Lemma py_set_nil_inv (l : list string) : py_set l = ∅ -> l = [].
Proof.
  destruct l as [|x l]; [reflexivity|]. unfold py_set. simpl. set_solver.
Qed.

(** The requested names, seen from inside [add_host_initiators]. *)
Lemma requested_port_names_simple p :
  truthy_list (detailed_initiators p) = false ->
  truthy_list (initiators p) = true ->
  initiators p = Some (requested_port_names p).
Proof.
  unfold requested_port_names.
  destruct (detailed_initiators p) as [[|d ds]|]; try discriminate;
    destruct (initiators p) as [[|x l]|]; try discriminate; reflexivity.
Qed.

(** What [add_host_initiators] does, for a request in one of its two
    forms. *)
Lemma add_host_initiators_run p h w :
  mutually_exclusive p ->
  initiators_supplied p = true ->
  add_host_initiators p h w
  = if issubset (py_set (requested_port_names p))
         (py_set (existing_inits_of (h_host_initiators h)))
    then (Done false, w)
    else call_or_fail OpAddInitiators
           (ModifyHostAdd (h_id h)
              (build_add_list_with_type (detailed_initiators p)
                 (_get_add_initiators
                    (existing_inits_of (h_host_initiators h))
                    (requested_port_names p)))) w.
Proof.
  intros Hexcl Hsupplied.
  set (existing := existing_inits_of (h_host_initiators h)).
  assert (Hnonempty : forall requested,
    issubset (py_set requested) (py_set existing) = false ->
    (forall d ds, detailed_initiators p = Some (d :: ds) ->
       requested = map port_name (d :: ds)) ->
    (0 <? length (build_add_list_with_type (detailed_initiators p)
                    (_get_add_initiators existing requested)))%nat = true).
  { intros requested Hnot Hform. apply Nat.ltb_lt.
    destruct (build_add_list_with_type _ _) eqn:Hbuild; [|simpl; lia].
    exfalso. apply issubset_false in Hnot. apply Hnot.
    apply get_add_initiators_nil. apply py_set_nil_inv.
    rewrite <- (build_add_list_names (detailed_initiators p)).
    - now rewrite Hbuild.
    - intros d ds Hd init Hinit. rewrite <- (Hform d ds Hd).
      now apply get_add_initiators_In in Hinit. }
  unfold add_host_initiators, initiators_supplied, requested_port_names in *.
  fold existing.
  destruct Hexcl as [Hnone|Hnone]; rewrite Hnone in *; simpl in *.
  - destruct (detailed_initiators p) as [[|d ds]|] eqn:Hd; try discriminate.
    simpl. unfold detailed_port_names.
    destruct (issubset _ _) eqn:Hsub; [reflexivity|].
    rewrite Hnonempty; [reflexivity | assumption |].
    intros d' ds' Heq. now injection Heq as <- <-.
  - rewrite orb_false_r in Hsupplied.
    destruct (initiators p) as [[|x l]|] eqn:Hi; try discriminate.
    simpl. destruct (issubset _ _) eqn:Hsub; [reflexivity|].
    rewrite Hnonempty; [reflexivity | assumption | discriminate].
Qed.

End Add.

Section AddClaim.

Context {R : Type} `{Provisioning R}.

Implicit Types (p : module_params) (w : world R) (h : host).

(** A pass on an existing host that asks only for initiators to be
    present is the add step followed by the final fetch. *)
Lemma pass_add_only p w (host_id : option string) h :
  state p = present ->
  initiator_state p = Some present_in_host ->
  initiators_supplied p = true ->
  truthy_str (new_name p) = false ->
  truthy_str (host_connectivity p) = false ->
  resolve_identity p w = (Done (host_id, Some h), w) ->
  check_parameters p w = (Done tt, w) ->
  os_type_check p (Some h) w = (Done tt, w) ->
  perform_module_operation p w
  = (do added <- add_host_initiators p h;
     _create_result_dict p added host_id) w.
Proof.
  intros Hstate Hintent Hsupplied Hname Hconn Hres Hchk Hos.
  unfold perform_module_operation.
  rewrite (bind_of_Done _ _ _ _ _ Hres).
  rewrite (bind_of_Done _ _ _ _ _ Hchk).
  unfold create_step. rewrite Hstate. simpl. rewrite bind_ret.
  rewrite (bind_of_Done _ _ _ _ _ Hos).
  unfold initiators_supplied in Hsupplied.
  rewrite Hstate, Hintent, Hsupplied, Hname, Hconn. simpl.
  unfold bind, ret.
  destruct (add_host_initiators p h w) as [[added|f] w1]; [|reflexivity].
  now rewrite orb_false_r.
Qed.

(** The add step on its own.  Adding initiators to an existing host,
    the request being in one of its two forms.  The requested port names are contained in
    the existing ones exactly when the computed additions are empty;
    then the step returns false and issues nothing.  Otherwise the
    step issues exactly one batch add request, whose dictionaries name
    exactly the requested names that are not existing ones (with the
    simple form: one dictionary for each of them), and it returns true
    when the array accepts the request.  In a pass on an existing host
    that asks for nothing else, this is what the pass returns: no
    request and [changed = false], or the one add request and
    [changed = true]. *)
Theorem add_initiators_idempotent_batch p h w :
  mutually_exclusive p ->
  initiators_supplied p = true ->
  let existing := existing_inits_of (h_host_initiators h) in
  let requested := requested_port_names p in
  let adds :=
    build_add_list_with_type (detailed_initiators p)
      (_get_add_initiators existing requested) in
  (py_set requested ⊆ py_set existing
   <-> _get_add_initiators existing requested = [])
  /\ (py_set requested ⊆ py_set existing ->
      add_host_initiators p h w = (Done false, w))
  /\ py_set (map i_port_name adds) = py_set requested ∖ py_set existing
  /\ (detailed_initiators p = None ->
      map i_port_name adds = _get_add_initiators existing requested)
  /\ (~ py_set requested ⊆ py_set existing ->
      adds <> []
      /\ add_host_initiators p h w
         = (match snd (perform (array w) (ModifyHostAdd (h_id h) adds)) with
            | None => Done true
            | Some e => Failed (RemoteOperationError OpAddInitiators e)
            end,
            World (fst (perform (array w) (ModifyHostAdd (h_id h) adds)))
              (sent w ++ [ModifyHostAdd (h_id h) adds])))
  /\ (forall host_id,
        state p = present ->
        initiator_state p = Some present_in_host ->
        truthy_str (new_name p) = false ->
        truthy_str (host_connectivity p) = false ->
        resolve_identity p w = (Done (host_id, Some h), w) ->
        check_parameters p w = (Done tt, w) ->
        os_type_check p (Some h) w = (Done tt, w) ->
        (py_set requested ⊆ py_set existing ->
         perform_module_operation p w
         = _create_result_dict p false host_id w
         /\ snd (perform_module_operation p w) = w)
        /\ (~ py_set requested ⊆ py_set existing ->
            sent (snd (perform_module_operation p w))
            = sent w ++ [ModifyHostAdd (h_id h) adds]
            /\ forall res w',
                 perform_module_operation p w = (Done res, w') ->
                 changed res = true)).
Proof.
  intros Hexcl Hsupplied existing requested adds.
  pose proof (add_host_initiators_run p h w Hexcl Hsupplied) as Hrun.
  fold existing requested adds in Hrun.
  assert (Hsub : py_set requested ⊆ py_set existing ->
                 add_host_initiators p h w = (Done false, w)).
  { intros Hs. apply issubset_true in Hs. now rewrite Hs in Hrun. }
  assert (Hnot : ~ py_set requested ⊆ py_set existing ->
    add_host_initiators p h w
    = call_or_fail OpAddInitiators (ModifyHostAdd (h_id h) adds) w).
  { intros Hs. apply issubset_false in Hs. now rewrite Hs in Hrun. }
  assert (Hnames :
    py_set (map i_port_name adds) = py_set requested ∖ py_set existing).
  { unfold adds. rewrite build_add_list_names;
      [apply get_add_initiators_set|].
    intros d ds Hd init Hinit. apply get_add_initiators_In in Hinit.
    subst requested. unfold requested_port_names in Hinit.
    now rewrite Hd in Hinit. }
  split; [symmetry; apply get_add_initiators_nil|].
  split; [exact Hsub|].
  split; [exact Hnames|].
  split.
  { intros Hd. unfold adds. rewrite build_add_list_simple by now rewrite Hd.
    rewrite map_map. rewrite <- (map_id (_get_add_initiators _ _)) at 2.
    apply map_ext. apply add_simple_entry_port_name. }
  split.
  - intros Hs. split.
    + intros Hnil. rewrite Hnil in Hnames. simpl in Hnames.
      apply Hs. unfold py_set in *. set_solver.
    + rewrite (Hnot Hs). apply call_or_fail_run.
  - intros host_id Hstate Hintent Hname Hconn Hres Hchk Hos.
    pose proof (pass_add_only p w host_id h Hstate Hintent Hsupplied
                  Hname Hconn Hres Hchk Hos) as Hpass.
    split.
    + intros Hs. rewrite Hpass.
      rewrite (bind_of_Done _ _ _ _ _ (Hsub Hs)).
      split; [reflexivity | apply silent_create_result_dict].
    + intros Hs. rewrite Hpass. split.
      * unfold bind. rewrite (Hnot Hs), call_or_fail_run.
        destruct (snd (perform _ _)); [reflexivity|].
        now rewrite silent_create_result_dict.
      * intros res w' Hdone.
        apply bind_Done in Hdone as (added & w1 & Hadd & Hdict).
        rewrite (Hnot Hs) in Hadd.
        apply call_or_fail_Done in Hadd as (-> & Hsent).
        now apply create_result_dict_Done in Hdict as (-> & Hchanged & _).
Qed.

End AddClaim.

(** ** Removing initiators *)

Section RemoveClaim.

Context {R : Type} `{Provisioning R}.

Implicit Types (p : module_params) (w : world R) (h : host).

Lemma requested_port_names_remove p :
  initiators_supplied p = true ->
  match detailed_initiators p with
  | Some (d :: ds) => Some (detailed_port_names (d :: ds))
  | _ => initiators p
  end = Some (requested_port_names p).
Proof.
  unfold initiators_supplied, requested_port_names, detailed_port_names.
  destruct (detailed_initiators p) as [[|d ds]|]; simpl;
    destruct (initiators p) as [[|x l]|]; simpl;
    try discriminate; reflexivity.
Qed.

(** What [remove_host_initiators] does on a host whose initiators are
    [current]. *)
Lemma remove_host_initiators_run p h w (current : list host_initiator) :
  h_host_initiators h = Some current ->
  initiators_supplied p = true ->
  remove_host_initiators p h w
  = match current,
          _get_remove_initiators (map hi_port_name current)
            (requested_port_names p) with
    | [], _ | _, [] => (Done false, w)
    | _, removals =>
        call_or_fail OpRemoveInitiators
          (ModifyHostRemove (h_id h) removals) w
    end.
Proof.
  intros Hcurrent Hsupplied. unfold remove_host_initiators.
  rewrite Hcurrent, (requested_port_names_remove p Hsupplied).
  destruct current as [|i current]; [reflexivity|]. simpl length. simpl Nat.eqb.
  cbv iota.
  destruct (_get_remove_initiators _ _) as [|x removals]; reflexivity.
Qed.

(** A pass on an existing host that asks only for initiators to be
    absent is the remove step followed by the final fetch. *)
Lemma pass_remove_only p w (host_id : option string) h :
  state p = present ->
  initiator_state p = Some absent_in_host ->
  initiators_supplied p = true ->
  truthy_str (new_name p) = false ->
  truthy_str (host_connectivity p) = false ->
  resolve_identity p w = (Done (host_id, Some h), w) ->
  check_parameters p w = (Done tt, w) ->
  os_type_check p (Some h) w = (Done tt, w) ->
  perform_module_operation p w
  = (do removed <- remove_host_initiators p h;
     _create_result_dict p removed host_id) w.
Proof.
  intros Hstate Hintent Hsupplied Hname Hconn Hres Hchk Hos.
  unfold perform_module_operation.
  rewrite (bind_of_Done _ _ _ _ _ Hres).
  rewrite (bind_of_Done _ _ _ _ _ Hchk).
  unfold create_step. rewrite Hstate. simpl. rewrite bind_ret.
  rewrite (bind_of_Done _ _ _ _ _ Hos).
  unfold initiators_supplied in Hsupplied.
  rewrite Hstate, Hintent, Hsupplied, Hname, Hconn. simpl.
  unfold bind, ret.
  destruct (remove_host_initiators p h w) as [[removed|f] w1]; [|reflexivity].
  now rewrite orb_false_r.
Qed.

(** The remove step on its own.  Removing initiators from an existing
    host.  The removals are the existing port names that are requested.  When the host has
    no initiator, or no existing name is requested, the step returns
    false and issues nothing.  Otherwise it issues exactly one batch
    remove request, which names exactly the removals, as bare port
    names, and it returns true when the array accepts the request.  In
    a pass on an existing host that asks for nothing else, this is what
    the pass returns: no request and [changed = false], or the one
    remove request and [changed = true]. *)
Theorem remove_initiators_idempotent_batch p h w
    (current : list host_initiator) :
  h_host_initiators h = Some current ->
  initiators_supplied p = true ->
  let existing := map hi_port_name current in
  let requested := requested_port_names p in
  let removals := _get_remove_initiators existing requested in
  py_set removals = py_set existing ∩ py_set requested
  /\ NoDup removals
  /\ (current = [] \/ py_set existing ∩ py_set requested = ∅ ->
      remove_host_initiators p h w = (Done false, w))
  /\ (current <> [] /\ py_set existing ∩ py_set requested <> ∅ ->
      remove_host_initiators p h w
      = (match snd (perform (array w) (ModifyHostRemove (h_id h) removals)) with
         | None => Done true
         | Some e => Failed (RemoteOperationError OpRemoveInitiators e)
         end,
         World (fst (perform (array w) (ModifyHostRemove (h_id h) removals)))
           (sent w ++ [ModifyHostRemove (h_id h) removals])))
  /\ (forall host_id,
        state p = present ->
        initiator_state p = Some absent_in_host ->
        truthy_str (new_name p) = false ->
        truthy_str (host_connectivity p) = false ->
        resolve_identity p w = (Done (host_id, Some h), w) ->
        check_parameters p w = (Done tt, w) ->
        os_type_check p (Some h) w = (Done tt, w) ->
        (current = [] \/ py_set existing ∩ py_set requested = ∅ ->
         perform_module_operation p w
         = _create_result_dict p false host_id w
         /\ snd (perform_module_operation p w) = w)
        /\ (current <> [] /\ py_set existing ∩ py_set requested <> ∅ ->
            sent (snd (perform_module_operation p w))
            = sent w ++ [ModifyHostRemove (h_id h) removals]
            /\ forall res w',
                 perform_module_operation p w = (Done res, w') ->
                 changed res = true)).
Proof.
  intros Hcurrent Hsupplied existing requested removals.
  pose proof (remove_host_initiators_run p h w current Hcurrent Hsupplied)
    as Hrun.
  subst removals requested existing.
  set (existing := map hi_port_name current) in *.
  set (requested := requested_port_names p) in *.
  set (removals := _get_remove_initiators existing requested) in *.
  assert (Hnil : removals = [] <-> py_set existing ∩ py_set requested = ∅)
    by apply get_remove_initiators_nil.
  assert (Hnoop : current = [] \/ py_set existing ∩ py_set requested = ∅ ->
                  remove_host_initiators p h w = (Done false, w)).
  { intros [->|Hempty]; [exact Hrun|].
    apply Hnil in Hempty. destruct current as [|i current]; [exact Hrun|].
    unfold removals, existing in Hempty. now rewrite Hempty in Hrun. }
  assert (Hcall : current <> [] /\ py_set existing ∩ py_set requested <> ∅ ->
    remove_host_initiators p h w
    = call_or_fail OpRemoveInitiators
        (ModifyHostRemove (h_id h) removals) w).
  { intros [Hcur Hne]. rewrite Hrun.
    destruct current as [|i current]; [contradiction|].
    unfold removals, existing in *.
    destruct (_get_remove_initiators _ requested) as [|x l];
      [|reflexivity].
    exfalso. now apply Hne, Hnil. }
  split; [apply get_remove_initiators_set|].
  split; [apply NoDup_elements|].
  split; [exact Hnoop|].
  split; [intros Hs; rewrite (Hcall Hs); apply call_or_fail_run|].
  intros host_id Hstate Hintent Hname Hconn Hres Hchk Hos.
  pose proof (pass_remove_only p w host_id h Hstate Hintent Hsupplied
                Hname Hconn Hres Hchk Hos) as Hpass.
  split.
  - intros Hs. rewrite Hpass.
    rewrite (bind_of_Done _ _ _ _ _ (Hnoop Hs)).
    split; [reflexivity | apply silent_create_result_dict].
  - intros Hs. rewrite Hpass. split.
    + unfold bind. rewrite (Hcall Hs), call_or_fail_run.
      destruct (snd (perform _ _)); [reflexivity|].
      now rewrite silent_create_result_dict.
    + intros res w' Hdone.
      apply bind_Done in Hdone as (removed & w1 & Hrem & Hdict).
      rewrite (Hcall Hs) in Hrem.
      apply call_or_fail_Done in Hrem as (-> & Hsent).
      now apply create_result_dict_Done in Hdict as (-> & Hchanged & _).
Qed.

End RemoveClaim.

(** ** Rename and connectivity *)

Section ModifyClaim.

Context {R : Type} `{Provisioning R}.

Implicit Types (p : module_params) (w : world R) (h : host).

Lemma py_eq_false_iff (a : option string) (b : string) :
  is_not_none a && negb (py_eq a b) = true
  <-> exists s, a = Some s /\ s <> b.
Proof.
  destruct a as [s|]; simpl.
  - destruct (String.eqb_spec s b) as [->|Hne]; simpl; split.
    + discriminate.
    + intros (s' & [= <-] & Hne). contradiction.
    + intros _. now exists s.
    + reflexivity.
  - split; [discriminate | intros (s & [=] & _)].
Qed.

Lemma is_modify_required_iff p h :
  is_modify_required h (new_name p) (host_connectivity p) = true
  <-> given_field_differs p h.
Proof.
  unfold is_modify_required, given_field_differs.
  rewrite <- !py_eq_false_iff.
  destruct (is_not_none (new_name p) && _),
           (is_not_none (host_connectivity p) && _); intuition discriminate.
Qed.

Lemma modify_step_run p h (c : bool) w :
  modify_step p (Some h) c w
  = if is_present (state p) && modify_requested p
       && is_modify_required h (new_name p) (host_connectivity p)
    then update_host h (new_name p) (host_connectivity p) w
    else (Done c, w).
Proof.
  unfold modify_step, modify_requested.
  destruct (is_present (state p) && _); [|reflexivity].
  simpl. now destruct (is_modify_required _ _ _).
Qed.

Lemma modify_step_exact p h (c : bool) w c' w' :
  modify_step p (Some h) c w = (Done c', w') ->
  exists log, sent w' = sent w ++ log
    /\ step_outcome StepModify
         (is_present (state p) && modify_requested p
          && is_modify_required h (new_name p) (host_connectivity p)) log.
Proof.
  rewrite modify_step_run. destruct (_ && _ && _).
  - intros Hupd. apply update_host_Done in Hupd as (log & ? & ? & ->). eauto.
  - intros Hret. injection Hret as _ <-. exists []. now rewrite app_nil_r.
Qed.

Lemma issued_app (k : step) (l1 l2 : list request) :
  issued k (l1 ++ l2) = issued k l1 || issued k l2.
Proof. apply existsb_app. Qed.

(** In a pass that completes on an existing host, a modify request is
    in the log exactly when the rename block asked for one. *)
Lemma pass_modify_issued p w (host_id : option string) h res w' :
  resolve_identity p w = (Done (host_id, Some h), w) ->
  perform_module_operation p w = (Done res, w') ->
  exists log, sent w' = sent w ++ log
    /\ issued StepModify log
       = is_present (state p) && modify_requested p
         && is_modify_required h (new_name p) (host_connectivity p).
Proof.
  intros Hres Hrun.
  apply pass_inv in Hrun
    as (host_id0 & host & c1 & host_id' & w1 & c2 & w2 & c3 & w3 & c4 & w4 & c5
        & Hres' & _ & Hcreate & _ & Hadd & Hrem & Hmod & Hdel & _).
  rewrite Hres in Hres'. injection Hres' as <- <-.
  apply create_step_Done in Hcreate as (created & l1 & Hl1 & Hs1 & _).
  apply add_step_Done in Hadd as (added & l2 & Hl2 & Hs2 & _).
  apply remove_step_Done in Hrem as (removed & l3 & Hl3 & Hs3 & _).
  apply modify_step_exact in Hmod as (l4 & Hl4 & Hs4).
  apply delete_step_Done in Hdel as (deleted & l5 & Hl5 & Hs5 & _).
  exists (l1 ++ l2 ++ l3 ++ l4 ++ l5). split.
  - rewrite Hl5, Hl4, Hl3, Hl2, Hl1. now rewrite <- !app_assoc.
  - rewrite !issued_app.
    rewrite (step_outcome_issued _ _ _ Hs1), (step_outcome_issued _ _ _ Hs2),
      (step_outcome_issued _ _ _ Hs3), (step_outcome_issued _ _ _ Hs4),
      (step_outcome_issued _ _ _ Hs5).
    simpl. now rewrite !andb_false_r, andb_true_r, orb_false_r.
Qed.

(** The rename block on its own, with [state = present] and an
    existing host: the block is entered on [modify_requested], and then
    sends its one request exactly when [is_modify_required] finds a
    given field that differs; in a pass that completes, the log holds a
    modify request exactly in that case. *)
Theorem modify_issued_iff_given_field_differs p h w (c : bool) :
  state p = present ->
  (is_modify_required h (new_name p) (host_connectivity p) = true
   <-> given_field_differs p h)
  /\ (modify_requested p = true -> given_field_differs p h ->
      modify_step p (Some h) c w
      = (match snd (perform (array w)
                      (ModifyHost (h_id h) (new_name p) (host_connectivity p)))
         with
         | None => Done true
         | Some e => Failed (RemoteOperationError OpUpdate e)
         end,
         World (fst (perform (array w)
                       (ModifyHost (h_id h) (new_name p) (host_connectivity p))))
           (sent w ++ [ModifyHost (h_id h) (new_name p) (host_connectivity p)])))
  /\ (modify_requested p = true -> ~ given_field_differs p h ->
      modify_step p (Some h) c w = (Done c, w))
  /\ (modify_requested p = false ->
      modify_step p (Some h) c w = (Done c, w))
  /\ (forall host_id res w',
        resolve_identity p w = (Done (host_id, Some h), w) ->
        perform_module_operation p w = (Done res, w') ->
        exists log, sent w' = sent w ++ log
          /\ (issued StepModify log = true
              <-> modify_requested p = true /\ given_field_differs p h)).
Proof.
  intros Hstate.
  pose proof (is_modify_required_iff p h) as Hiff.
  pose proof (modify_step_run p h c w) as Hrun.
  rewrite Hstate in Hrun. change (is_present present) with true in Hrun.
  rewrite andb_true_l in Hrun.
  repeat apply conj.
  - apply Hiff.
  - apply Hiff.
  - intros Hreq Hdiff. apply Hiff in Hdiff.
    rewrite Hrun, Hreq, Hdiff. apply call_or_fail_run.
  - intros Hreq Hdiff. rewrite Hrun, Hreq. rewrite andb_true_l.
    destruct (is_modify_required _ _ _); [|reflexivity].
    exfalso. now apply Hdiff, Hiff.
  - intros Hreq. now rewrite Hrun, Hreq.
  - intros host_id res w' Hres Hdone.
    destruct (pass_modify_issued p w host_id h res w' Hres Hdone)
      as (log & Hlog & Hissued).
    exists log. split; [assumption|].
    rewrite Hissued, Hstate, <- Hiff. simpl.
    now rewrite andb_true_iff.
Qed.

End ModifyClaim.

(** The rename block tests [new_name] in two ways: with Python truth
    to enter the block, with "is not None" in [is_modify_required].  On
    the empty string the two tests disagree: a request that renames
    "h1" to the empty string and repeats its connectivity issues a
    modify request, and a request that gives only the empty [new_name]
    issues none. *)
Lemma modify_claim_fails_on_empty_new_name :
  ~ modify_iff_supplied_field_differs truthy_str
      (MemoryArray.with_modify (MemoryArray.request_for "h1" present)
         (Some "") (Some "Local_Only"))
      [MemoryArray.h1]
  /\ ~ modify_iff_supplied_field_differs is_not_none
        (MemoryArray.with_modify (MemoryArray.request_for "h1" present)
           (Some "") None)
        [MemoryArray.h1].
Proof.
  split; intros Hclaim.
  - specialize (Hclaim (Some "id-h1") MemoryArray.h1 eq_refl eq_refl).
    vm_compute in Hclaim. destruct Hclaim as [Hissue _].
    destruct (Hissue eq_refl) as [[Hs _]|[_ Hk]];
      [discriminate | now apply Hk].
  - specialize (Hclaim (Some "id-h1") MemoryArray.h1 eq_refl eq_refl).
    vm_compute in Hclaim. destruct Hclaim as [_ Hissue].
    assert (Hfalse : false = true); [|discriminate].
    apply Hissue. left. split; [reflexivity | discriminate].
Qed.

(** ** The operating system of a host cannot change *)

Section OsTypeClaim.

Context {R : Type} `{Provisioning R}.

Implicit Types (p : module_params) (w : world R) (h : host).

Lemma validate_initiators_Failed (ds : list detailed_initiator) w f w' :
  validate_initiators ds w = (Failed f, w') ->
  f = ValidationError "FC" \/ f = ValidationError "NVMe".
Proof.
  induction ds as [|d ds IH]; simpl; [discriminate|].
  destruct (_ || _); [|exact IH].
  destruct (py_eq (port_type d) (PORT_TYPES_at 1));
    [intros [= <- _]; now left|].
  destruct (py_eq (port_type d) (PORT_TYPES_at 2));
    [intros [= <- _]; now right|].
  exact IH.
Qed.

Lemma check_parameters_Failed p w f w' :
  check_parameters p w = (Failed f, w') ->
  f = ConfigurationError InitiatorsMandatory
  \/ f = ConfigurationError InitiatorStateMandatory
  \/ f = ValidationError "FC" \/ f = ValidationError "NVMe".
Proof.
  unfold check_parameters, fail_if, bind, fail_json, ret.
  destruct (is_not_none (initiator_state p) && _);
    [intros [= <- _]; now left|].
  destruct ((truthy_list (initiators p) || _) && _);
    [intros [= <- _]; right; now left|].
  destruct (truthy_list (detailed_initiators p) && _); [|discriminate].
  intros Hval. apply validate_initiators_Failed in Hval. tauto.
Qed.

(** C9, amended.  When the host exists and the [os_type] supplied is
    not the observed one, the pass fails and nothing is requested from
    the array.  The failure is the immutable-field error, unless one of
    the parameter checks made earlier in the pass fails first: then the
    pass fails with the error of that check, a configuration error on
    [initiator_state] and the initiators or a CHAP validation error. *)
Theorem os_type_mismatch_fails_without_mutation p w
    (host_id : option string) h :
  resolve_identity p w = (Done (host_id, Some h), w) ->
  truthy_str (os_type p) = true ->
  py_eq (os_type p) (h_os_type h) = false ->
  exists f,
    perform_module_operation p w = (Failed f, w)
    /\ (check_parameters p w = (Done tt, w) -> f = ImmutableFieldError)
    /\ (forall f', check_parameters p w = (Failed f', w) -> f = f')
    /\ (f = ImmutableFieldError
        \/ f = ConfigurationError InitiatorsMandatory
        \/ f = ConfigurationError InitiatorStateMandatory
        \/ f = ValidationError "FC" \/ f = ValidationError "NVMe").
Proof.
  intros Hres Hos Hne. unfold perform_module_operation.
  rewrite (bind_of_Done _ _ _ _ _ Hres).
  destruct (silent_cases (check_parameters p) w (silent_check_parameters p))
    as [[[] Hchk]|[f Hchk]].
  - exists ImmutableFieldError.
    rewrite (bind_of_Done _ _ _ _ _ Hchk).
    unfold create_step. simpl. rewrite andb_false_r. simpl.
    rewrite bind_ret. unfold os_type_check. rewrite Hos, Hne. simpl.
    repeat apply conj.
    + reflexivity.
    + reflexivity.
    + intros f' Hf'. rewrite Hchk in Hf'. discriminate.
    + now left.
  - exists f. rewrite (bind_of_Failed _ _ _ _ _ Hchk).
    repeat apply conj.
    + reflexivity.
    + intros Hdone. rewrite Hchk in Hdone. discriminate.
    + intros f' Hf'. rewrite Hchk in Hf'. now injection Hf'.
    + right. now apply check_parameters_Failed in Hchk.
Qed.

End OsTypeClaim.

(** C9 as stated fails when an earlier check fails first: the request
    names the Linux [os_type] for the Windows host "h1" and sets
    [initiator_state] without initiators; the pass fails with the
    configuration error of that check, not with the immutable-field
    error. *)
Lemma os_type_claim_fails_behind_parameter_check :
  perform_module_operation
    (MemoryArray.with_initiator_state
       (MemoryArray.with_os_type (MemoryArray.request_for "h1" present)
          "Linux")
       present_in_host)
    (World [MemoryArray.h1] [])
  = (Failed (ConfigurationError InitiatorsMandatory),
     World [MemoryArray.h1] [])
  /\ ~ os_type_mismatch_fails_immutable
        (MemoryArray.with_initiator_state
           (MemoryArray.with_os_type (MemoryArray.request_for "h1" present)
              "Linux")
           present_in_host)
        [MemoryArray.h1].
Proof.
  split; [reflexivity|]. intros Hclaim.
  specialize (Hclaim (Some "id-h1") MemoryArray.h1 eq_refl eq_refl eq_refl).
  vm_compute in Hclaim. discriminate.
Qed.

(** ** Detailed initiators on the add path *)

Section AddDetailedClaim.

Context {R : Type} `{Provisioning R}.

Implicit Types (p : module_params) (w : world R) (h : host).

Lemma classify_iscsi_iff (s : string) :
  classify s = "iSCSI" <-> startswith s "iqn" = true.
Proof.
  rewrite classify_branches.
  destruct (startswith s "iqn"); [tauto|].
  destruct (startswith s "nqn"); split; discriminate.
Qed.

(** C10.  Initiators are added in the detailed form to a host.  The
    batch holds exactly one dictionary for each detailed initiator of
    the request whose port name is not yet on the host: its port name,
    the port type classified from the prefix of that name, whatever
    port type the caller gave, and the four CHAP keys of the caller's
    initiator exactly when the name starts with "iqn"; so a dictionary
    has CHAP keys if and only if it is classified iSCSI, and the FC and
    NVMe dictionaries have a port name and a port type only.  When some
    detailed initiator is not yet on the host, that batch is sent, in
    one add request; when all of them are, nothing is sent. *)
Theorem add_detailed_port_type_from_prefix p h w
    (d : detailed_initiator) (ds : list detailed_initiator) :
  initiators p = None ->
  detailed_initiators p = Some (d :: ds) ->
  let existing := existing_inits_of (h_host_initiators h) in
  let adds :=
    build_add_list_with_type (Some (d :: ds))
      (_get_add_initiators existing (map port_name (d :: ds))) in
  let request := ModifyHostAdd (h_id h) adds in
  (forall e,
     In e adds
     <-> exists given,
           In given (d :: ds) /\ ~ In (port_name given) existing
           /\ e = {| i_port_name := port_name given;
                     i_port_type := classify (port_name given);
                     i_chap := if startswith (port_name given) "iqn"
                               then Some (chap_of given) else None |})
  /\ Forall
       (fun e =>
          i_port_type e = classify (i_port_name e)
          /\ (exists given,
                In given (d :: ds) /\ port_name given = i_port_name e
                /\ i_chap e = if startswith (i_port_name e) "iqn"
                              then Some (chap_of given) else None)
          /\ (i_chap e <> None <-> classify (i_port_name e) = "iSCSI")
          /\ (classify (i_port_name e) = "FC"
              \/ classify (i_port_name e) = "NVMe" -> i_chap e = None))
       adds
  /\ ((exists given, In given (d :: ds) /\ ~ In (port_name given) existing) ->
      adds <> []
      /\ add_host_initiators p h w
         = (match snd (perform (array w) request) with
            | None => Done true
            | Some e => Failed (RemoteOperationError OpAddInitiators e)
            end,
            World (fst (perform (array w) request)) (sent w ++ [request])))
  /\ ((forall given, In given (d :: ds) -> In (port_name given) existing) ->
      adds = [] /\ add_host_initiators p h w = (Done false, w)).
Proof.
  intros Hsimple Hdetailed existing adds request.
  assert (Hmember : forall e,
    In e adds
    <-> exists given,
          In given (d :: ds) /\ ~ In (port_name given) existing
          /\ e = {| i_port_name := port_name given;
                    i_port_type := classify (port_name given);
                    i_chap := if startswith (port_name given) "iqn"
                              then Some (chap_of given) else None |}).
  { intros e. unfold adds. rewrite build_add_list_detailed_In. split.
    - intros (init & given & Hinit & Hgiven & <- & ->).
      apply get_add_initiators_In in Hinit as [_ Hnew].
      exists given. rewrite add_detailed_entry_spec. auto.
    - intros (given & Hgiven & Hnew & ->).
      exists (port_name given), given.
      rewrite add_detailed_entry_spec. repeat split; try assumption.
      apply get_add_initiators_In_iff. split; [|assumption].
      now apply in_map. }
  assert (Hrun : add_host_initiators p h w
    = if issubset (py_set (map port_name (d :: ds))) (py_set existing)
      then (Done false, w)
      else call_or_fail OpAddInitiators request w).
  { rewrite add_host_initiators_run.
    - unfold requested_port_names. now rewrite Hdetailed.
    - now left.
    - unfold initiators_supplied. rewrite Hdetailed. apply orb_true_r. }
  split; [exact Hmember|]. split; [|split].
  - apply Forall_forall. intros e He. apply list_elem_of_In in He.
    apply build_add_list_detailed_In in He
      as (init & given & _ & Hgiven & Hname & ->).
    rewrite add_detailed_entry_spec. simpl.
    split; [|split; [|split]].
    + reflexivity.
    + exists given. auto.
    + rewrite classify_iscsi_iff.
      destruct (startswith init "iqn"); split;
        solve [congruence | discriminate | intros Hn; now elim Hn].
    + rewrite classify_branches.
      destruct (startswith init "iqn"); [|reflexivity].
      intros [Hfc|Hnvme]; discriminate.
  - intros (given & Hgiven & Hnew). split.
    + intros Hnil.
      assert (Hin : In {| i_port_name := port_name given;
                          i_port_type := classify (port_name given);
                          i_chap := if startswith (port_name given) "iqn"
                                    then Some (chap_of given) else None |}
                      adds)
        by (apply Hmember; eauto).
      rewrite Hnil in Hin. destruct Hin.
    + rewrite Hrun.
      assert (Hnot : issubset (py_set (map port_name (d :: ds)))
                       (py_set existing) = false).
      { apply issubset_false. intros Hsub. apply Hnew.
        apply (proj1 (py_set_subseteq_In _ _) Hsub). now apply in_map. }
      rewrite Hnot. apply call_or_fail_run.
  - intros Hall. split.
    + destruct adds as [|e rest]; [reflexivity|].
      assert (Hin : In e (e :: rest)) by now left.
      apply Hmember in Hin as (given & Hgiven & Hnew & _).
      exfalso. now apply Hnew, Hall.
    + rewrite Hrun.
      assert (Hsub : issubset (py_set (map port_name (d :: ds)))
                       (py_set existing) = true).
      { apply issubset_true. apply py_set_subseteq_In.
        intros x Hx. apply in_map_iff in Hx as (given & <- & Hgiven).
        now apply Hall. }
      now rewrite Hsub.
Qed.

End AddDetailedClaim.

(** ** CHAP validation *)

Section ChapValidation.

Context {R : Type} `{Provisioning R}.

Implicit Types (p : module_params) (w : world R) (h : host).

(** The validator rejects a list that holds an initiator with a CHAP
    user name whose [port_type] is given as FC or NVMe. *)
Lemma validate_initiators_rejects_given_type (ds : list detailed_initiator) w :
  Exists (fun d => names_chap_user d = true
                   /\ (port_type d = Some "FC" \/ port_type d = Some "NVMe"))
    ds ->
  exists t, validate_initiators ds w = (Failed (ValidationError t), w).
Proof.
  induction ds as [|d ds IH]; intros Hex; [inversion Hex|].
  simpl. fold (names_chap_user d).
  destruct (names_chap_user d) eqn:Hchap.
  - destruct (py_eq (port_type d) (PORT_TYPES_at 1)) eqn:Hfc; [now eexists|].
    destruct (py_eq (port_type d) (PORT_TYPES_at 2)) eqn:Hnvme; [now eexists|].
    apply IH. inversion Hex as [? ? [_ [Hfc'|Hnv]]|]; subst; try assumption.
    + rewrite Hfc' in Hfc. discriminate.
    + rewrite Hnv in Hnvme. discriminate.
  - apply IH. inversion Hex as [? ? [Hc _]|]; subst; [congruence | assumption].
Qed.

(** The validator reads the [port_type] that is given and nothing
    else: a list in which no [port_type] is given always passes. *)
Lemma validate_initiators_ignores_port_name (ds : list detailed_initiator) w :
  Forall (fun d => port_type d = None) ds ->
  validate_initiators ds w = (Done tt, w).
Proof.
  induction 1 as [|d ds Hd _ IH]; [reflexivity|].
  simpl. rewrite Hd. simpl. now destruct (_ || _).
Qed.

End ChapValidation.

(** C1, at its failing input.  The request creates the host "h2" with
    one detailed initiator: an FC port name (by its prefix), no
    [port_type], and a CHAP user name.  Validation passes, and the
    create request reaches the array with an FC initiator that carries
    the CHAP user name. *)
Theorem chap_on_inferred_fc_reaches_array :
  let d := MemoryArray.detailed MemoryArray.wwn_C None (Some "user") in
  let p := MemoryArray.with_os_type
             (MemoryArray.with_detailed
                (MemoryArray.request_for "h2" present) [d] present_in_host)
             "Linux" in
  let w := World [MemoryArray.h1] [] in
  names_chap_user d = true
  /\ port_type d = None
  /\ classify (port_name d) = "FC"
  /\ validate_initiators [d] w = (Done tt, w)
  /\ check_parameters p w = (Done tt, w)
  /\ (exists res w',
        perform_module_operation p w = (Done res, w')
        /\ changed res = true
        /\ sent w'
           = [CreateHost "h2" "Linux"
                [{| i_port_name := MemoryArray.wwn_C; i_port_type := "FC";
                    i_chap := Some (chap_of d) |}] None]
        /\ Exists (fun req =>
                     match req with
                     | CreateHost _ _ inits _ =>
                         existsb (fun i => carries_chap_user i
                                           && String.eqb (i_port_type i) "FC")
                           inits = true
                     | _ => False
                     end) (sent w')).
Proof.
  repeat apply conj; try reflexivity.
  eexists _, _. split; [vm_compute; reflexivity|].
  repeat apply conj; try reflexivity.
  apply Exists_cons_hd. reflexivity.
Qed.

(** ** Protocol mix on create *)

Section ProtocolMix.

Context {R : Type} `{Provisioning R}.

Implicit Types (p : module_params) (w : world R) (h : host).

(** With the simple form, [create_host] rejects a list of initiators
    that spans iSCSI, FC and NVMe, with no request; any other non-empty
    list goes to the array in one create request. *)
Lemma create_host_simple_run p (name os : string) (first : string)
    (others : list string) w :
  os_type p = Some os ->
  initiators p = Some (first :: others) ->
  create_host p name w
  = if spans_all_three (map add_simple_entry (first :: others))
    then (Failed ProtocolMixError, w)
    else call_or_fail OpCreate
           (CreateHost name os (map add_simple_entry (first :: others))
              (host_connectivity p)) w.
Proof.
  intros Hos Hsimple. unfold create_host. rewrite Hos, Hsimple.
  assert (Hfst : map fst (map create_simple_entry (first :: others))
                 = map add_simple_entry (first :: others)).
  { rewrite map_map. apply map_ext. intros s.
    now rewrite create_simple_entry_spec, add_simple_entry_spec. }
  assert (Hsnd : map snd (map create_simple_entry (first :: others))
                 = map i_port_type (map add_simple_entry (first :: others))).
  { rewrite !map_map. apply map_ext. intros s.
    now rewrite create_simple_entry_spec, add_simple_entry_spec. }
  rewrite Hfst, Hsnd. unfold spans_all_three.
  now destruct (_ && _ && _).
Qed.

(** With the detailed form, [create_host] sends whatever it is given:
    no mix of protocols is rejected. *)
Lemma create_host_detailed_run p (name os : string)
    (ds : list detailed_initiator) w :
  os_type p = Some os ->
  truthy_list (initiators p) = false ->
  detailed_initiators p = Some ds ->
  create_host p name w
  = call_or_fail OpCreate
      (CreateHost name os (map create_detailed_entry ds)
         (host_connectivity p)) w.
Proof.
  intros Hos Hsimple Hdetailed. unfold create_host.
  rewrite Hos, Hdetailed.
  destruct (initiators p) as [[|x l]|]; try discriminate; reflexivity.
Qed.

End ProtocolMix.

(** C2, at its failing input.  The request creates the host "h2" with
    an FC, an iSCSI and an NVMe initiator.  In the simple form the pass
    fails with the protocol-mix error and nothing is requested; in the
    detailed form the same three identifiers are sent to the array in a
    create request that spans the three protocol families. *)
Theorem detailed_create_accepts_three_families :
  let ids := [MemoryArray.wwn_C; "iqn.1998-01.com.vmware:a"; "nqn.2014-08.org.nvmexpress:b"] in
  let simple := MemoryArray.with_os_type
                  (MemoryArray.with_initiators
                     (MemoryArray.request_for "h2" present) ids
                     present_in_host)
                  "Linux" in
  let detailed := MemoryArray.with_os_type
                    (MemoryArray.with_detailed
                       (MemoryArray.request_for "h2" present)
                       (map (fun id => MemoryArray.detailed id None None) ids)
                       present_in_host)
                    "Linux" in
  let w := World [MemoryArray.h1] [] in
  map classify ids = ["FC"; "iSCSI"; "NVMe"]
  /\ perform_module_operation simple w = (Failed ProtocolMixError, w)
  /\ (exists res w' inits,
        perform_module_operation detailed w = (Done res, w')
        /\ changed res = true
        /\ sent w' = [CreateHost "h2" "Linux" inits None]
        /\ map i_port_name inits = ids
        /\ spans_all_three inits = true).
Proof.
  repeat apply conj; try reflexivity.
  eexists _, _, _. split; [vm_compute; reflexivity|].
  repeat apply conj; reflexivity.
Qed.

(** ** The statements at concrete requests

    Each lemma below runs one of the theorems above on the array kept
    in memory, on the host "h1" of the scenarios. *)


(** Scenario B: "h1" has A and B, and A is requested to be present. *)
Lemma add_initiators_idempotent_batch_witness :
  mutually_exclusive
    (MemoryArray.with_initiators (MemoryArray.request_for "h1" present)
       [MemoryArray.wwn_A] present_in_host)
  /\ initiators_supplied
       (MemoryArray.with_initiators (MemoryArray.request_for "h1" present)
          [MemoryArray.wwn_A] present_in_host) = true
  /\ add_host_initiators
       (MemoryArray.with_initiators (MemoryArray.request_for "h1" present)
          [MemoryArray.wwn_A] present_in_host)
       MemoryArray.h1 (World [MemoryArray.h1] [])
     = (Done false, World [MemoryArray.h1] []).
Proof.
  split; [right; reflexivity|]. split; [reflexivity|].
  apply (proj1 (proj2 (add_initiators_idempotent_batch
                         (MemoryArray.with_initiators
                            (MemoryArray.request_for "h1" present)
                            [MemoryArray.wwn_A] present_in_host)
                         MemoryArray.h1 (World [MemoryArray.h1] [])
                         (or_intror eq_refl) eq_refl))).
  apply issubset_true. vm_compute. reflexivity.
Defined.

(** Scenario C: "h1" has A and B, and B and C are requested to be
    absent. *)
Lemma remove_initiators_idempotent_batch_witness :
  h_host_initiators MemoryArray.h1
  = Some [MemoryArray.fc_initiator MemoryArray.wwn_A;
          MemoryArray.fc_initiator MemoryArray.wwn_B]
  /\ initiators_supplied
       (MemoryArray.with_initiators (MemoryArray.request_for "h1" present)
          [MemoryArray.wwn_B; MemoryArray.wwn_C] absent_in_host) = true
  /\ sent (snd (remove_host_initiators
                  (MemoryArray.with_initiators
                     (MemoryArray.request_for "h1" present)
                     [MemoryArray.wwn_B; MemoryArray.wwn_C] absent_in_host)
                  MemoryArray.h1 (World [MemoryArray.h1] [])))
     = [ModifyHostRemove "id-h1" [MemoryArray.wwn_B]].
Proof.
  split; [reflexivity|]. split; [reflexivity|].
  rewrite (proj1 (proj2 (proj2 (proj2
             (remove_initiators_idempotent_batch
                (MemoryArray.with_initiators
                   (MemoryArray.request_for "h1" present)
                   [MemoryArray.wwn_B; MemoryArray.wwn_C] absent_in_host)
                MemoryArray.h1 (World [MemoryArray.h1] [])
                [MemoryArray.fc_initiator MemoryArray.wwn_A;
                 MemoryArray.fc_initiator MemoryArray.wwn_B]
                eq_refl eq_refl))))).
  - vm_compute. reflexivity.
  - split; [discriminate|]. intros Hempty.
    apply get_remove_initiators_nil in Hempty.
    vm_compute in Hempty. discriminate.
Defined.

(** Renaming "h1" to "h2". *)
Lemma modify_issued_iff_given_field_differs_witness :
  state (MemoryArray.with_modify (MemoryArray.request_for "h1" present)
           (Some "h2") None) = present
  /\ modify_requested
       (MemoryArray.with_modify (MemoryArray.request_for "h1" present)
          (Some "h2") None) = true
  /\ given_field_differs
       (MemoryArray.with_modify (MemoryArray.request_for "h1" present)
          (Some "h2") None) MemoryArray.h1
  /\ sent (snd (modify_step
                  (MemoryArray.with_modify
                     (MemoryArray.request_for "h1" present) (Some "h2") None)
                  (Some MemoryArray.h1) false (World [MemoryArray.h1] [])))
     = [ModifyHost "id-h1" (Some "h2") None].
Proof.
  assert (Hdiff : given_field_differs
                    (MemoryArray.with_modify
                       (MemoryArray.request_for "h1" present) (Some "h2") None)
                    MemoryArray.h1).
  { left. exists "h2". split; [reflexivity | discriminate]. }
  split; [reflexivity|]. split; [reflexivity|]. split; [exact Hdiff|].
  rewrite (proj1 (proj2 (modify_issued_iff_given_field_differs
                           (MemoryArray.with_modify
                              (MemoryArray.request_for "h1" present)
                              (Some "h2") None)
                           MemoryArray.h1 (World [MemoryArray.h1] []) false
                           eq_refl)) eq_refl Hdiff).
  reflexivity.
Defined.

(** Scenario D: Linux is requested for the Windows host "h1". *)
Lemma os_type_mismatch_fails_without_mutation_witness :
  resolve_identity
    (MemoryArray.with_os_type (MemoryArray.request_for "h1" present) "Linux")
    (World [MemoryArray.h1] [])
  = (Done (Some "id-h1", Some MemoryArray.h1), World [MemoryArray.h1] [])
  /\ truthy_str (Some "Linux") = true
  /\ py_eq (Some "Linux") (h_os_type MemoryArray.h1) = false
  /\ exists f,
       perform_module_operation
         (MemoryArray.with_os_type (MemoryArray.request_for "h1" present)
            "Linux")
         (World [MemoryArray.h1] [])
       = (Failed f, World [MemoryArray.h1] [])
       /\ f = ImmutableFieldError.
Proof.
  assert (Hres : resolve_identity
            (MemoryArray.with_os_type
               (MemoryArray.request_for "h1" present) "Linux")
            (World [MemoryArray.h1] [])
          = (Done (Some "id-h1", Some MemoryArray.h1),
             World [MemoryArray.h1] [])) by reflexivity.
  split; [exact Hres|]. split; [reflexivity|]. split; [reflexivity|].
  destruct (os_type_mismatch_fails_without_mutation
              (MemoryArray.with_os_type
                 (MemoryArray.request_for "h1" present) "Linux")
              (World [MemoryArray.h1] []) (Some "id-h1") MemoryArray.h1
              Hres eq_refl eq_refl)
    as (f & Hfail & Himmutable & _).
  exists f. split; [exact Hfail|]. apply Himmutable. reflexivity.
Defined.

(** An iSCSI name announced as FC, with a CHAP user, and an NVMe name
    announced as iSCSI are added to "h1": the one request sent carries
    the iSCSI dictionary with its CHAP keys and the NVMe dictionary
    with a name and a type only. *)
Lemma add_detailed_port_type_from_prefix_witness :
  let d1 := MemoryArray.detailed "iqn.1998-01.com.vmware:a" (Some "FC")
              (Some "user") in
  let d2 := MemoryArray.detailed "nqn.2014-08.org.nvmexpress:b"
              (Some "iSCSI") None in
  let p := MemoryArray.with_detailed (MemoryArray.request_for "h1" present)
             [d1; d2] present_in_host in
  let adds :=
    build_add_list_with_type (Some [d1; d2])
      (_get_add_initiators
         (existing_inits_of (h_host_initiators MemoryArray.h1))
         (map port_name [d1; d2])) in
  initiators p = None
  /\ detailed_initiators p = Some [d1; d2]
  /\ In {| i_port_name := "iqn.1998-01.com.vmware:a"; i_port_type := "iSCSI";
           i_chap := Some (chap_of d1) |} adds
  /\ In {| i_port_name := "nqn.2014-08.org.nvmexpress:b";
           i_port_type := "NVMe"; i_chap := None |} adds
  /\ sent (snd (add_host_initiators p MemoryArray.h1
                  (World [MemoryArray.h1] [])))
     = [ModifyHostAdd "id-h1" adds].
Proof.
  intros d1 d2 p adds.
  pose proof (add_detailed_port_type_from_prefix p MemoryArray.h1
                (World [MemoryArray.h1] []) d1 [d2] eq_refl eq_refl)
    as (Hmember & _ & Hsent & _).
  assert (Hnew1 : ~ In (port_name d1)
                      (existing_inits_of (h_host_initiators MemoryArray.h1))).
  { intros [Heq|[Heq|[]]]; discriminate. }
  assert (Hnew2 : ~ In (port_name d2)
                      (existing_inits_of (h_host_initiators MemoryArray.h1))).
  { intros [Heq|[Heq|[]]]; discriminate. }
  split; [reflexivity|]. split; [reflexivity|]. split; [|split].
  - apply (proj2 (Hmember _)). exists d1.
    split; [now left|]. split; [exact Hnew1 | reflexivity].
  - apply (proj2 (Hmember _)). exists d2.
    split; [right; now left|]. split; [exact Hnew2 | reflexivity].
  - destruct Hsent as [_ Hrun].
    + exists d1. split; [now left | exact Hnew1].
    + rewrite Hrun. reflexivity.
Defined.

(** * Further properties of the module *)

(** ** Finding the host *)

Section Identity.

Context {R : Type} `{Provisioning R}.

Implicit Types (p : module_params) (w : world R) (h : host).

Lemma truthy_str_Some (n : string) : truthy_str (Some n) = true <-> n <> "".
Proof.
  simpl. destruct (String.eqb_spec n ""); simpl; split;
    congruence || discriminate || auto.
Qed.

(** The lookup by name, case by case. *)
Lemma get_host_id_by_name_run (n : string) w :
  get_host_id_by_name n w
  = (match get_host_by_name (array w) n with
     | Returns [] => Done None
     | Returns [only] => Done (Some (h_id only))
     | Returns (_ :: _ :: _) => Failed AmbiguousNameError
     | Raises e =>
         if is_http_404 e then Done None
         else Failed (RemoteOperationError OpGetHostByName e)
     end, w).
Proof.
  unfold get_host_id_by_name, bind, query.
  destruct (get_host_by_name (array w) n) as [[|first [|second rest]]|e];
    try reflexivity.
  now destruct (is_http_404 e).
Qed.

Lemma resolve_identity_by_name p w (n : string) :
  host_name p = Some n -> n <> "" ->
  resolve_identity p w
  = (do host_id <- get_host_id_by_name n;
     do host <-
       (if truthy_str host_id
        then do host <- get_host host_id;
             match host with
             | Some h => ret (Some h)
             | None => fail_json (Uncaught TypeError)
             end
        else ret None);
     ret (host_id, host)) w.
Proof.
  intros Hname Hn. unfold resolve_identity.
  rewrite Hname. now rewrite (proj2 (truthy_str_Some n) Hn).
Qed.

(** X1.  A name that several hosts of the array share is refused: the
    pass fails with the ambiguous-name error before any check of the
    parameters, and nothing is requested from the array, whatever the
    rest of the request. *)
Theorem ambiguous_name_fails_before_anything p w (n : string)
    (first second : host) (others : list host) :
  host_name p = Some n ->
  n <> "" ->
  get_host_by_name (array w) n = Returns (first :: second :: others) ->
  perform_module_operation p w = (Failed AmbiguousNameError, w).
Proof.
  intros Hname Hn Hlookup. unfold perform_module_operation.
  apply bind_of_Failed. rewrite (resolve_identity_by_name p w n Hname Hn).
  apply bind_of_Failed. now rewrite get_host_id_by_name_run, Hlookup.
Qed.

(** X2.  Looked up by name, a host is absent when the array returns no
    host or raises the HTTP error 404; any other exception of the
    lookup fails the pass with nothing requested.  Asking for the
    absence of a host that is absent in this sense requests nothing:
    the pass returns [changed = false] with the empty record when the
    checks on [initiator_state] and the initiators pass, and fails with
    the error of the check that fails otherwise. *)
Theorem absent_by_name_is_no_error p w (n : string) :
  host_name p = Some n ->
  n <> "" ->
  (forall e, get_host_by_name (array w) n = Raises e ->
             is_http_404 e = false ->
             perform_module_operation p w
             = (Failed (RemoteOperationError OpGetHostByName e), w))
  /\ (get_host_by_name (array w) n = Returns []
      \/ (exists e, get_host_by_name (array w) n = Raises e
                    /\ is_http_404 e = true) ->
      resolve_identity p w = (Done (None, None), w)
      /\ (state p = absent ->
          perform_module_operation p w
          = (match fst (check_parameters p w) with
             | Done _ => Done {| changed := false; details := EmptyDict |}
             | Failed f => Failed f
             end, w))).
Proof.
  intros Hname Hn. split.
  - intros e Hlookup H404. unfold perform_module_operation.
    apply bind_of_Failed. rewrite (resolve_identity_by_name p w n Hname Hn).
    apply bind_of_Failed.
    now rewrite get_host_id_by_name_run, Hlookup, H404.
  - intros Habsent.
    assert (Hres : resolve_identity p w = (Done (None, None), w)).
    { rewrite (resolve_identity_by_name p w n Hname Hn).
      unfold bind at 1. rewrite get_host_id_by_name_run.
      destruct Habsent as [->|(e & -> & ->)]; reflexivity. }
    split; [exact Hres|].
    intros Hstate.
    destruct (silent_cases (check_parameters p) w (silent_check_parameters p))
      as [[[] Hchk]|[f Hchk]]; rewrite Hchk; simpl.
    + now apply (pass_absent_nonexistent p w None).
    + unfold perform_module_operation.
      rewrite (bind_of_Done _ _ _ _ _ Hres). now apply bind_of_Failed.
Qed.

(** X3.  Looked up by id, a host that the array does not return is an
    error, also when its absence is what the request asks for: an
    exception of the lookup, the HTTP error 404 included, fails the
    pass with the get-host error, and an empty answer makes the pass
    fail on reading the name of the host; nothing is requested either
    way. *)
Theorem absent_by_id_is_an_error p w (id : string) :
  truthy_str (host_name p) = false ->
  host_id p = Some id ->
  id <> "" ->
  (forall e, get_host_details (array w) (Some id) = Raises e ->
             perform_module_operation p w
             = (Failed (RemoteOperationError OpGetHost e), w))
  /\ (get_host_details (array w) (Some id) = Returns None ->
      perform_module_operation p w = (Failed (Uncaught TypeError), w)).
Proof.
  intros Hname Hid Hne.
  assert (Hres : resolve_identity p w
    = (do host <- (do host <- get_host (Some id);
                   match host with
                   | Some h => ret (Some h)
                   | None => fail_json (Uncaught TypeError)
                   end);
       ret (Some id, host)) w).
  { unfold resolve_identity. rewrite Hname, bind_ret, Hid.
    now rewrite (proj2 (truthy_str_Some id) Hne). }
  split.
  - intros e Hlookup. unfold perform_module_operation.
    apply bind_of_Failed. rewrite Hres. apply bind_of_Failed.
    apply bind_of_Failed. unfold get_host, bind, query. simpl.
    now rewrite Hlookup.
  - intros Hlookup. unfold perform_module_operation.
    apply bind_of_Failed. rewrite Hres. apply bind_of_Failed.
    unfold get_host, bind, query. simpl. now rewrite Hlookup.
Qed.

End Identity.

(** ** The checks on the parameters *)

Section ParameterChecks.

Context {R : Type} `{Provisioning R}.

Implicit Types (p : module_params) (w : world R) (h : host).

Lemma check_parameters_Done p w (u : unit) w' :
  check_parameters p w = (Done u, w') ->
  is_not_none (initiator_state p) = initiators_supplied p.
Proof.
  unfold check_parameters, fail_if, bind, fail_json, ret, initiators_supplied.
  destruct (is_not_none (initiator_state p)),
    (truthy_list (initiators p)), (truthy_list (detailed_initiators p));
    simpl; try discriminate; reflexivity.
Qed.

(** X4.  [initiator_state] and the initiators go together: once the
    host has been looked up, a request that gives [initiator_state]
    without a non-empty [initiators] or [detailed_initiators], or
    initiators without [initiator_state], fails with a configuration
    error and requests nothing, whatever [state] is and whether or not
    the host exists. *)
Theorem initiator_state_and_initiators_go_together p w
    (resolved : option string * option host) :
  resolve_identity p w = (Done resolved, w) ->
  is_not_none (initiator_state p) <> initiators_supplied p ->
  perform_module_operation p w
  = (Failed (ConfigurationError
               (if is_not_none (initiator_state p)
                then InitiatorsMandatory else InitiatorStateMandatory)), w).
Proof.
  intros Hres Hdiff. unfold perform_module_operation.
  rewrite (bind_of_Done _ _ _ _ _ Hres). destruct resolved as [host_id host].
  apply bind_of_Failed.
  unfold check_parameters, fail_if, bind, fail_json, ret.
  unfold initiators_supplied in Hdiff.
  destruct (is_not_none (initiator_state p)),
    (truthy_list (initiators p)), (truthy_list (detailed_initiators p));
    simpl in *; try reflexivity; now elim Hdiff.
Qed.

(** One round of the loop of the validator: the initiator is let
    through, or it is the offender. *)
Lemma validate_initiators_cons (d : detailed_initiator)
    (ds : list detailed_initiator) w :
  ((names_chap_user d = false
    \/ (port_type d <> Some "FC" /\ port_type d <> Some "NVMe"))
   /\ validate_initiators (d :: ds) w = validate_initiators ds w)
  \/ (exists t, names_chap_user d = true /\ port_type d = Some t
                /\ (t = "FC" \/ t = "NVMe")
                /\ validate_initiators (d :: ds) w
                   = (Failed (ValidationError t), w)).
Proof.
  assert (Hport : forall (o : option string) (t : string),
            py_eq o t = true <-> o = Some t).
  { intros [s|] t; simpl; [rewrite String.eqb_eq|]; split; congruence. }
  simpl validate_initiators. fold (names_chap_user d).
  change (PORT_TYPES_at 1) with "FC". change (PORT_TYPES_at 2) with "NVMe".
  destruct (names_chap_user d) eqn:Hchap; [|left; auto].
  destruct (py_eq (port_type d) "FC") eqn:Hfc.
  { apply Hport in Hfc. right. exists "FC". auto. }
  destruct (py_eq (port_type d) "NVMe") eqn:Hnvme.
  { apply Hport in Hnvme. right. exists "NVMe". auto. }
  left. split; [right|reflexivity].
  split; intros Heq; apply Hport in Heq; congruence.
Qed.

(** X5.  The validator passes exactly the lists in which no initiator
    both names a CHAP user and gives FC or NVMe as its [port_type]; it
    fails on the first initiator that does, with the validation error
    of that port type.  An initiator whose [port_type] is iSCSI or is
    left out is never refused, whatever its port name. *)
Theorem validate_initiators_first_offender
    (ds : list detailed_initiator) w :
  (validate_initiators ds w = (Done tt, w)
   <-> Forall (fun d => names_chap_user d = false
                        \/ (port_type d <> Some "FC"
                            /\ port_type d <> Some "NVMe")) ds)
  /\ (forall t,
        validate_initiators ds w = (Failed (ValidationError t), w)
        <-> exists before d after,
              ds = before ++ d :: after
              /\ validate_initiators before w = (Done tt, w)
              /\ names_chap_user d = true
              /\ port_type d = Some t
              /\ (t = "FC" \/ t = "NVMe")).
Proof.
  induction ds as [|d ds [IHpass IHfail]].
  - split; [split; [constructor | reflexivity]|].
    intros t. split; [discriminate|].
    intros (before & d & after & Heq & _). now destruct before.
  - destruct (validate_initiators_cons d ds w)
      as [[Hok Hstep]|(t0 & Hchap & Htype & Hfam & Hstep)];
      rewrite Hstep.
    + split.
      * rewrite IHpass. split; [intros Hall; now constructor|].
        intros Hall. now inversion Hall.
      * intros t. rewrite IHfail. split.
        -- intros (before & d' & after & -> & Hbefore & Hrest).
           exists (d :: before), d', after. split; [reflexivity|].
           split; [|exact Hrest].
           destruct (validate_initiators_cons d before w)
             as [[_ ->]|(t1 & Hc & Ht & Hf & _)]; [exact Hbefore|].
           destruct Hok as [Hok|[Hnf Hnn]]; [congruence|].
           destruct Hf as [->| ->]; congruence.
        -- intros (before & d' & after & Heq & Hbefore & Hc & Ht & Hfam).
           destruct before as [|b before]; simpl in Heq.
           ++ injection Heq as <- _.
              destruct Hok as [Hok|[Hnf Hnn]]; [congruence|].
              destruct Hfam as [->| ->]; congruence.
           ++ injection Heq as <- ->. exists before, d', after.
              split; [reflexivity|]. split; [|auto].
              destruct (validate_initiators_cons d before w)
                as [[_ Heq]|(t1 & _ & _ & _ & Heq)];
                rewrite Heq in Hbefore; [exact Hbefore | discriminate].
    + split.
      * split; [discriminate|]. intros Hall. inversion Hall as [|? ? Hd _].
        destruct Hd as [Hd|[Hnf Hnn]]; [congruence|].
        destruct Hfam as [->| ->]; congruence.
      * intros t. split.
        -- intros [= <-]. exists [], d, ds. repeat split; auto.
        -- intros (before & d' & after & Heq & Hbefore & Hc & Ht & _).
           destruct before as [|b before]; simpl in Heq.
           ++ injection Heq as <- _. congruence.
           ++ injection Heq as <- _.
              destruct (validate_initiators_cons d before w)
                as [[[Hok|[Hnf Hnn]] _]|(t1 & _ & _ & _ & Heq)].
              ** congruence.
              ** destruct Hfam as [->| ->]; congruence.
              ** rewrite Heq in Hbefore. discriminate.
Qed.

End ParameterChecks.

(** ** Creating a host *)

Section Create.

Context {R : Type} `{Provisioning R}.

Implicit Types (p : module_params) (w : world R) (h : host).

(** On a host that does not exist, a pass with [state = present] and a
    host name is the create block followed by the final fetch: no other
    block runs. *)
Lemma pass_on_absent_host p w (host_id : option string) (n : string) :
  resolve_identity p w = (Done (host_id, None), w) ->
  check_parameters p w = (Done tt, w) ->
  state p = present ->
  host_name p = Some n ->
  n <> "" ->
  perform_module_operation p w
  = (run fail_if (truthy_str (new_name p))
           (ConfigurationError NewNameForAbsentHost);
     run fail_if (negb (is_present_in_host (initiator_state p)))
           (ConfigurationError IncorrectInitiatorState);
     do created <- create_host p n;
     do host_id <- (if created then get_host_id_by_name n else ret host_id);
     _create_result_dict p created host_id) w.
Proof.
  intros Hres Hchk Hstate Hname Hn. unfold perform_module_operation.
  rewrite (bind_of_Done _ _ _ _ _ Hres).
  rewrite (bind_of_Done _ _ _ _ _ Hchk).
  unfold create_step. rewrite Hstate, Hname.
  rewrite (proj2 (truthy_str_Some n) Hn). simpl.
  unfold bind, ret, os_type_check, fail_if.
  destruct (truthy_str (new_name p)); [reflexivity|].
  destruct (is_present_in_host (initiator_state p)); [|reflexivity].
  simpl. destruct (create_host p n w) as [[created|f] w1]; [|reflexivity].
  destruct (if created then get_host_id_by_name n else _) as [[id|f] w2];
    reflexivity.
Qed.

(** X6.  What a creation needs.  On a host that does not exist, with
    [state = present] and a host name, the pass fails with a
    configuration error and requests nothing when [new_name] is given,
    else when [initiator_state] is not present-in-host, else when
    [os_type] is missing; in particular a host cannot be created
    without initiators. *)
Theorem creation_requirements p w (host_id : option string) (n : string) :
  resolve_identity p w = (Done (host_id, None), w) ->
  check_parameters p w = (Done tt, w) ->
  state p = present ->
  host_name p = Some n ->
  n <> "" ->
  (truthy_str (new_name p) = true ->
   perform_module_operation p w
   = (Failed (ConfigurationError NewNameForAbsentHost), w))
  /\ (truthy_str (new_name p) = false ->
      is_present_in_host (initiator_state p) = false ->
      perform_module_operation p w
      = (Failed (ConfigurationError IncorrectInitiatorState), w))
  /\ (truthy_str (new_name p) = false ->
      is_present_in_host (initiator_state p) = true ->
      os_type p = None ->
      perform_module_operation p w
      = (Failed (ConfigurationError OsTypeNotSpecified), w))
  /\ (initiators_supplied p = false ->
      exists why,
        perform_module_operation p w = (Failed (ConfigurationError why), w)).
Proof.
  intros Hres Hchk Hstate Hname Hn.
  rewrite (pass_on_absent_host p w host_id n Hres Hchk Hstate Hname Hn).
  assert (Hnew : truthy_str (new_name p) = true ->
    (run fail_if (truthy_str (new_name p))
           (ConfigurationError NewNameForAbsentHost);
     run fail_if (negb (is_present_in_host (initiator_state p)))
           (ConfigurationError IncorrectInitiatorState);
     do created <- create_host p n;
     do host_id <- (if created then get_host_id_by_name n else ret host_id);
     _create_result_dict p created host_id) w
    = (Failed (ConfigurationError NewNameForAbsentHost), w)).
  { intros ->. reflexivity. }
  assert (Hstate' : truthy_str (new_name p) = false ->
    is_present_in_host (initiator_state p) = false ->
    (run fail_if (truthy_str (new_name p))
           (ConfigurationError NewNameForAbsentHost);
     run fail_if (negb (is_present_in_host (initiator_state p)))
           (ConfigurationError IncorrectInitiatorState);
     do created <- create_host p n;
     do host_id <- (if created then get_host_id_by_name n else ret host_id);
     _create_result_dict p created host_id) w
    = (Failed (ConfigurationError IncorrectInitiatorState), w)).
  { intros -> ->. reflexivity. }
  split; [exact Hnew|]. split; [exact Hstate'|]. split.
  - intros -> -> Hos. unfold fail_if, bind, ret, create_host. simpl.
    now rewrite Hos.
  - intros Hsupplied.
    apply check_parameters_Done in Hchk. rewrite Hsupplied in Hchk.
    destruct (truthy_str (new_name p)) eqn:Hn'.
    + eexists. now apply Hnew.
    + eexists. apply Hstate'; [reflexivity|].
      now destruct (initiator_state p).
Qed.

(** X7.  Creating a host from the simple list.  When the
    requirements of a creation are met and [initiators] is a non-empty
    list, the pass fails with the protocol-mix error and requests
    nothing if the classified names span iSCSI, FC and NVMe; otherwise
    it sends exactly one create request with the host name, the
    [os_type], [host_connectivity] as given, and one dictionary for
    each name, in the order given, with its classified port type and
    no CHAP key.  No other request follows, and a pass that completes
    returns [changed = true]. *)
Theorem create_from_simple_list p w (host_id : option string)
    (n os first : string) (others : list string) :
  resolve_identity p w = (Done (host_id, None), w) ->
  check_parameters p w = (Done tt, w) ->
  state p = present ->
  host_name p = Some n ->
  n <> "" ->
  truthy_str (new_name p) = false ->
  initiator_state p = Some present_in_host ->
  os_type p = Some os ->
  initiators p = Some (first :: others) ->
  let inits :=
    map (fun name => {| i_port_name := name; i_port_type := classify name;
                        i_chap := None |}) (first :: others) in
  (spans_all_three inits = true ->
   perform_module_operation p w = (Failed ProtocolMixError, w))
  /\ (spans_all_three inits = false ->
      sent (snd (perform_module_operation p w))
      = sent w ++ [CreateHost n os inits (host_connectivity p)]
      /\ forall res w',
           perform_module_operation p w = (Done res, w') ->
           changed res = true).
Proof.
  intros Hres Hchk Hstate Hname Hn Hnew Hintent Hos Hsimple inits.
  rewrite (pass_on_absent_host p w host_id n Hres Hchk Hstate Hname Hn).
  rewrite Hnew, Hintent. simpl negb. unfold fail_if. rewrite !bind_ret.
  pose proof (create_host_simple_run p n os first others w Hos Hsimple)
    as Hrun.
  assert (Hinits : map add_simple_entry (first :: others) = inits).
  { apply map_ext. intros name. apply add_simple_entry_spec. }
  rewrite Hinits in Hrun. split.
  - intros Hspan. rewrite Hspan in Hrun. now apply bind_of_Failed.
  - intros Hspan. rewrite Hspan in Hrun. split.
    + unfold bind at 1. rewrite Hrun, call_or_fail_run.
      destruct (snd (perform _ _)); [reflexivity|].
      rewrite silent_bind; [reflexivity | apply silent_get_host_id_by_name |].
      intros id. apply silent_create_result_dict.
    + intros res w' Hdone.
      apply bind_Done in Hdone as (created & w1 & Hcreate & Hdone).
      rewrite Hrun in Hcreate.
      apply call_or_fail_Done in Hcreate as (-> & _).
      apply bind_Done in Hdone as (id & w2 & _ & Hdict).
      now apply create_result_dict_Done in Hdict as (_ & Hchanged & _).
Qed.

(** X8.  Creating a host from detailed initiators.  When the
    requirements of a creation are met, [initiators] is empty or
    missing and the detailed initiators passed validation, the pass
    sends exactly one create request whose dictionaries are the
    detailed initiators in the order given: each keeps the [port_type]
    it gives, also when the port name says otherwise, takes the
    classification of its port name when it gives none, and carries its
    four CHAP keys.  A pass that completes returns [changed = true]. *)
Theorem create_from_detailed_initiators p w (host_id : option string)
    (n os : string) (ds : list detailed_initiator) :
  resolve_identity p w = (Done (host_id, None), w) ->
  check_parameters p w = (Done tt, w) ->
  state p = present ->
  host_name p = Some n ->
  n <> "" ->
  truthy_str (new_name p) = false ->
  initiator_state p = Some present_in_host ->
  os_type p = Some os ->
  truthy_list (initiators p) = false ->
  detailed_initiators p = Some ds ->
  let inits :=
    map (fun d => {| i_port_name := port_name d;
                     i_port_type := match port_type d with
                                    | Some given => given
                                    | None => classify (port_name d)
                                    end;
                     i_chap := Some (chap_of d) |}) ds in
  ds <> []
  /\ sent (snd (perform_module_operation p w))
     = sent w ++ [CreateHost n os inits (host_connectivity p)]
  /\ forall res w',
       perform_module_operation p w = (Done res, w') ->
       changed res = true.
Proof.
  intros Hres Hchk Hstate Hname Hn Hnew Hintent Hos Hsimple Hdetailed inits.
  split.
  { apply check_parameters_Done in Hchk.
    unfold initiators_supplied in Hchk.
    rewrite Hintent, Hsimple, Hdetailed in Hchk. now destruct ds. }
  rewrite (pass_on_absent_host p w host_id n Hres Hchk Hstate Hname Hn).
  rewrite Hnew, Hintent. simpl negb. unfold fail_if. rewrite !bind_ret.
  pose proof (create_host_detailed_run p n os ds w Hos Hsimple Hdetailed)
    as Hrun.
  assert (Hinits : map create_detailed_entry ds = inits).
  { apply map_ext. intros d. apply create_detailed_entry_spec. }
  rewrite Hinits in Hrun. split.
  - unfold bind at 1. rewrite Hrun, call_or_fail_run.
    destruct (snd (perform _ _)); [reflexivity|].
    rewrite silent_bind; [reflexivity | apply silent_get_host_id_by_name |].
    intros id. apply silent_create_result_dict.
  - intros res w' Hdone.
    apply bind_Done in Hdone as (created & w1 & Hcreate & Hdone).
    rewrite Hrun in Hcreate.
    apply call_or_fail_Done in Hcreate as (-> & _).
    apply bind_Done in Hdone as (id & w2 & _ & Hdict).
    now apply create_result_dict_Done in Hdict as (_ & Hchanged & _).
Qed.

End Create.

(** ** Deleting a host, and what the pass returns *)

Section DeleteAndResult.

Context {R : Type} `{Provisioning R}.

Implicit Types (p : module_params) (w : world R) (h : host).

(** On an existing host the create block does nothing. *)
Lemma create_step_existing p h (name host_id : option string) (c : bool) w :
  create_step p (Some h) name host_id c w = (Done (c, host_id), w).
Proof. unfold create_step. simpl. now rewrite andb_false_r. Qed.

(** X9.  Deleting a host.  With [state = absent] on a host that
    exists, once the checks have passed, the pass sends exactly one
    request, the deletion of that host by its id, whatever initiators,
    name or connectivity the request also gives; when the array accepts
    it the pass returns [changed = true] with the empty record, without
    fetching the host again, and when the array raises the pass fails
    with the delete error. *)
Theorem delete_existing_host p w (host_id : option string) h :
  state p = absent ->
  resolve_identity p w = (Done (host_id, Some h), w) ->
  check_parameters p w = (Done tt, w) ->
  os_type_check p (Some h) w = (Done tt, w) ->
  perform_module_operation p w
  = (match snd (perform (array w) (DeleteHost (h_id h))) with
     | None => Done {| changed := true; details := EmptyDict |}
     | Some e => Failed (RemoteOperationError OpDelete e)
     end,
     World (fst (perform (array w) (DeleteHost (h_id h))))
       (sent w ++ [DeleteHost (h_id h)])).
Proof.
  intros Hstate Hres Hchk Hos. unfold perform_module_operation.
  rewrite (bind_of_Done _ _ _ _ _ Hres).
  rewrite (bind_of_Done _ _ _ _ _ Hchk).
  rewrite (bind_of_Done _ _ _ _ _ (create_step_existing p h _ _ _ w)).
  rewrite (bind_of_Done _ _ _ _ _ Hos).
  unfold add_step, remove_step, modify_step, delete_step, _create_result_dict.
  rewrite Hstate. simpl. rewrite !bind_ret.
  unfold delete_host, bind. rewrite call_or_fail_run.
  now destruct (snd (perform _ _)).
Qed.

(** X10.  The host details of a pass that completes with
    [state = present] on an existing host are what the array answers
    for the id of that host after the requests of the pass, not the
    host read at the start of the pass. *)
Theorem host_details_are_fetched_after_the_requests p w
    (host_id : option string) h res w' :
  state p = present ->
  resolve_identity p w = (Done (host_id, Some h), w) ->
  perform_module_operation p w = (Done res, w') ->
  exists answer,
    get_host_details (array w') host_id = Returns answer
    /\ details res = Fetched answer.
Proof.
  intros Hstate Hres Hdone.
  apply pass_inv in Hdone
    as (host_id0 & host & c1 & host_id' & w1 & c2 & w2 & c3 & w3 & c4 & w4 & c5
        & Hres' & _ & Hcreate & _ & _ & _ & _ & _ & Hdict).
  rewrite Hres in Hres'. injection Hres' as <- <-.
  rewrite create_step_existing in Hcreate. injection Hcreate as _ <- _.
  unfold _create_result_dict in Hdict. rewrite Hstate in Hdict.
  unfold get_host, bind, query, ret, fail_json in Hdict.
  destruct (get_host_details (array w') host_id) as [[answer|]|e];
    try discriminate; injection Hdict as <-; eexists; split; reflexivity.
Qed.

End DeleteAndResult.

(** ** A host without the key of its initiators *)

Section MissingKey.

Context {R : Type} `{Provisioning R}.

Implicit Types (p : module_params) (w : world R) (h : host).

(** X11.  When the host read from the array has no key for its
    initiators, removing initiators fails with the remove error and
    requests nothing, while adding initiators takes the host to have
    none and sends one batch that names every requested port name. *)
Theorem host_without_initiators_key p h w :
  h_host_initiators h = None ->
  mutually_exclusive p ->
  initiators_supplied p = true ->
  remove_host_initiators p h w
  = (Failed (RemoteOperationError OpRemoveInitiators KeyError), w)
  /\ exists adds,
       py_set (map i_port_name adds) = py_set (requested_port_names p)
       /\ sent (snd (add_host_initiators p h w))
          = sent w ++ [ModifyHostAdd (h_id h) adds].
Proof.
  intros Hkey Hexcl Hsupplied. split.
  - unfold remove_host_initiators. now rewrite Hkey.
  - rewrite (add_host_initiators_run p h w Hexcl Hsupplied), Hkey. simpl.
    assert (Hnonempty : requested_port_names p <> []).
    { unfold requested_port_names, initiators_supplied in *.
      destruct (detailed_initiators p) as [[|d ds]|]; try discriminate;
        destruct (initiators p) as [[|x l]|]; discriminate. }
    assert (Hnot : issubset (py_set (requested_port_names p)) (py_set [])
                   = false).
    { apply issubset_false. intros Hsub. apply Hnonempty.
      apply py_set_nil_inv. unfold py_set in *. set_solver. }
    rewrite Hnot. eexists. split; [|now rewrite call_or_fail_run].
    rewrite build_add_list_names.
    + rewrite get_add_initiators_set. unfold py_set. set_solver.
    + intros d ds Hd init Hinit. apply get_add_initiators_In in Hinit.
      unfold requested_port_names in Hinit. now rewrite Hd in Hinit.
Qed.

End MissingKey.

(** ** What each block sends, whatever its outcome *)

Section Sends.

Context {R : Type} `{Provisioning R}.

Implicit Types (p : module_params) (w : world R) (h : host).

Lemma silent_sends {A : Type} (c : M R A) w (shape : request -> Prop) :
  silent c -> sends_at_most_one c w shape.
Proof. intros Hc. left. apply Hc. Qed.

Lemma ret_sends {A : Type} (a : A) w (shape : request -> Prop) :
  sends_at_most_one (@ret R A a) w shape.
Proof. now left. Qed.

Lemma call_or_fail_sends (op : operation) (req : request) w
    (shape : request -> Prop) :
  shape req -> sends_at_most_one (call_or_fail op req) w shape.
Proof.
  intros Hshape. right. exists req. rewrite call_or_fail_run. simpl.
  split; [assumption|]. split; [reflexivity|].
  intros e ->. now exists op.
Qed.

Lemma sends_weaken {A : Type} (c : M R A) w (shape shape' : request -> Prop) :
  (forall req, shape req -> shape' req) ->
  sends_at_most_one c w shape -> sends_at_most_one c w shape'.
Proof.
  intros Himpl [Hsilent|(req & Hshape & Hrest)]; [now left|].
  right. exists req. split; [now apply Himpl | exact Hrest].
Qed.

(** A computation that sends at most one request, followed by silent
    ones. *)
Lemma sends_then_silent {A B : Type} (c : M R A) (k : A -> M R B) w
    (shape : request -> Prop) :
  sends_at_most_one c w shape ->
  (forall a, silent (k a)) ->
  sends_at_most_one (bind c k) w shape.
Proof.
  intros [Hsilent|(req & Hshape & Hworld & Hfail)] Hk; unfold bind.
  - left. destruct (c w) as [[a|f] w1]; simpl in Hsilent; subst w1;
      [apply Hk | reflexivity].
  - right. exists req. split; [assumption|].
    destruct (c w) as [[a|f] w1]; simpl in *.
    + split; [now rewrite Hk|].
      intros e He. destruct (Hfail e He) as [op Hop]. discriminate.
    + split; [exact Hworld|].
      intros e He. destruct (Hfail e He) as [op Hop].
      exists op. congruence.
Qed.

(** A silent computation, followed by one that sends at most one
    request. *)
Lemma silent_then_sends {A B : Type} (c : M R A) (k : A -> M R B) w
    (shape : request -> Prop) :
  silent c ->
  (forall a, c w = (Done a, w) -> sends_at_most_one (k a) w shape) ->
  sends_at_most_one (bind c k) w shape.
Proof.
  intros Hc Hk. unfold sends_at_most_one.
  destruct (silent_cases c w Hc) as [[a Ha]|[f Hf]].
  - rewrite (bind_of_Done _ _ _ _ _ Ha). now apply Hk.
  - rewrite (bind_of_Failed _ _ _ _ _ Hf). now left.
Qed.

(** The log of a computation that sends at most one request. *)
Lemma sends_log {A : Type} (c : M R A) w (shape : request -> Prop) :
  sends_at_most_one c w shape ->
  exists log, sent (snd (c w)) = sent w ++ log /\ at_most_one shape log.
Proof.
  intros [Hsilent|(req & Hshape & Hworld & _)].
  - exists []. rewrite Hsilent, app_nil_r. split; [reflexivity | now left].
  - exists [req]. rewrite Hworld. split; [reflexivity|]. right. eauto.
Qed.

Lemma create_host_sends p (n : string) w :
  initiators_supplied p = true ->
  sends_at_most_one (create_host p n) w
    (fun req => exists os inits,
       os_type p = Some os /\ inits <> []
       /\ req = CreateHost n os inits (host_connectivity p)).
Proof.
  intros Hsupplied. unfold create_host, initiators_supplied in *.
  destruct (os_type p) as [os|]; [|now left].
  destruct (initiators p) as [[|first others]|]; simpl in Hsupplied.
  - destruct (detailed_initiators p) as [[|d ds]|]; try discriminate.
    apply call_or_fail_sends. exists os. eexists. now repeat split.
  - destruct (_ && _ && _); [now left|].
    apply call_or_fail_sends. exists os. eexists. now repeat split.
  - destruct (detailed_initiators p) as [[|d ds]|]; try discriminate.
    apply call_or_fail_sends. exists os. eexists. now repeat split.
Qed.

Lemma create_step_sends p (host : option host) (host_id : option string)
    (c : bool) w :
  is_not_none (initiator_state p) = initiators_supplied p ->
  sends_at_most_one
    (create_step p host
       (match host with Some h => Some (h_name h) | None => host_name p end)
       host_id c) w
    (create_request p host).
Proof.
  intros Hchecked. unfold create_step.
  destruct host as [h|]; simpl; [rewrite andb_false_r; now left|].
  destruct (state p) eqn:Hstate; simpl; [|now left].
  destruct (host_name p) as [n|] eqn:Hname; simpl; [|now left].
  destruct (negb (n =? ""))%string; [|now left].
  apply silent_then_sends; [apply silent_fail_if|]. intros u _.
  apply silent_then_sends; [apply silent_fail_if|]. intros u' Hintent.
  assert (Hsupplied : initiators_supplied p = true).
  { rewrite <- Hchecked. unfold fail_if in Hintent.
    destruct (initiator_state p) as [[|]|]; simpl in *;
      (reflexivity || discriminate). }
  apply sends_then_silent.
  - eapply sends_weaken; [|apply (create_host_sends p n w Hsupplied)].
    intros req (os & inits & Hos & Hne & ->).
    split; [reflexivity|]. split; [exact Hstate|].
    exists n, os, inits. auto.
  - intros created. apply silent_bind; [|intros; apply silent_ret].
    destruct created; [apply silent_get_host_id_by_name | apply silent_ret].
Qed.

Lemma add_host_initiators_sends p h w :
  sends_at_most_one (add_host_initiators p h) w
    (fun req => exists adds, adds <> [] /\ req = ModifyHostAdd (h_id h) adds).
Proof.
  unfold add_host_initiators.
  repeat match goal with
         | |- context [if ?c then _ else _] => destruct c eqn:?
         | |- context [match ?o with Some _ => _ | None => _ end] =>
             destruct o
         end;
    try (now left).
  all: apply call_or_fail_sends; eexists; split; [|reflexivity].
  all: intros Hnil.
  all: match goal with
       | Hlen : (0 <? length _)%nat = true |- _ => rewrite Hnil in Hlen
       end.
  all: discriminate.
Qed.

Lemma remove_host_initiators_sends p h w :
  sends_at_most_one (remove_host_initiators p h) w
    (fun req => exists names,
       names <> [] /\ req = ModifyHostRemove (h_id h) names).
Proof.
  unfold remove_host_initiators.
  destruct (h_host_initiators h) as [current|]; [|now left].
  destruct (length (map hi_port_name current) =? 0)%nat; [now left|].
  match goal with
  | |- context [match ?o with Some _ => _ | None => _ end] =>
      destruct o as [requested|]
  end; [|now left].
  destruct (0 <? length _)%nat eqn:Hlen; [|now left].
  apply call_or_fail_sends. eexists. split; [|reflexivity].
  intros Hnil. rewrite Hnil in Hlen. discriminate.
Qed.

Lemma add_step_sends p (host : option host) (c : bool) w :
  sends_at_most_one (add_step p host c) w (add_request p host).
Proof.
  unfold add_step. destruct host as [h|]; [|now left].
  destruct (state p) eqn:Hstate; simpl; [|now left].
  destruct (initiator_state p) as [[|]|] eqn:Hintent; simpl; try now left.
  destruct (_ || _); [|now left].
  apply sends_then_silent; [|intros; apply silent_ret].
  eapply sends_weaken; [|apply add_host_initiators_sends].
  intros req (adds & Hne & ->).
  split; [exact Hstate|]. split; [exact Hintent|]. eauto.
Qed.

Lemma remove_step_sends p (host : option host) (c : bool) w :
  sends_at_most_one (remove_step p host c) w (remove_request p host).
Proof.
  unfold remove_step. destruct host as [h|]; [|now left].
  destruct (state p) eqn:Hstate; simpl; [|now left].
  destruct (initiator_state p) as [[|]|] eqn:Hintent; simpl; try now left.
  destruct (_ || _); [|now left].
  apply sends_then_silent; [|intros; apply silent_ret].
  eapply sends_weaken; [|apply remove_host_initiators_sends].
  intros req (names & Hne & ->).
  split; [exact Hstate|]. split; [exact Hintent|]. eauto.
Qed.

Lemma modify_step_sends p (host : option host) (c : bool) w :
  sends_at_most_one (modify_step p host c) w (modify_request p host).
Proof.
  unfold modify_step. destruct host as [h|]; [|now left].
  destruct (state p) eqn:Hstate; simpl; [|now left].
  destruct (_ || _); [|now left].
  destruct (is_modify_required _ _ _); [|now left].
  apply call_or_fail_sends. split; [exact Hstate|]. eauto.
Qed.

Lemma delete_step_sends p (host : option host) (c : bool) w :
  sends_at_most_one (delete_step p host c) w (delete_request p host).
Proof.
  unfold delete_step. destruct host as [h|]; [|now left].
  destruct (state p) eqn:Hstate; simpl; [now left|].
  apply sends_then_silent; [|intros; apply silent_ret].
  apply call_or_fail_sends. split; [exact Hstate|]. eauto.
Qed.

End Sends.

(** ** The log of a pass, whatever its outcome *)

Section PassLog.

Context {R : Type} `{Provisioning R}.

Implicit Types (p : module_params) (w : world R) (h : host).

Lemma then_log_nil (shape : request -> Prop) (rest : list request -> Prop) :
  rest [] -> then_log shape rest [].
Proof. intros Hrest. exists [], []. split; [reflexivity|]. split; [now left | assumption]. Qed.

Lemma log_bind {A B : Type} (c : M R A) (k : A -> M R B) w
    (shape : request -> Prop) (rest : list request -> Prop) :
  sends_at_most_one c w shape ->
  rest [] ->
  (forall a w1, c w = (Done a, w1) ->
     exists l, sent (snd (k a w1)) = sent w1 ++ l /\ rest l) ->
  exists l, sent (snd (bind c k w)) = sent w ++ l /\ then_log shape rest l.
Proof.
  intros Hsends Hnil Hk.
  destruct (sends_log c w shape Hsends) as (l1 & Hl1 & Hshape).
  unfold bind. destruct (c w) as [[a|f] w1] eqn:Hc; simpl in Hl1.
  - destruct (Hk a w1 eq_refl) as (l2 & Hl2 & Hrest).
    exists (l1 ++ l2). split; [now rewrite Hl2, Hl1, app_assoc|].
    now exists l1, l2.
  - exists (l1 ++ []). split; [now rewrite app_nil_r|].
    now exists l1, [].
Qed.

Lemma log_silent_bind {A B : Type} (c : M R A) (k : A -> M R B) w
    (rest : list request -> Prop) :
  silent c ->
  rest [] ->
  (forall a, c w = (Done a, w) ->
     exists l, sent (snd (k a w)) = sent w ++ l /\ rest l) ->
  exists l, sent (snd (bind c k w)) = sent w ++ l /\ rest l.
Proof.
  intros Hc Hnil Hk.
  destruct (silent_cases c w Hc) as [[a Ha]|[f Hf]].
  - rewrite (bind_of_Done _ _ _ _ _ Ha). now apply Hk.
  - rewrite (bind_of_Failed _ _ _ _ _ Hf). exists [].
    now rewrite app_nil_r.
Qed.

Lemma pass_log_nil p (host : option host) : pass_log p host [].
Proof. unfold pass_log. repeat apply then_log_nil. reflexivity. Qed.

(** The blocks of a pass, after the lookup and the checks. *)
Lemma blocks_log p w (host_id : option string) (host : option host) :
  is_not_none (initiator_state p) = initiators_supplied p ->
  exists l,
    sent (snd ((do created <-
                  create_step p host
                    (match host with
                     | Some h => Some (h_name h)
                     | None => host_name p
                     end) host_id false;
                let '(changed, host_id) := created in
                run os_type_check p host;
                do changed <- add_step p host changed;
                do changed <- remove_step p host changed;
                do changed <- modify_step p host changed;
                do changed <- delete_step p host changed;
                _create_result_dict p changed host_id) w))
    = sent w ++ l
    /\ pass_log p host l.
Proof.
  intros Hchecked. unfold pass_log.
  apply log_bind; [now apply create_step_sends | |].
  { repeat apply then_log_nil. reflexivity. }
  intros [c1 host_id'] w1 _.
  apply log_silent_bind; [apply silent_os_type_check | |].
  { repeat apply then_log_nil. reflexivity. }
  intros u _.
  apply log_bind; [apply add_step_sends | |].
  { repeat apply then_log_nil. reflexivity. }
  intros c2 w2 _.
  apply log_bind; [apply remove_step_sends | |].
  { repeat apply then_log_nil. reflexivity. }
  intros c3 w3 _.
  apply log_bind; [apply modify_step_sends | |].
  { repeat apply then_log_nil. reflexivity. }
  intros c4 w4 _.
  apply log_bind; [apply delete_step_sends | reflexivity |].
  intros c5 w5 _. exists [].
  rewrite silent_create_result_dict. now rewrite app_nil_r.
Qed.

(** Every pass: nothing is sent when the lookup or a check fails, and
    otherwise the log grows by at most one request of each block. *)
Lemma pass_run p w :
  snd (perform_module_operation p w) = w
  \/ exists host_id host l,
       resolve_identity p w = (Done (host_id, host), w)
       /\ check_parameters p w = (Done tt, w)
       /\ sent (snd (perform_module_operation p w)) = sent w ++ l
       /\ pass_log p host l.
Proof.
  unfold perform_module_operation.
  destruct (silent_cases _ w (silent_resolve_identity p))
    as [[[host_id host] Hres]|[f Hres]].
  - rewrite (bind_of_Done _ _ _ _ _ Hres).
    destruct (silent_cases _ w (silent_check_parameters p))
      as [[[] Hchk]|[f Hchk]].
    + right. exists host_id, host.
      rewrite (bind_of_Done _ _ _ _ _ Hchk).
      destruct (blocks_log p w host_id host
                  (check_parameters_Done p w tt w Hchk)) as (l & Hl & Hlog).
      exists l. auto.
    + left. now rewrite (bind_of_Failed _ _ _ _ _ Hchk).
  - left. now rewrite (bind_of_Failed _ _ _ _ _ Hres).
Qed.

(** The five parts of the log of a pass. *)
Lemma pass_log_parts p (host : option host) (l : list request) :
  pass_log p host l ->
  exists l1 l2 l3 l4 l5,
    l = l1 ++ l2 ++ l3 ++ l4 ++ l5
    /\ at_most_one (create_request p host) l1
    /\ at_most_one (add_request p host) l2
    /\ at_most_one (remove_request p host) l3
    /\ at_most_one (modify_request p host) l4
    /\ at_most_one (delete_request p host) l5.
Proof.
  intros (l1 & r1 & -> & H1 & (l2 & r2 & -> & H2 & (l3 & r3 & -> & H3
            & (l4 & r4 & -> & H4 & (l5 & r5 & -> & H5 & ->))))).
  exists l1, l2, l3, l4, l5. rewrite app_nil_r. auto 10.
Qed.

End PassLog.

(** ** What a pass never sends *)

Section Never.

Context {R : Type} `{Provisioning R}.

Implicit Types (p : module_params) (w : world R) (h : host).

Ltac open_shapes :=
  repeat match goal with
         | Hs : at_most_one _ _ |- _ =>
             destruct Hs as [->|(? & ? & ->)]
         | Hs : create_request _ _ _ |- _ =>
             destruct Hs as (? & ? & ? & ? & ? & ? & ? & ? & ->)
         | Hs : add_request _ _ _ |- _ =>
             destruct Hs as (? & ? & ? & ? & ? & ? & ->)
         | Hs : remove_request _ _ _ |- _ =>
             destruct Hs as (? & ? & ? & ? & ? & ? & ->)
         | Hs : modify_request _ _ _ |- _ =>
             destruct Hs as (? & ? & ? & ->)
         | Hs : delete_request _ _ _ |- _ =>
             destruct Hs as (? & ? & ? & ->)
         end.

(** The log of any pass, in its five parts. *)
Lemma pass_sends p w :
  exists log,
    sent (snd (perform_module_operation p w)) = sent w ++ log
    /\ (log = []
        \/ exists host_id host l1 l2 l3 l4 l5,
             resolve_identity p w = (Done (host_id, host), w)
             /\ log = l1 ++ l2 ++ l3 ++ l4 ++ l5
             /\ at_most_one (create_request p host) l1
             /\ at_most_one (add_request p host) l2
             /\ at_most_one (remove_request p host) l3
             /\ at_most_one (modify_request p host) l4
             /\ at_most_one (delete_request p host) l5).
Proof.
  destruct (pass_run p w) as [Hsame|(host_id & host & l & Hres & _ & Hl & Hlog)].
  - exists []. rewrite Hsame, app_nil_r. auto.
  - exists l. split; [assumption|]. right.
    apply pass_log_parts in Hlog
      as (l1 & l2 & l3 & l4 & l5 & -> & H1 & H2 & H3 & H4 & H5).
    exists host_id, host, l1, l2, l3, l4, l5. auto 10.
Qed.

(** X12.  [state] decides what a pass may send, whether it completes
    or fails on the way: with [state = absent] the pass sends nothing
    or the one deletion of the host it found, never a creation, an
    addition, a removal or a modification; with [state = present] it
    never sends a deletion. *)
Theorem state_decides_what_is_sent p w :
  exists log,
    sent (snd (perform_module_operation p w)) = sent w ++ log
    /\ (state p = absent ->
        log = []
        \/ exists host_id h,
             resolve_identity p w = (Done (host_id, Some h), w)
             /\ log = [DeleteHost (h_id h)])
    /\ (state p = present ->
        Forall (fun req => step_of req <> StepDelete) log).
Proof.
  destruct (pass_sends p w)
    as (log & Hlog & [->|(host_id & host & l1 & l2 & l3 & l4 & l5
                          & Hres & -> & H1 & H2 & H3 & H4 & H5)]).
  - exists []. split; [assumption|]. split; [now left | constructor].
  - eexists. split; [exact Hlog|]. split; intros Hstate.
    + open_shapes; try congruence; simpl; [now left|].
      right. subst host. eauto.
    + open_shapes; try congruence; simpl;
        repeat constructor; discriminate.
Qed.

(** X13.  No request of a pass carries an empty list: a creation
    always names at least one initiator, and a batch of additions or of
    removals is never empty, whether the pass completes or fails. *)
Theorem no_request_carries_an_empty_list p w :
  exists log,
    sent (snd (perform_module_operation p w)) = sent w ++ log
    /\ Forall carries_no_empty_list log.
Proof.
  destruct (pass_sends p w)
    as (log & Hlog & [->|(host_id & host & l1 & l2 & l3 & l4 & l5
                          & Hres & -> & H1 & H2 & H3 & H4 & H5)]).
  - exists []. split; [assumption | constructor].
  - eexists. split; [exact Hlog|].
    open_shapes; simpl; repeat constructor; assumption.
Qed.

(** X14.  A pass sends at most two requests, whether it completes or
    fails, and in the order of its blocks: a creation alone, a deletion
    alone, or an addition or a removal, a modification, or an addition
    or a removal followed by a modification.  Additions and removals
    are never sent in the same pass. *)
Theorem at_most_two_requests p w :
  exists log,
    sent (snd (perform_module_operation p w)) = sent w ++ log
    /\ In (map step_of log)
         [ []; [StepCreate]; [StepAdd]; [StepRemove]; [StepModify];
           [StepAdd; StepModify]; [StepRemove; StepModify]; [StepDelete] ]
    /\ length log <= 2
    /\ (issued StepCreate log = true \/ issued StepDelete log = true ->
        length log = 1)
    /\ ~ (issued StepAdd log = true /\ issued StepRemove log = true).
Proof.
  destruct (pass_sends p w)
    as (log & Hlog & [->|(host_id & host & l1 & l2 & l3 & l4 & l5
                          & Hres & -> & H1 & H2 & H3 & H4 & H5)]).
  - exists []. split; [assumption|]. simpl. split; [now left|].
    split; [lia|].
    split; [intros [|]; discriminate | intros [? _]; discriminate].
  - eexists. split; [exact Hlog|].
    open_shapes; try congruence; simpl;
      (split; [auto 10|]);
      (split; [lia|]); (split; [intros [|]; (reflexivity || discriminate)|]);
      intros [? ?]; discriminate.
Qed.

(** X15.  Every request of a pass is addressed to the host the pass
    found: when the host exists, each request carries the id of that
    host and none is a creation; when it does not, the only request the
    pass may send is the creation of a host of the requested name. *)
Theorem requests_address_the_host_found p w
    (host_id : option string) (host : option host) :
  resolve_identity p w = (Done (host_id, host), w) ->
  exists log,
    sent (snd (perform_module_operation p w)) = sent w ++ log
    /\ match host with
       | Some h => Forall (fun req => target req = Some (h_id h)) log
       | None =>
           log = []
           \/ exists n os inits,
                host_name p = Some n
                /\ log = [CreateHost n os inits (host_connectivity p)]
       end.
Proof.
  intros Hres.
  destruct (pass_sends p w)
    as (log & Hlog & [->|(host_id' & host' & l1 & l2 & l3 & l4 & l5
                          & Hres' & -> & H1 & H2 & H3 & H4 & H5)]).
  - exists []. split; [assumption|]. destruct host; [constructor | now left].
  - rewrite Hres in Hres'. injection Hres' as <- <-.
    eexists. split; [exact Hlog|].
    destruct host as [h|]; open_shapes; try congruence; simpl;
      repeat match goal with
             | Heq : Some _ = Some _ |- _ => injection Heq as <-
             end;
      try (repeat constructor; fail);
      try (now left); right; eauto.
Qed.

(** ** When the array refuses *)

Lemma sends_refused {A : Type} (c : M R A) w (shape : request -> Prop) :
  (forall req, snd (perform (array w) req) <> None) ->
  sends_at_most_one c w shape ->
  stops_at_refusal c w.
Proof.
  intros Hrefuse [Hsilent|(req & _ & Hworld & Hfail)]; [now left|].
  right. destruct (snd (perform (array w) req)) as [e|] eqn:He.
  - destruct (Hfail e eq_refl) as [op Hop]. now exists req, op, e.
  - now elim (Hrefuse req).
Qed.

Lemma stops_bind {A B : Type} (c : M R A) (k : A -> M R B) w :
  stops_at_refusal c w ->
  (forall a, c w = (Done a, w) -> stops_at_refusal (k a) w) ->
  stops_at_refusal (bind c k) w.
Proof.
  intros [Hsilent|(req & op & e & Hraised & Hworld & Hfail)] Hk;
    unfold stops_at_refusal.
  - destruct (c w) as [[a|f] w1] eqn:Hc; simpl in Hsilent; subst w1.
    + rewrite (bind_of_Done _ _ _ _ _ Hc). now apply Hk.
    + rewrite (bind_of_Failed _ _ _ _ _ Hc). now left.
  - destruct (c w) as [[a|f] w1] eqn:Hc; simpl in *; [discriminate|].
    rewrite (bind_of_Failed _ _ _ _ _ Hc). right.
    exists req, op, e. split; [assumption|]. split; [assumption|].
    simpl. congruence.
Qed.

Lemma stops_silent {A : Type} (c : M R A) w : silent c -> stops_at_refusal c w.
Proof. intros Hc. left. apply Hc. Qed.

(** X16.  No second try and no further step.  When the array, as it
    is at the start of the pass, raises on whatever request it is sent,
    a pass either sends nothing or sends exactly one request and fails
    with the error the array raised on it: the request is not sent
    again, and no later block of the pass sends anything. *)
Theorem first_refusal_ends_the_pass p w :
  (forall req, snd (perform (array w) req) <> None) ->
  stops_at_refusal (perform_module_operation p) w.
Proof.
  intros Hrefuse. unfold perform_module_operation.
  apply stops_bind; [apply stops_silent, silent_resolve_identity|].
  intros [host_id host] _.
  destruct (silent_cases _ w (silent_check_parameters p))
    as [[[] Hchk]|[f Hchk]].
  2: { unfold stops_at_refusal.
       rewrite (bind_of_Failed _ _ _ _ _ Hchk). now left. }
  apply stops_bind; [apply stops_silent, silent_check_parameters|].
  intros u _.
  apply stops_bind.
  { eapply sends_refused; [exact Hrefuse|].
    apply create_step_sends. now apply check_parameters_Done in Hchk. }
  intros [c1 host_id'] _.
  apply stops_bind; [apply stops_silent, silent_os_type_check|].
  intros u' _.
  apply stops_bind;
    [eapply sends_refused; [exact Hrefuse | apply add_step_sends]|].
  intros c2 _.
  apply stops_bind;
    [eapply sends_refused; [exact Hrefuse | apply remove_step_sends]|].
  intros c3 _.
  apply stops_bind;
    [eapply sends_refused; [exact Hrefuse | apply modify_step_sends]|].
  intros c4 _.
  apply stops_bind;
    [eapply sends_refused; [exact Hrefuse | apply delete_step_sends]|].
  intros c5 _. apply stops_silent, silent_create_result_dict.
Qed.

End Never.

(** ** The further properties at concrete requests *)

(** Two hosts of the array are named "h1". *)
Lemma ambiguous_name_fails_before_anything_witness :
  host_name (MemoryArray.request_for "h1" present) = Some "h1"
  /\ "h1" <> ""
  /\ get_host_by_name [MemoryArray.h1; Examples.twin] "h1"
     = Returns [MemoryArray.h1; Examples.twin]
  /\ perform_module_operation (MemoryArray.request_for "h1" present)
       (World [MemoryArray.h1; Examples.twin] [])
     = (Failed AmbiguousNameError, World [MemoryArray.h1; Examples.twin] []).
Proof.
  assert (Hne : "h1" <> "") by discriminate.
  assert (Hlookup : get_host_by_name
                      (array (World [MemoryArray.h1; Examples.twin] [])) "h1"
                    = Returns [MemoryArray.h1; Examples.twin]) by reflexivity.
  split; [reflexivity|]. split; [exact Hne|]. split; [exact Hlookup|].
  exact (ambiguous_name_fails_before_anything
           (MemoryArray.request_for "h1" present)
           (World [MemoryArray.h1; Examples.twin] []) "h1"
           MemoryArray.h1 Examples.twin [] eq_refl Hne Hlookup).
Defined.

(** No host of the array is named "h9", and its absence is asked for. *)
Lemma absent_by_name_is_no_error_witness :
  host_name (MemoryArray.request_for "h9" absent) = Some "h9"
  /\ "h9" <> ""
  /\ perform_module_operation (MemoryArray.request_for "h9" absent)
       (World [MemoryArray.h1] [])
     = (Done {| changed := false; details := EmptyDict |},
        World [MemoryArray.h1] []).
Proof.
  assert (Hne : "h9" <> "") by discriminate.
  split; [reflexivity|]. split; [exact Hne|].
  assert (Hnone : get_host_by_name (array (World [MemoryArray.h1] [])) "h9"
                  = Returns []) by reflexivity.
  rewrite (proj2 (proj2 (absent_by_name_is_no_error
                           (MemoryArray.request_for "h9" absent)
                           (World [MemoryArray.h1] []) "h9" eq_refl Hne)
                    (or_introl Hnone)) eq_refl).
  reflexivity.
Defined.

(** No host of the array has the id "id-h9", and its absence is asked
    for. *)
Lemma absent_by_id_is_an_error_witness :
  truthy_str (host_name (Examples.request_by_id "id-h9" absent)) = false
  /\ host_id (Examples.request_by_id "id-h9" absent) = Some "id-h9"
  /\ "id-h9" <> ""
  /\ perform_module_operation (Examples.request_by_id "id-h9" absent)
       (World [MemoryArray.h1] [])
     = (Failed (RemoteOperationError OpGetHost
                  (PowerStoreException true "404")),
        World [MemoryArray.h1] []).
Proof.
  assert (Hne : "id-h9" <> "") by discriminate.
  split; [reflexivity|]. split; [reflexivity|]. split; [exact Hne|].
  apply (proj1 (absent_by_id_is_an_error
                  (Examples.request_by_id "id-h9" absent)
                  (World [MemoryArray.h1] []) "id-h9"
                  eq_refl eq_refl Hne)).
  reflexivity.
Defined.

(** [initiator_state] is given for "h1" without initiators. *)
Lemma initiator_state_and_initiators_go_together_witness :
  resolve_identity
    (MemoryArray.with_initiator_state (MemoryArray.request_for "h1" present)
       present_in_host)
    (World [MemoryArray.h1] [])
  = (Done (Some "id-h1", Some MemoryArray.h1), World [MemoryArray.h1] [])
  /\ true <> false
  /\ perform_module_operation
       (MemoryArray.with_initiator_state
          (MemoryArray.request_for "h1" present) present_in_host)
       (World [MemoryArray.h1] [])
     = (Failed (ConfigurationError InitiatorsMandatory),
        World [MemoryArray.h1] []).
Proof.
  assert (Hres : resolve_identity
            (MemoryArray.with_initiator_state
               (MemoryArray.request_for "h1" present) present_in_host)
            (World [MemoryArray.h1] [])
          = (Done (Some "id-h1", Some MemoryArray.h1),
             World [MemoryArray.h1] [])) by reflexivity.
  assert (Hdiff : true <> false) by discriminate.
  split; [exact Hres|]. split; [exact Hdiff|].
  exact (initiator_state_and_initiators_go_together
           (MemoryArray.with_initiator_state
              (MemoryArray.request_for "h1" present) present_in_host)
           (World [MemoryArray.h1] []) _ Hres Hdiff).
Defined.

(** "h2" does not exist and is asked for without initiators. *)
Lemma creation_requirements_witness :
  resolve_identity (MemoryArray.request_for "h2" present)
    (World [MemoryArray.h1] [])
  = (Done (None, None), World [MemoryArray.h1] [])
  /\ check_parameters (MemoryArray.request_for "h2" present)
       (World [MemoryArray.h1] [])
     = (Done tt, World [MemoryArray.h1] [])
  /\ state (MemoryArray.request_for "h2" present) = present
  /\ host_name (MemoryArray.request_for "h2" present) = Some "h2"
  /\ "h2" <> ""
  /\ perform_module_operation (MemoryArray.request_for "h2" present)
       (World [MemoryArray.h1] [])
     = (Failed (ConfigurationError IncorrectInitiatorState),
        World [MemoryArray.h1] []).
Proof.
  assert (Hres : resolve_identity (MemoryArray.request_for "h2" present)
                   (World [MemoryArray.h1] [])
                 = (Done (None, None), World [MemoryArray.h1] []))
    by reflexivity.
  assert (Hchk : check_parameters (MemoryArray.request_for "h2" present)
                   (World [MemoryArray.h1] [])
                 = (Done tt, World [MemoryArray.h1] [])) by reflexivity.
  assert (Hne : "h2" <> "") by discriminate.
  split; [exact Hres|]. split; [exact Hchk|]. split; [reflexivity|].
  split; [reflexivity|]. split; [exact Hne|].
  apply (proj1 (proj2 (creation_requirements
                         (MemoryArray.request_for "h2" present)
                         (World [MemoryArray.h1] []) None "h2"
                         Hres Hchk eq_refl eq_refl Hne)));
    reflexivity.
Defined.

(** Scenario A: "h2" is created with the FC initiator C. *)
Lemma create_from_simple_list_witness :
  resolve_identity Examples.create_h2 (World [MemoryArray.h1] [])
  = (Done (None, None), World [MemoryArray.h1] [])
  /\ check_parameters Examples.create_h2 (World [MemoryArray.h1] [])
     = (Done tt, World [MemoryArray.h1] [])
  /\ "h2" <> ""
  /\ sent (snd (perform_module_operation Examples.create_h2
                  (World [MemoryArray.h1] [])))
     = [CreateHost "h2" "Windows"
          [{| i_port_name := MemoryArray.wwn_C; i_port_type := "FC";
              i_chap := None |}] None].
Proof.
  assert (Hres : resolve_identity Examples.create_h2
                   (World [MemoryArray.h1] [])
                 = (Done (None, None), World [MemoryArray.h1] []))
    by reflexivity.
  assert (Hchk : check_parameters Examples.create_h2
                   (World [MemoryArray.h1] [])
                 = (Done tt, World [MemoryArray.h1] [])) by reflexivity.
  assert (Hne : "h2" <> "") by discriminate.
  split; [exact Hres|]. split; [exact Hchk|]. split; [exact Hne|].
  apply (proj1 (proj2 (create_from_simple_list Examples.create_h2
                         (World [MemoryArray.h1] []) None "h2" "Windows"
                         MemoryArray.wwn_C []
                         Hres Hchk eq_refl eq_refl Hne eq_refl eq_refl
                         eq_refl eq_refl) eq_refl)).
Defined.

(** "h2" is created with a detailed initiator whose given type is not
    the type of its port name. *)
Lemma create_from_detailed_initiators_witness :
  resolve_identity Examples.create_h2_detailed (World [MemoryArray.h1] [])
  = (Done (None, None), World [MemoryArray.h1] [])
  /\ check_parameters Examples.create_h2_detailed (World [MemoryArray.h1] [])
     = (Done tt, World [MemoryArray.h1] [])
  /\ "h2" <> ""
  /\ sent (snd (perform_module_operation Examples.create_h2_detailed
                  (World [MemoryArray.h1] [])))
     = [CreateHost "h2" "Windows"
          [{| i_port_name := MemoryArray.wwn_C; i_port_type := "iSCSI";
              i_chap :=
                Some {| k_chap_single_username := Some "user";
                        k_chap_single_password := None;
                        k_chap_mutual_username := None;
                        k_chap_mutual_password := None |} |}] None].
Proof.
  assert (Hres : resolve_identity Examples.create_h2_detailed
                   (World [MemoryArray.h1] [])
                 = (Done (None, None), World [MemoryArray.h1] []))
    by reflexivity.
  assert (Hchk : check_parameters Examples.create_h2_detailed
                   (World [MemoryArray.h1] [])
                 = (Done tt, World [MemoryArray.h1] [])) by reflexivity.
  assert (Hne : "h2" <> "") by discriminate.
  split; [exact Hres|]. split; [exact Hchk|]. split; [exact Hne|].
  apply (proj1 (proj2 (create_from_detailed_initiators
                         Examples.create_h2_detailed
                         (World [MemoryArray.h1] []) None "h2" "Windows"
                         [MemoryArray.detailed MemoryArray.wwn_C
                            (Some "iSCSI") (Some "user")]
                         Hres Hchk eq_refl eq_refl Hne eq_refl eq_refl
                         eq_refl eq_refl eq_refl))).
Defined.

(** "h1" is deleted. *)
Lemma delete_existing_host_witness :
  state (MemoryArray.request_for "h1" absent) = absent
  /\ resolve_identity (MemoryArray.request_for "h1" absent)
       (World [MemoryArray.h1] [])
     = (Done (Some "id-h1", Some MemoryArray.h1), World [MemoryArray.h1] [])
  /\ perform_module_operation (MemoryArray.request_for "h1" absent)
       (World [MemoryArray.h1] [])
     = (Done {| changed := true; details := EmptyDict |},
        World [] [DeleteHost "id-h1"]).
Proof.
  assert (Hres : resolve_identity (MemoryArray.request_for "h1" absent)
                   (World [MemoryArray.h1] [])
                 = (Done (Some "id-h1", Some MemoryArray.h1),
                    World [MemoryArray.h1] [])) by reflexivity.
  split; [reflexivity|]. split; [exact Hres|].
  exact (delete_existing_host (MemoryArray.request_for "h1" absent)
           (World [MemoryArray.h1] []) (Some "id-h1") MemoryArray.h1
           eq_refl Hres eq_refl eq_refl).
Defined.

(** "h1" is renamed to "h2": the details returned are those of the
    renamed host. *)
Lemma host_details_are_fetched_after_the_requests_witness :
  perform_module_operation
    (MemoryArray.with_modify (MemoryArray.request_for "h1" present)
       (Some "h2") None)
    (World [MemoryArray.h1] [])
  = (Done {| changed := true; details := Fetched (Some Examples.renamed) |},
     World [Examples.renamed] [ModifyHost "id-h1" (Some "h2") None])
  /\ exists answer,
       get_host_details [Examples.renamed] (Some "id-h1") = Returns answer
       /\ Fetched (Some Examples.renamed) = Fetched answer.
Proof.
  assert (Hres : resolve_identity
            (MemoryArray.with_modify (MemoryArray.request_for "h1" present)
               (Some "h2") None)
            (World [MemoryArray.h1] [])
          = (Done (Some "id-h1", Some MemoryArray.h1),
             World [MemoryArray.h1] [])) by reflexivity.
  assert (Hdone : perform_module_operation
            (MemoryArray.with_modify (MemoryArray.request_for "h1" present)
               (Some "h2") None)
            (World [MemoryArray.h1] [])
          = (Done {| changed := true;
                     details := Fetched (Some Examples.renamed) |},
             World [Examples.renamed] [ModifyHost "id-h1" (Some "h2") None]))
    by (vm_compute; reflexivity).
  split; [exact Hdone|].
  exact (host_details_are_fetched_after_the_requests
           (MemoryArray.with_modify (MemoryArray.request_for "h1" present)
              (Some "h2") None)
           (World [MemoryArray.h1] []) (Some "id-h1") MemoryArray.h1
           {| changed := true; details := Fetched (Some Examples.renamed) |}
           (World [Examples.renamed] [ModifyHost "id-h1" (Some "h2") None])
           eq_refl Hres Hdone).
Defined.

(** The host "h0" has no key for its initiators, and C is requested. *)
Lemma host_without_initiators_key_witness :
  h_host_initiators Examples.bare = None
  /\ mutually_exclusive
       (MemoryArray.with_initiators (MemoryArray.request_for "h0" present)
          [MemoryArray.wwn_C] absent_in_host)
  /\ initiators_supplied
       (MemoryArray.with_initiators (MemoryArray.request_for "h0" present)
          [MemoryArray.wwn_C] absent_in_host) = true
  /\ remove_host_initiators
       (MemoryArray.with_initiators (MemoryArray.request_for "h0" present)
          [MemoryArray.wwn_C] absent_in_host)
       Examples.bare (World [Examples.bare] [])
     = (Failed (RemoteOperationError OpRemoveInitiators KeyError),
        World [Examples.bare] []).
Proof.
  split; [reflexivity|]. split; [right; reflexivity|]. split; [reflexivity|].
  exact (proj1 (host_without_initiators_key
                  (MemoryArray.with_initiators
                     (MemoryArray.request_for "h0" present)
                     [MemoryArray.wwn_C] absent_in_host)
                  Examples.bare (World [Examples.bare] [])
                  eq_refl (or_intror eq_refl) eq_refl)).
Defined.

(** C is added to "h1" and "h1" is renamed: both requests carry the id
    of "h1". *)
Lemma requests_address_the_host_found_witness :
  resolve_identity Examples.add_and_rename (World [MemoryArray.h1] [])
  = (Done (Some "id-h1", Some MemoryArray.h1), World [MemoryArray.h1] [])
  /\ exists log,
       sent (snd (perform_module_operation Examples.add_and_rename
                    (World [MemoryArray.h1] [])))
       = [] ++ log
       /\ Forall (fun req => target req = Some "id-h1") log.
Proof.
  assert (Hres : resolve_identity Examples.add_and_rename
                   (World [MemoryArray.h1] [])
                 = (Done (Some "id-h1", Some MemoryArray.h1),
                    World [MemoryArray.h1] [])) by reflexivity.
  split; [exact Hres|].
  exact (requests_address_the_host_found Examples.add_and_rename
           (World [MemoryArray.h1] []) (Some "id-h1") (Some MemoryArray.h1)
           Hres).
Defined.

(** C is added to "h1" and "h1" is renamed, on an array that refuses
    every request: the pass stops at the addition. *)
Lemma first_refusal_ends_the_pass_witness :
  (forall req,
     snd (perform (RejectingArray.Array [MemoryArray.h1]) req) <> None)
  /\ stops_at_refusal (perform_module_operation Examples.add_and_rename)
       (World (RejectingArray.Array [MemoryArray.h1]) []).
Proof.
  assert (Hrefuse : forall req,
            snd (perform (RejectingArray.Array [MemoryArray.h1]) req) <> None)
    by (intros req; discriminate).
  split; [exact Hrefuse|].
  exact (first_refusal_ends_the_pass Examples.add_and_rename
           (World (RejectingArray.Array [MemoryArray.h1]) []) Hrefuse).
Defined.

(** ** Steps of one pass combine *)

Section Combine.

Context {R : Type} `{Provisioning R}.

Implicit Types (p : module_params) (w : world R) (h : host).

(** X17.  An addition and a renaming asked for in one request are both
    carried out in one pass, the addition first.  The request has
    [state = present] and [initiator_state = present-in-host], gives
    its initiators in one of the two forms, and gives a [new_name] that
    is not empty or a [host_connectivity] that is not empty; the host
    exists; the checks on the parameters and the check on [os_type]
    pass; some requested initiator is not yet on the host; a given name
    or connectivity differs from the host read at the start of the
    pass; and the array accepts the batch of additions.  Then the pass
    sends the batch and then the modification, and nothing else.  When
    the array refuses the modification the pass fails with the update
    error; when it accepts it, the pass fetches the host and returns
    [changed = true], or fails with the get-host error if that fetch
    raises. *)
Theorem addition_and_renaming_combine p w (host_id : option string) h :
  mutually_exclusive p ->
  initiators_supplied p = true ->
  state p = present ->
  initiator_state p = Some present_in_host ->
  resolve_identity p w = (Done (host_id, Some h), w) ->
  check_parameters p w = (Done tt, w) ->
  os_type_check p (Some h) w = (Done tt, w) ->
  ~ py_set (requested_port_names p)
      ⊆ py_set (existing_inits_of (h_host_initiators h)) ->
  modify_requested p = true ->
  given_field_differs p h ->
  let adds :=
    build_add_list_with_type (detailed_initiators p)
      (_get_add_initiators (existing_inits_of (h_host_initiators h))
         (requested_port_names p)) in
  snd (perform (array w) (ModifyHostAdd (h_id h) adds)) = None ->
  sent (snd (perform_module_operation p w))
  = sent w ++ [ModifyHostAdd (h_id h) adds;
               ModifyHost (h_id h) (new_name p) (host_connectivity p)]
  /\ (forall res w',
        perform_module_operation p w = (Done res, w') -> changed res = true)
  /\ (let added := fst (perform (array w) (ModifyHostAdd (h_id h) adds)) in
      let modification :=
        ModifyHost (h_id h) (new_name p) (host_connectivity p) in
      let after :=
        World (fst (perform added modification))
          (sent w ++ [ModifyHostAdd (h_id h) adds; modification]) in
      perform_module_operation p w
      = (match snd (perform added modification) with
         | Some e => Failed (RemoteOperationError OpUpdate e)
         | None =>
             match get_host_details (array after) host_id with
             | Returns answer =>
                 Done {| changed := true; details := Fetched answer |}
             | Raises e => Failed (RemoteOperationError OpGetHost e)
             end
         end, after)).
Proof.
  intros Hexcl Hsupplied Hstate Hintent Hres Hchk Hos Hnot Hreq Hdiff adds
    Haccept.
  assert (Hadd : add_step p (Some h) false w
    = (Done true,
       World (fst (perform (array w) (ModifyHostAdd (h_id h) adds)))
         (sent w ++ [ModifyHostAdd (h_id h) adds]))).
  { unfold add_step. unfold initiators_supplied in Hsupplied.
    rewrite Hstate, Hintent, Hsupplied. simpl.
    unfold bind. rewrite (add_host_initiators_run p h w Hexcl Hsupplied).
    apply issubset_false in Hnot. rewrite Hnot. fold adds.
    now rewrite call_or_fail_run, Haccept. }
  assert (Hmod : forall w1, modify_step p (Some h) true w1
    = call_or_fail OpUpdate
        (ModifyHost (h_id h) (new_name p) (host_connectivity p)) w1).
  { intros w1. rewrite modify_step_run, Hstate, Hreq.
    now rewrite (proj2 (is_modify_required_iff p h) Hdiff). }
  assert (Hpass : perform_module_operation p w
    = (do changed <-
         call_or_fail OpUpdate
           (ModifyHost (h_id h) (new_name p) (host_connectivity p));
       _create_result_dict p changed host_id)
        (World (fst (perform (array w) (ModifyHostAdd (h_id h) adds)))
           (sent w ++ [ModifyHostAdd (h_id h) adds]))).
  { unfold perform_module_operation.
    rewrite (bind_of_Done _ _ _ _ _ Hres).
    rewrite (bind_of_Done _ _ _ _ _ Hchk).
    rewrite (bind_of_Done _ _ _ _ _ (create_step_existing p h _ _ _ w)).
    rewrite (bind_of_Done _ _ _ _ _ Hos).
    rewrite (bind_of_Done _ _ _ _ _ Hadd).
    unfold remove_step, delete_step. rewrite Hstate, Hintent. simpl.
    rewrite bind_ret. unfold bind at 1. rewrite Hmod. unfold bind.
    destruct (call_or_fail _ _ _) as [[c|f] w2]; reflexivity. }
  rewrite Hpass. split; [|split].
  - unfold bind. rewrite call_or_fail_run. simpl sent.
    destruct (snd (perform _ (ModifyHost _ _ _))).
    + simpl. now rewrite <- app_assoc.
    + rewrite silent_create_result_dict. simpl. now rewrite <- app_assoc.
  - intros res w' Hdone.
    apply bind_Done in Hdone as (c & w2 & Hcall & Hdict).
    apply call_or_fail_Done in Hcall as (-> & _).
    now apply create_result_dict_Done in Hdict as (_ & Hchanged & _).
  - intros added modification after. subst after modification added.
    unfold bind. rewrite call_or_fail_run. simpl array. simpl sent.
    rewrite <- app_assoc. simpl app.
    destruct (snd (perform _ (ModifyHost _ _ _))); [reflexivity|].
    unfold _create_result_dict, get_host, bind, query, ret, fail_json.
    rewrite Hstate. simpl array.
    destruct (get_host_details _ host_id) as [[answer|]|e]; reflexivity.
Qed.

End Combine.

(** C is added to "h1" and "h1" is renamed to "h2". *)
Lemma addition_and_renaming_combine_witness :
  mutually_exclusive Examples.add_and_rename
  /\ initiators_supplied Examples.add_and_rename = true
  /\ given_field_differs Examples.add_and_rename MemoryArray.h1
  /\ sent (snd (perform_module_operation Examples.add_and_rename
                  (World [MemoryArray.h1] [])))
     = [ModifyHostAdd "id-h1"
          [{| i_port_name := MemoryArray.wwn_C; i_port_type := "FC";
              i_chap := None |}];
        ModifyHost "id-h1" (Some "h2") None].
Proof.
  assert (Hexcl : mutually_exclusive Examples.add_and_rename)
    by (right; reflexivity).
  assert (Hdiff : given_field_differs Examples.add_and_rename MemoryArray.h1).
  { left. exists "h2". split; [reflexivity | discriminate]. }
  assert (Hres : resolve_identity Examples.add_and_rename
                   (World [MemoryArray.h1] [])
                 = (Done (Some "id-h1", Some MemoryArray.h1),
                    World [MemoryArray.h1] [])) by reflexivity.
  assert (Hnot : ~ py_set (requested_port_names Examples.add_and_rename)
                   ⊆ py_set (existing_inits_of
                               (h_host_initiators MemoryArray.h1))).
  { apply issubset_false. vm_compute. reflexivity. }
  split; [exact Hexcl|]. split; [reflexivity|]. split; [exact Hdiff|].
  rewrite (proj1 (addition_and_renaming_combine Examples.add_and_rename
                    (World [MemoryArray.h1] []) (Some "id-h1") MemoryArray.h1
                    Hexcl eq_refl eq_refl eq_refl Hres eq_refl eq_refl
                    Hnot eq_refl Hdiff eq_refl)).
  vm_compute. reflexivity.
Defined.

(** * Adding, removing and renaming in a whole pass *)

Section WholePass.

Context {R : Type} `{Provisioning R}.

Implicit Types (p : module_params) (w : world R) (h : host).

(** The end of a pass with [state = present]: the host is fetched. *)
Lemma create_result_dict_present p (c : bool) (host_id : option string) w :
  state p = present ->
  _create_result_dict p c host_id w
  = (match get_host_details (array w) host_id with
     | Returns answer => Done {| changed := c; details := Fetched answer |}
     | Raises e => Failed (RemoteOperationError OpGetHost e)
     end, w).
Proof.
  intros Hstate.
  unfold _create_result_dict, get_host, bind, query, ret, fail_json.
  rewrite Hstate.
  destruct (get_host_details (array w) host_id) as [[answer|]|e]; reflexivity.
Qed.

(** C4, amended.  The host exists, the request has [state = present]
    and [initiator_state = present-in-host] and gives no [new_name] and
    no [host_connectivity], its initiators are supplied in one of the
    two forms, which exclude each other, and the checks on the
    parameters and on [os_type] pass.  The requested port names are
    among the existing ones exactly when the computed additions are
    empty; then the pass requests nothing, fetches the host and returns
    [changed = false].  Otherwise the pass sends exactly one request,
    a batch add whose dictionaries name exactly the requested names
    that are not existing ones (with the simple form: one dictionary
    for each of them); when the array accepts it the pass fetches the
    host and returns [changed = true], and when the array refuses it
    the pass fails with the add error.  In both cases a final fetch
    that raises makes the pass fail with the get-host error. *)
Theorem add_pass_idempotent_batch p w (host_id : option string) h :
  state p = present ->
  initiator_state p = Some present_in_host ->
  mutually_exclusive p ->
  initiators_supplied p = true ->
  new_name p = None ->
  host_connectivity p = None ->
  resolve_identity p w = (Done (host_id, Some h), w) ->
  check_parameters p w = (Done tt, w) ->
  os_type_check p (Some h) w = (Done tt, w) ->
  let existing := existing_inits_of (h_host_initiators h) in
  let requested := requested_port_names p in
  let adds :=
    build_add_list_with_type (detailed_initiators p)
      (_get_add_initiators existing requested) in
  let request := ModifyHostAdd (h_id h) adds in
  let after := World (fst (perform (array w) request)) (sent w ++ [request]) in
  (py_set requested ⊆ py_set existing
   <-> _get_add_initiators existing requested = [])
  /\ py_set (map i_port_name adds) = py_set requested ∖ py_set existing
  /\ (detailed_initiators p = None ->
      map i_port_name adds = _get_add_initiators existing requested)
  /\ (py_set requested ⊆ py_set existing ->
      perform_module_operation p w
      = (match get_host_details (array w) host_id with
         | Returns answer =>
             Done {| changed := false; details := Fetched answer |}
         | Raises e => Failed (RemoteOperationError OpGetHost e)
         end, w))
  /\ (~ py_set requested ⊆ py_set existing ->
      adds <> []
      /\ perform_module_operation p w
         = (match snd (perform (array w) request) with
            | Some e => Failed (RemoteOperationError OpAddInitiators e)
            | None =>
                match get_host_details (array after) host_id with
                | Returns answer =>
                    Done {| changed := true; details := Fetched answer |}
                | Raises e => Failed (RemoteOperationError OpGetHost e)
                end
            end, after)).
Proof.
  intros Hstate Hintent Hexcl Hsupplied Hname Hconn Hres Hchk Hos
    existing requested adds request after.
  assert (Hpass : perform_module_operation p w
    = (do added <- add_host_initiators p h;
       _create_result_dict p added host_id) w).
  { apply pass_add_only; try assumption.
    - now rewrite Hname.
    - now rewrite Hconn. }
  pose proof (add_host_initiators_run p h w Hexcl Hsupplied) as Hrun.
  fold existing requested adds request in Hrun.
  assert (Hnames :
    py_set (map i_port_name adds) = py_set requested ∖ py_set existing).
  { unfold adds. rewrite build_add_list_names;
      [apply get_add_initiators_set|].
    intros d ds Hd init Hinit. apply get_add_initiators_In in Hinit.
    subst requested. unfold requested_port_names in Hinit.
    now rewrite Hd in Hinit. }
  split; [symmetry; apply get_add_initiators_nil|].
  split; [exact Hnames|].
  split.
  { intros Hd. unfold adds. rewrite build_add_list_simple by now rewrite Hd.
    rewrite map_map. rewrite <- (map_id (_get_add_initiators _ _)) at 2.
    apply map_ext. apply add_simple_entry_port_name. }
  split.
  - intros Hs. apply issubset_true in Hs. rewrite Hs in Hrun.
    rewrite Hpass, (bind_of_Done _ _ _ _ _ Hrun).
    now apply create_result_dict_present.
  - intros Hs. split.
    + intros Hnil. rewrite Hnil in Hnames. simpl in Hnames.
      apply Hs. unfold py_set in *. set_solver.
    + apply issubset_false in Hs. rewrite Hs, call_or_fail_run in Hrun.
      fold after in Hrun. rewrite Hpass. unfold bind. rewrite Hrun.
      destruct (snd (perform (array w) request)); [reflexivity|].
      now apply create_result_dict_present.
Qed.

(** C5, amended.  The host exists and the record read from the array
    carries its list of initiators, the request has [state = present]
    and [initiator_state = absent-in-host] and gives no [new_name] and
    no [host_connectivity], and the checks on the parameters and on
    [os_type] pass.  The removals are the existing port names that are
    requested.  When the host has no initiator, or no existing name is
    requested, the pass sends no request, fetches the host and returns
    [changed = false].  Otherwise the pass sends exactly one request, a
    batch remove that names exactly the removals, as bare port names;
    when the array accepts it the pass fetches the host and returns
    [changed = true], and when the array refuses it the pass fails with
    the remove error.  In both cases a final fetch that raises makes
    the pass fail with the get-host error. *)
Theorem remove_pass_idempotent_batch p w (host_id : option string) h
    (current : list host_initiator) :
  state p = present ->
  initiator_state p = Some absent_in_host ->
  new_name p = None ->
  host_connectivity p = None ->
  resolve_identity p w = (Done (host_id, Some h), w) ->
  h_host_initiators h = Some current ->
  check_parameters p w = (Done tt, w) ->
  os_type_check p (Some h) w = (Done tt, w) ->
  let existing := map hi_port_name current in
  let requested := requested_port_names p in
  let removals := _get_remove_initiators existing requested in
  let request := ModifyHostRemove (h_id h) removals in
  let after := World (fst (perform (array w) request)) (sent w ++ [request]) in
  py_set removals = py_set existing ∩ py_set requested
  /\ NoDup removals
  /\ (current = [] \/ py_set existing ∩ py_set requested = ∅ ->
      perform_module_operation p w
      = (match get_host_details (array w) host_id with
         | Returns answer =>
             Done {| changed := false; details := Fetched answer |}
         | Raises e => Failed (RemoteOperationError OpGetHost e)
         end, w))
  /\ (current <> [] /\ py_set existing ∩ py_set requested <> ∅ ->
      removals <> []
      /\ perform_module_operation p w
         = (match snd (perform (array w) request) with
            | Some e => Failed (RemoteOperationError OpRemoveInitiators e)
            | None =>
                match get_host_details (array after) host_id with
                | Returns answer =>
                    Done {| changed := true; details := Fetched answer |}
                | Raises e => Failed (RemoteOperationError OpGetHost e)
                end
            end, after)).
Proof.
  intros Hstate Hintent Hname Hconn Hres Hcurrent Hchk Hos
    existing requested removals request after.
  assert (Hsupplied : initiators_supplied p = true).
  { rewrite <- (check_parameters_Done p w tt w Hchk), Hintent. reflexivity. }
  assert (Hpass : perform_module_operation p w
    = (do removed <- remove_host_initiators p h;
       _create_result_dict p removed host_id) w).
  { apply pass_remove_only; try assumption.
    - now rewrite Hname.
    - now rewrite Hconn. }
  pose proof (remove_host_initiators_run p h w current Hcurrent Hsupplied)
    as Hrun.
  assert (Hnil : removals = [] <-> py_set existing ∩ py_set requested = ∅)
    by apply get_remove_initiators_nil.
  assert (Hnoop : current = [] \/ py_set existing ∩ py_set requested = ∅ ->
                  remove_host_initiators p h w = (Done false, w)).
  { intros [->|Hempty]; [exact Hrun|].
    apply Hnil in Hempty. destruct current as [|i current]; [exact Hrun|].
    unfold removals, existing, requested in Hempty.
    now rewrite Hempty in Hrun. }
  assert (Hcall : current <> [] /\ py_set existing ∩ py_set requested <> ∅ ->
    removals <> []
    /\ remove_host_initiators p h w
       = call_or_fail OpRemoveInitiators request w).
  { intros [Hcur Hne].
    assert (Hsome : removals <> []) by (intros Hr; now apply Hne, Hnil).
    split; [exact Hsome|]. rewrite Hrun.
    destruct current as [|i current]; [contradiction|].
    unfold request. unfold removals, existing, requested in *.
    destruct (_get_remove_initiators _ _) as [|x l];
      [contradiction | reflexivity]. }
  split; [apply get_remove_initiators_set|].
  split; [apply NoDup_elements|].
  split.
  - intros Hs. rewrite Hpass, (bind_of_Done _ _ _ _ _ (Hnoop Hs)).
    now apply create_result_dict_present.
  - intros Hs. destruct (Hcall Hs) as [Hsome Hgo]. split; [exact Hsome|].
    rewrite Hpass. unfold bind. rewrite Hgo, call_or_fail_run. fold after.
    destruct (snd (perform (array w) request)); [reflexivity|].
    now apply create_result_dict_present.
Qed.

(** The add and the remove blocks fail with their own errors only, and
    send no modify request. *)
Lemma add_step_Failed p (host : option host) (c : bool) w f w' :
  add_step p host c w = (Failed f, w') ->
  exists e, f = RemoteOperationError OpAddInitiators e.
Proof.
  unfold add_step. destruct host as [h|]; [|discriminate].
  destruct (_ && _ && _); [|discriminate].
  unfold bind.
  destruct (add_host_initiators p h w) as [[b|f0] w1] eqn:Hadd;
    [discriminate|].
  intros Heq. injection Heq as <- _. revert Hadd.
  unfold add_host_initiators, ret, fail_json.
  repeat match goal with
         | |- context [if ?c then _ else _] => destruct c
         | |- context [match ?o with Some _ => _ | None => _ end] =>
             destruct o
         end;
    try discriminate;
    try (intros Heq; injection Heq as <- _; eauto; fail);
    rewrite call_or_fail_run;
    match goal with
    | |- context [snd (perform ?a ?req)] =>
        destruct (snd (perform a req)) as [e|]
    end;
    try discriminate; intros Heq; injection Heq as <- _; eauto.
Qed.

Lemma remove_step_Failed p (host : option host) (c : bool) w f w' :
  remove_step p host c w = (Failed f, w') ->
  exists e, f = RemoteOperationError OpRemoveInitiators e.
Proof.
  unfold remove_step. destruct host as [h|]; [|discriminate].
  destruct (_ && _ && _); [|discriminate].
  unfold bind.
  destruct (remove_host_initiators p h w) as [[b|f0] w1] eqn:Hrem;
    [discriminate|].
  intros Heq. injection Heq as <- _. revert Hrem.
  unfold remove_host_initiators, ret, fail_json.
  destruct (h_host_initiators h) as [current|];
    [|intros Heq; injection Heq as <- _; eauto].
  destruct (length (map hi_port_name current) =? 0)%nat; [discriminate|].
  match goal with
  | |- context [match ?o with Some _ => _ | None => _ end] =>
      destruct o as [requested|]
  end; [|intros Heq; injection Heq as <- _; eauto].
  destruct (0 <? length _)%nat; [|discriminate].
  rewrite call_or_fail_run.
  match goal with
  | |- context [snd (perform ?a ?req)] =>
      destruct (snd (perform a req)) as [e|]
  end; [|discriminate].
  intros Heq. injection Heq as <- _. eauto.
Qed.

Lemma add_log_no_modify p (host : option host) (log : list request) :
  at_most_one (add_request p host) log -> issued StepModify log = false.
Proof.
  intros [->|(req & (_ & _ & h0 & adds & _ & _ & ->) & ->)]; reflexivity.
Qed.

Lemma remove_log_no_modify p (host : option host) (log : list request) :
  at_most_one (remove_request p host) log -> issued StepModify log = false.
Proof.
  intros [->|(req & (_ & _ & h0 & names & _ & _ & ->) & ->)]; reflexivity.
Qed.

(** The blocks of a pass that come after the checks, on an existing
    host with [state = present], whatever their outcome: a modify
    request is in the log only when the rename block is entered and
    finds a difference, and then it is in the log unless the add or the
    remove block has failed before. *)
Lemma blocks_modify_issued p h (host_id : option string) w :
  state p = present ->
  exists log,
    sent (snd ((do c2 <- add_step p (Some h) false;
                do c3 <- remove_step p (Some h) c2;
                do c4 <- modify_step p (Some h) c3;
                do c5 <- delete_step p (Some h) c4;
                _create_result_dict p c5 host_id) w))
    = sent w ++ log
    /\ (issued StepModify log = true ->
        modify_requested p = true
        /\ is_modify_required h (new_name p) (host_connectivity p) = true
        /\ In (ModifyHost (h_id h) (new_name p) (host_connectivity p)) log)
    /\ (modify_requested p = true ->
        is_modify_required h (new_name p) (host_connectivity p) = true ->
        issued StepModify log = true
        \/ exists e,
             fst ((do c2 <- add_step p (Some h) false;
                   do c3 <- remove_step p (Some h) c2;
                   do c4 <- modify_step p (Some h) c3;
                   do c5 <- delete_step p (Some h) c4;
                   _create_result_dict p c5 host_id) w)
             = Failed (RemoteOperationError OpAddInitiators e)
             \/ fst ((do c2 <- add_step p (Some h) false;
                      do c3 <- remove_step p (Some h) c2;
                      do c4 <- modify_step p (Some h) c3;
                      do c5 <- delete_step p (Some h) c4;
                      _create_result_dict p c5 host_id) w)
                = Failed (RemoteOperationError OpRemoveInitiators e)).
Proof.
  intros Hstate.
  destruct (sends_log _ w _ (add_step_sends p (Some h) false w))
    as (l2 & Hl2 & Hone2).
  apply add_log_no_modify in Hone2.
  destruct (add_step p (Some h) false w) as [[c2|f2] w2] eqn:Hadd;
    simpl in Hl2.
  2: { rewrite (bind_of_Failed _ _ _ _ _ Hadd). exists l2.
       split; [exact Hl2|]. split.
       - rewrite Hone2. discriminate.
       - intros _ _. right.
         destruct (add_step_Failed _ _ _ _ _ _ Hadd) as [e ->].
         exists e. now left. }
  rewrite (bind_of_Done _ _ _ _ _ Hadd).
  destruct (sends_log _ w2 _ (remove_step_sends p (Some h) c2 w2))
    as (l3 & Hl3 & Hone3).
  apply remove_log_no_modify in Hone3.
  destruct (remove_step p (Some h) c2 w2) as [[c3|f3] w3] eqn:Hrem;
    simpl in Hl3.
  2: { rewrite (bind_of_Failed _ _ _ _ _ Hrem). exists (l2 ++ l3).
       split; [simpl; now rewrite Hl3, Hl2, app_assoc|]. split.
       - rewrite issued_app, Hone2, Hone3. discriminate.
       - intros _ _. right.
         destruct (remove_step_Failed _ _ _ _ _ _ Hrem) as [e ->].
         exists e. now right. }
  rewrite (bind_of_Done _ _ _ _ _ Hrem).
  assert (Hend : forall c w4,
    (do c5 <- delete_step p (Some h) c; _create_result_dict p c5 host_id) w4
    = _create_result_dict p c host_id w4).
  { intros c w4. unfold delete_step. rewrite Hstate. reflexivity. }
  pose proof (modify_step_run p h c3 w3) as Hmod.
  rewrite Hstate in Hmod. change (is_present present) with true in Hmod.
  rewrite andb_true_l in Hmod. unfold update_host in Hmod.
  destruct (modify_requested p
            && is_modify_required h (new_name p) (host_connectivity p))
    eqn:Hgo.
  - assert (Hcall : modify_step p (Some h) c3 w3
      = call_or_fail OpUpdate
          (ModifyHost (h_id h) (new_name p) (host_connectivity p)) w3)
      by exact Hmod.
    rewrite call_or_fail_run in Hcall.
    apply andb_true_iff in Hgo as [Hreq Hrequired].
    exists (l2 ++ l3 ++ [ModifyHost (h_id h) (new_name p)
                           (host_connectivity p)]).
    assert (Hissued : issued StepModify
              (l2 ++ l3 ++ [ModifyHost (h_id h) (new_name p)
                              (host_connectivity p)]) = true).
    { rewrite !issued_app. simpl. now rewrite !orb_true_r. }
    split; [|split].
    + unfold bind at 1. rewrite Hcall.
      destruct (snd (perform (array w3) _)).
      * simpl. now rewrite Hl3, Hl2, <- !app_assoc.
      * rewrite Hend, silent_create_result_dict. simpl.
        now rewrite Hl3, Hl2, <- !app_assoc.
    + intros _. split; [exact Hreq|]. split; [exact Hrequired|].
      apply in_or_app. right. apply in_or_app. right. now left.
    + intros _ _. now left.
  - assert (Hskip : modify_step p (Some h) c3 w3 = (Done c3, w3))
      by exact Hmod.
    exists (l2 ++ l3).
    rewrite (bind_of_Done _ _ _ _ _ Hskip), Hend, silent_create_result_dict.
    split; [now rewrite Hl3, Hl2, app_assoc|]. split.
    + rewrite issued_app, Hone2, Hone3. discriminate.
    + intros Hreq Hrequired. rewrite Hreq, Hrequired in Hgo. discriminate.
Qed.

(** C6, amended.  The host exists, the request has [state = present],
    and [new_name] and [host_connectivity], when they are given, are
    not the empty string.  Whether the pass completes or fails, a
    modify request is issued only if a given field differs from the
    observed one ([new_name] from the observed name, or
    [host_connectivity] from the observed connectivity), and it is the
    request that carries the given fields to that host; so when every
    given field equals its observed value no modify request is made.
    Conversely, when a given field differs and the checks on the
    parameters and on [os_type] pass, the modify request is issued,
    unless the pass has failed before, in the add block or in the
    remove block, with the add error or the remove error. *)
Theorem modify_issued_iff_field_differs_when_reached p w
    (host_id : option string) h :
  state p = present ->
  resolve_identity p w = (Done (host_id, Some h), w) ->
  new_name p <> Some "" ->
  host_connectivity p <> Some "" ->
  exists log,
    sent (snd (perform_module_operation p w)) = sent w ++ log
    /\ (issued StepModify log = true ->
        given_field_differs p h
        /\ In (ModifyHost (h_id h) (new_name p) (host_connectivity p)) log)
    /\ (~ given_field_differs p h -> issued StepModify log = false)
    /\ (given_field_differs p h ->
        check_parameters p w = (Done tt, w) ->
        os_type_check p (Some h) w = (Done tt, w) ->
        issued StepModify log = true
        \/ exists e,
             fst (perform_module_operation p w)
             = Failed (RemoteOperationError OpAddInitiators e)
             \/ fst (perform_module_operation p w)
                = Failed (RemoteOperationError OpRemoveInitiators e)).
Proof.
  intros Hstate Hres Hnn Hcn.
  assert (Hguard : given_field_differs p h -> modify_requested p = true).
  { unfold modify_requested. intros [(n & Hn & _)|(k & Hk & _)].
    - rewrite Hn, (proj2 (truthy_str_Some n)); [reflexivity|].
      intros ->. now apply Hnn.
    - rewrite Hk, (proj2 (truthy_str_Some k)); [apply orb_true_r|].
      intros ->. now apply Hcn. }
  assert (Hnothing : forall f,
    perform_module_operation p w = (Failed f, w) ->
    (check_parameters p w = (Done tt, w) ->
     os_type_check p (Some h) w = (Done tt, w) -> False) ->
    exists log,
      sent (snd (perform_module_operation p w)) = sent w ++ log
      /\ (issued StepModify log = true ->
          given_field_differs p h
          /\ In (ModifyHost (h_id h) (new_name p) (host_connectivity p)) log)
      /\ (~ given_field_differs p h -> issued StepModify log = false)
      /\ (given_field_differs p h ->
          check_parameters p w = (Done tt, w) ->
          os_type_check p (Some h) w = (Done tt, w) ->
          issued StepModify log = true
          \/ exists e,
               fst (perform_module_operation p w)
               = Failed (RemoteOperationError OpAddInitiators e)
               \/ fst (perform_module_operation p w)
                  = Failed (RemoteOperationError OpRemoveInitiators e))).
  { intros f Hfail Hnot. exists []. rewrite Hfail. simpl.
    rewrite app_nil_r. split; [reflexivity|].
    split; [discriminate|]. split; [reflexivity|].
    intros _ Hchk Hos. destruct (Hnot Hchk Hos). }
  destruct (silent_cases (check_parameters p) w (silent_check_parameters p))
    as [[[] Hchk]|[f Hchk]].
  2: { apply (Hnothing f).
       - unfold perform_module_operation.
         rewrite (bind_of_Done _ _ _ _ _ Hres). now apply bind_of_Failed.
       - intros Hdone _. rewrite Hchk in Hdone. discriminate. }
  destruct (silent_cases (os_type_check p (Some h)) w
              (silent_os_type_check p (Some h)))
    as [[[] Hos]|[f Hos]].
  2: { apply (Hnothing f).
       - unfold perform_module_operation.
         rewrite (bind_of_Done _ _ _ _ _ Hres).
         rewrite (bind_of_Done _ _ _ _ _ Hchk).
         rewrite (bind_of_Done _ _ _ _ _ (create_step_existing p h _ _ _ w)).
         now apply bind_of_Failed.
       - intros _ Hdone. rewrite Hos in Hdone. discriminate. }
  assert (Hpass : perform_module_operation p w
    = (do c2 <- add_step p (Some h) false;
       do c3 <- remove_step p (Some h) c2;
       do c4 <- modify_step p (Some h) c3;
       do c5 <- delete_step p (Some h) c4;
       _create_result_dict p c5 host_id) w).
  { unfold perform_module_operation.
    rewrite (bind_of_Done _ _ _ _ _ Hres).
    rewrite (bind_of_Done _ _ _ _ _ Hchk).
    rewrite (bind_of_Done _ _ _ _ _ (create_step_existing p h _ _ _ w)).
    now rewrite (bind_of_Done _ _ _ _ _ Hos). }
  destruct (blocks_modify_issued p h host_id w Hstate)
    as (log & Hlog & Honly & Hthen).
  exists log. rewrite Hpass. split; [exact Hlog|]. split; [|split].
  - intros Hissued. destruct (Honly Hissued) as (_ & Hrequired & Hin).
    split; [now apply is_modify_required_iff | exact Hin].
  - intros Hsame. destruct (issued StepModify log) eqn:Hissued;
      [|reflexivity].
    destruct (Honly eq_refl) as (_ & Hrequired & _).
    exfalso. now apply Hsame, is_modify_required_iff.
  - intros Hdiff _ _.
    apply Hthen; [now apply Hguard | now apply is_modify_required_iff].
Qed.

End WholePass.

(** C4 as stated fails on passes that it covers.  Asked to keep A on
    "h1" and to rename "h1", the pass sends a modify request and
    returns [changed = true], although the requested names are among
    the existing ones.  Asked to add C to "h1" with [state = absent],
    with an [os_type] that is not the one of "h1", or with a CHAP user
    on an initiator announced as FC, the pass sends no add request: it
    deletes the host, or fails on the check. *)
Lemma add_claim_fails_beside_other_requests :
  ((exists res w',
      MemoryArray.pass Examples.keep_and_rename [MemoryArray.h1]
      = (Done res, w')
      /\ changed res = true
      /\ sent w' = [ModifyHost "id-h1" (Some "h2") None])
   /\ ~ add_pass_as_specified Examples.keep_and_rename [MemoryArray.h1])
  /\ ((exists res w',
         MemoryArray.pass Examples.add_and_delete [MemoryArray.h1]
         = (Done res, w')
         /\ changed res = true
         /\ sent w' = [DeleteHost "id-h1"])
      /\ ~ add_pass_as_specified Examples.add_and_delete [MemoryArray.h1])
  /\ (MemoryArray.pass Examples.add_and_linux [MemoryArray.h1]
      = (Failed ImmutableFieldError, World [MemoryArray.h1] [])
      /\ ~ add_pass_as_specified Examples.add_and_linux [MemoryArray.h1])
  /\ (MemoryArray.pass Examples.add_chap_on_fc [MemoryArray.h1]
      = (Failed (ValidationError "FC"), World [MemoryArray.h1] [])
      /\ ~ add_pass_as_specified Examples.add_chap_on_fc [MemoryArray.h1]).
Proof.
  assert (Hnew : forall p,
    requested_port_names p = [MemoryArray.wwn_C] ->
    ~ py_set (requested_port_names p)
        ⊆ py_set (existing_inits_of (h_host_initiators MemoryArray.h1))).
  { intros p ->. apply issubset_false. vm_compute. reflexivity. }
  split; [|split; [|split]]; split.
  - vm_compute. eexists _, _. split; [reflexivity|]. split; reflexivity.
  - intros Hclaim.
    pose proof (Hclaim (Some "id-h1") MemoryArray.h1 eq_refl eq_refl eq_refl)
      as Hc.
    cbv zeta in Hc. destruct Hc as [Hsub _].
    destruct Hsub as [Hsent _].
    + apply issubset_true. vm_compute. reflexivity.
    + vm_compute in Hsent. discriminate.
  - vm_compute. eexists _, _. split; [reflexivity|]. split; reflexivity.
  - intros Hclaim.
    pose proof (Hclaim (Some "id-h1") MemoryArray.h1 eq_refl eq_refl eq_refl)
      as Hc.
    cbv zeta in Hc. destruct Hc as [_ Hnot].
    destruct (Hnot (Hnew Examples.add_and_delete eq_refl)) as [(adds & Hsent & _) _].
    vm_compute in Hsent. discriminate.
  - reflexivity.
  - intros Hclaim.
    pose proof (Hclaim (Some "id-h1") MemoryArray.h1 eq_refl eq_refl eq_refl)
      as Hc.
    cbv zeta in Hc. destruct Hc as [_ Hnot].
    destruct (Hnot (Hnew Examples.add_and_linux eq_refl)) as [(adds & Hsent & _) _].
    vm_compute in Hsent. discriminate.
  - reflexivity.
  - intros Hclaim.
    pose proof (Hclaim (Some "id-h1") MemoryArray.h1 eq_refl eq_refl eq_refl)
      as Hc.
    cbv zeta in Hc. destruct Hc as [_ Hnot].
    destruct (Hnot (Hnew Examples.add_chap_on_fc eq_refl)) as [(adds & Hsent & _) _].
    vm_compute in Hsent. discriminate.
Qed.

(** C5 as stated fails on passes that it covers.  Asked to drop A from
    a host "h1" that has no initiator and to rename it, the pass sends
    a modify request and returns [changed = true].  Asked to drop B
    from the host "h1" that has A and B, with [state = absent], with an
    [os_type] that is not the one of "h1", or with a CHAP user on an
    initiator announced as FC, the pass sends no remove request: it
    deletes the host, or fails on the check. *)
Lemma remove_claim_fails_beside_other_requests :
  ((exists res w',
      MemoryArray.pass Examples.drop_and_rename [Examples.twin]
      = (Done res, w')
      /\ changed res = true
      /\ sent w' = [ModifyHost "id-h1b" (Some "h2") None])
   /\ ~ remove_pass_as_specified Examples.drop_and_rename [Examples.twin])
  /\ ((exists res w',
         MemoryArray.pass Examples.drop_and_delete [MemoryArray.h1]
         = (Done res, w')
         /\ changed res = true
         /\ sent w' = [DeleteHost "id-h1"])
      /\ ~ remove_pass_as_specified Examples.drop_and_delete [MemoryArray.h1])
  /\ (MemoryArray.pass Examples.drop_and_linux [MemoryArray.h1]
      = (Failed ImmutableFieldError, World [MemoryArray.h1] [])
      /\ ~ remove_pass_as_specified Examples.drop_and_linux [MemoryArray.h1])
  /\ (MemoryArray.pass Examples.drop_chap_on_fc [MemoryArray.h1]
      = (Failed (ValidationError "FC"), World [MemoryArray.h1] [])
      /\ ~ remove_pass_as_specified Examples.drop_chap_on_fc
           [MemoryArray.h1]).
Proof.
  assert (Hsome : forall p,
    requested_port_names p = [MemoryArray.wwn_B] ->
    existing_inits_of (h_host_initiators MemoryArray.h1) <> []
    /\ py_set (existing_inits_of (h_host_initiators MemoryArray.h1))
         ∩ py_set (requested_port_names p) <> ∅).
  { intros p ->. split; [discriminate|]. intros Hempty.
    apply get_remove_initiators_nil in Hempty.
    vm_compute in Hempty. discriminate. }
  split; [|split; [|split]]; split.
  - vm_compute. eexists _, _. split; [reflexivity|]. split; reflexivity.
  - intros Hclaim.
    pose proof (Hclaim (Some "id-h1b") Examples.twin eq_refl eq_refl) as Hc.
    cbv zeta in Hc. destruct Hc as [Hnoop _].
    destruct Hnoop as [Hsent _]; [left; reflexivity|].
    vm_compute in Hsent. discriminate.
  - vm_compute. eexists _, _. split; [reflexivity|]. split; reflexivity.
  - intros Hclaim.
    pose proof (Hclaim (Some "id-h1") MemoryArray.h1 eq_refl eq_refl) as Hc.
    cbv zeta in Hc. destruct Hc as [_ Hgo].
    destruct (Hgo (Hsome Examples.drop_and_delete eq_refl)) as [(names & Hsent & _) _].
    vm_compute in Hsent. discriminate.
  - reflexivity.
  - intros Hclaim.
    pose proof (Hclaim (Some "id-h1") MemoryArray.h1 eq_refl eq_refl) as Hc.
    cbv zeta in Hc. destruct Hc as [_ Hgo].
    destruct (Hgo (Hsome Examples.drop_and_linux eq_refl)) as [(names & Hsent & _) _].
    vm_compute in Hsent. discriminate.
  - reflexivity.
  - intros Hclaim.
    pose proof (Hclaim (Some "id-h1") MemoryArray.h1 eq_refl eq_refl) as Hc.
    cbv zeta in Hc. destruct Hc as [_ Hgo].
    destruct (Hgo (Hsome Examples.drop_chap_on_fc eq_refl)) as [(names & Hsent & _) _].
    vm_compute in Hsent. discriminate.
Qed.

(** C6 as stated fails on passes that never reach the rename block,
    whichever way "is supplied" is read.  Asked to rename "h1" to "h2",
    a name that differs, the pass issues no modify request when the
    [os_type] given is not the one of "h1", when [state] is absent,
    when [initiator_state] comes without initiators, and when the array
    refuses the batch of additions asked for in the same pass. *)
Lemma modify_claim_fails_when_block_not_reached :
  (MemoryArray.pass Examples.rename_and_linux [MemoryArray.h1]
   = (Failed ImmutableFieldError, World [MemoryArray.h1] [])
   /\ forall supplied, supplied (Some "h2") = true ->
        ~ modify_iff_supplied_field_differs supplied
            Examples.rename_and_linux [MemoryArray.h1])
  /\ (sent (snd (MemoryArray.pass Examples.rename_and_delete [MemoryArray.h1]))
      = [DeleteHost "id-h1"]
      /\ forall supplied, supplied (Some "h2") = true ->
           ~ modify_iff_supplied_field_differs supplied
               Examples.rename_and_delete [MemoryArray.h1])
  /\ (MemoryArray.pass Examples.rename_and_bare_state [MemoryArray.h1]
      = (Failed (ConfigurationError InitiatorsMandatory),
         World [MemoryArray.h1] [])
      /\ forall supplied, supplied (Some "h2") = true ->
           ~ modify_iff_supplied_field_differs supplied
               Examples.rename_and_bare_state [MemoryArray.h1])
  /\ (sent (snd (perform_module_operation Examples.add_and_rename
                   (World (RejectingArray.Array [MemoryArray.h1]) [])))
      = [ModifyHostAdd "id-h1"
           [{| i_port_name := MemoryArray.wwn_C; i_port_type := "FC";
               i_chap := None |}]]
      /\ forall supplied, supplied (Some "h2") = true ->
           ~ modify_iff_supplied_field_differs supplied
               Examples.add_and_rename
               (RejectingArray.Array [MemoryArray.h1])).
Proof.
  split; [|split; [|split]]; split; try reflexivity.
  - intros supplied Hs Hclaim.
    pose proof (Hclaim (Some "id-h1") MemoryArray.h1 eq_refl) as Hc.
    simpl new_name in Hc. rewrite Hs in Hc.
    destruct (Hc eq_refl) as [_ Hback].
    assert (Hfalse : false = true); [|discriminate].
    apply Hback. left. split; [reflexivity | discriminate].
  - intros supplied Hs Hclaim.
    pose proof (Hclaim (Some "id-h1") MemoryArray.h1 eq_refl) as Hc.
    simpl new_name in Hc. rewrite Hs in Hc.
    destruct (Hc eq_refl) as [_ Hback].
    assert (Hfalse : false = true); [|discriminate].
    apply Hback. left. split; [reflexivity | discriminate].
  - intros supplied Hs Hclaim.
    pose proof (Hclaim (Some "id-h1") MemoryArray.h1 eq_refl) as Hc.
    simpl new_name in Hc. rewrite Hs in Hc.
    destruct (Hc eq_refl) as [_ Hback].
    assert (Hfalse : false = true); [|discriminate].
    apply Hback. left. split; [reflexivity | discriminate].
  - intros supplied Hs Hclaim.
    pose proof (Hclaim (Some "id-h1") MemoryArray.h1 eq_refl) as Hc.
    simpl new_name in Hc. rewrite Hs in Hc.
    destruct (Hc eq_refl) as [_ Hback].
    assert (Hfalse : false = true); [|discriminate].
    apply Hback. left. split; [reflexivity | discriminate].
Qed.

(** C is added to "h1", which has A and B: the pass sends the one add
    request and returns the host as it is after the addition. *)
Lemma add_pass_idempotent_batch_witness :
  let p := MemoryArray.with_initiators (MemoryArray.request_for "h1" present)
             [MemoryArray.wwn_C] present_in_host in
  let w := World [MemoryArray.h1] [] in
  state p = present
  /\ initiator_state p = Some present_in_host
  /\ mutually_exclusive p
  /\ initiators_supplied p = true
  /\ new_name p = None
  /\ host_connectivity p = None
  /\ resolve_identity p w = (Done (Some "id-h1", Some MemoryArray.h1), w)
  /\ check_parameters p w = (Done tt, w)
  /\ os_type_check p (Some MemoryArray.h1) w = (Done tt, w)
  /\ sent (snd (perform_module_operation p w))
     = [ModifyHostAdd "id-h1"
          [{| i_port_name := MemoryArray.wwn_C; i_port_type := "FC";
              i_chap := None |}]]
  /\ exists answer,
       fst (perform_module_operation p w)
       = Done {| changed := true; details := Fetched answer |}.
Proof.
  intros p w.
  assert (Hexcl : mutually_exclusive p) by (right; reflexivity).
  assert (Hres : resolve_identity p w
                 = (Done (Some "id-h1", Some MemoryArray.h1), w))
    by reflexivity.
  assert (Hchk : check_parameters p w = (Done tt, w)) by reflexivity.
  assert (Hos : os_type_check p (Some MemoryArray.h1) w = (Done tt, w))
    by reflexivity.
  assert (Hnot : ~ py_set (requested_port_names p)
                   ⊆ py_set (existing_inits_of
                               (h_host_initiators MemoryArray.h1))).
  { apply issubset_false. vm_compute. reflexivity. }
  do 9 (split; [first [reflexivity | assumption]|]).
  destruct (add_pass_idempotent_batch p w (Some "id-h1") MemoryArray.h1
              eq_refl eq_refl Hexcl eq_refl eq_refl eq_refl Hres Hchk Hos)
    as (_ & _ & _ & _ & Hgo).
  destruct (Hgo Hnot) as [_ Hrun]. rewrite Hrun.
  split; [vm_compute; reflexivity|].
  eexists. vm_compute. reflexivity.
Defined.

(** Scenario C: "h1" has A and B, and B and C are requested to be
    absent: the pass sends the one remove request, for B. *)
Lemma remove_pass_idempotent_batch_witness :
  let p := MemoryArray.with_initiators (MemoryArray.request_for "h1" present)
             [MemoryArray.wwn_B; MemoryArray.wwn_C] absent_in_host in
  let w := World [MemoryArray.h1] [] in
  state p = present
  /\ initiator_state p = Some absent_in_host
  /\ new_name p = None
  /\ host_connectivity p = None
  /\ resolve_identity p w = (Done (Some "id-h1", Some MemoryArray.h1), w)
  /\ h_host_initiators MemoryArray.h1
     = Some [MemoryArray.fc_initiator MemoryArray.wwn_A;
             MemoryArray.fc_initiator MemoryArray.wwn_B]
  /\ check_parameters p w = (Done tt, w)
  /\ os_type_check p (Some MemoryArray.h1) w = (Done tt, w)
  /\ sent (snd (perform_module_operation p w))
     = [ModifyHostRemove "id-h1" [MemoryArray.wwn_B]]
  /\ exists answer,
       fst (perform_module_operation p w)
       = Done {| changed := true; details := Fetched answer |}.
Proof.
  intros p w.
  assert (Hres : resolve_identity p w
                 = (Done (Some "id-h1", Some MemoryArray.h1), w))
    by reflexivity.
  assert (Hchk : check_parameters p w = (Done tt, w)) by reflexivity.
  assert (Hos : os_type_check p (Some MemoryArray.h1) w = (Done tt, w))
    by reflexivity.
  do 8 (split; [first [reflexivity | assumption]|]).
  destruct (remove_pass_idempotent_batch p w (Some "id-h1") MemoryArray.h1
              [MemoryArray.fc_initiator MemoryArray.wwn_A;
               MemoryArray.fc_initiator MemoryArray.wwn_B]
              eq_refl eq_refl eq_refl eq_refl Hres eq_refl Hchk Hos)
    as (_ & _ & _ & Hgo).
  destruct Hgo as [_ Hrun].
  { split; [discriminate|]. intros Hempty.
    apply get_remove_initiators_nil in Hempty.
    vm_compute in Hempty. discriminate. }
  rewrite Hrun. split; [vm_compute; reflexivity|].
  eexists. vm_compute. reflexivity.
Defined.

(** "h1" is renamed to "h2": the modify request is issued. *)
Lemma modify_issued_iff_field_differs_when_reached_witness :
  let p := MemoryArray.with_modify (MemoryArray.request_for "h1" present)
             (Some "h2") None in
  let w := World [MemoryArray.h1] [] in
  state p = present
  /\ resolve_identity p w = (Done (Some "id-h1", Some MemoryArray.h1), w)
  /\ new_name p <> Some ""
  /\ host_connectivity p <> Some ""
  /\ exists log,
       sent (snd (perform_module_operation p w)) = sent w ++ log
       /\ issued StepModify log = true
       /\ In (ModifyHost "id-h1" (Some "h2") None) log.
Proof.
  intros p w.
  assert (Hres : resolve_identity p w
                 = (Done (Some "id-h1", Some MemoryArray.h1), w))
    by reflexivity.
  assert (Hnn : new_name p <> Some "") by discriminate.
  assert (Hcn : host_connectivity p <> Some "") by discriminate.
  assert (Hdiff : given_field_differs p MemoryArray.h1).
  { left. exists "h2". split; [reflexivity | discriminate]. }
  split; [reflexivity|]. split; [exact Hres|].
  split; [exact Hnn|]. split; [exact Hcn|].
  destruct (modify_issued_iff_field_differs_when_reached p w (Some "id-h1")
              MemoryArray.h1 eq_refl Hres Hnn Hcn)
    as (log & Hlog & Honly & _ & Hthen).
  exists log. split; [exact Hlog|].
  assert (Hissued : issued StepModify log = true).
  { destruct (Hthen Hdiff eq_refl eq_refl) as [Hi|(e & [He|He])];
      [exact Hi | |]; vm_compute in He; discriminate. }
  split; [exact Hissued|]. exact (proj2 (Honly Hissued)).
Defined.
